(** * Narrative analytics engine: [backend/utils.py] and
      [backend/analytics_engine.py]

    The Python code is embedded as Rocq functions, under the names it has
    in the source.

    - A Python [str] is a [string].  The embedding covers ASCII text: the
      whitespace class and the case mappings are those of Python on code
      points below 128, and other characters are carried through unchanged.
    - An exception (of class [Exception], which is what [except Exception]
      catches) is the [Raise] case of [result]; code that can raise returns
      a [result], and [x <- e ;; k] propagates the exception of [e].
    - A Python value is a [pyval]; a [dict] is an association list in
      insertion order.
    - A binary64 [float] is the rational number it denotes.  An arithmetic
      operation rounds its exact result to the nearest binary64 number,
      ties to even ([rnd64]); [round(x, n)] rounds the exact value of [x]
      to [n] decimals, ties to even, and returns the nearest float.
      Overflow, subnormal numbers, infinities and NaN do not arise in the
      quantities computed here; a missing cell of a table is [NaN].
    - A pandas [DataFrame] is a list of column headers, each a name and
      what pandas reports of the column's type, and a list of rows of
      cells.
    - What the code takes from libraries without the repository defining
      it (formatting of numbers, [DataFrame.describe], [DataFrame.corr],
      the scikit-learn training pipeline, [float.__pow__]) is a field of
      the record [PyLib]; the sentiment scorer is the argument [model], as
      in the source. *)

From Stdlib Require Import List String Ascii ZArith QArith Qround Qpower Qabs.
From Stdlib Require Import Lia Lqa Bool Arith Permutation Sorted.
From Stdlib Require DecimalString SpecFloat.
Import ListNotations.
Open Scope string_scope.

(* ================================================================= *)
(** * Python values *)

Inductive result (A : Type) : Type :=
| Ok (a : A)
| Raise (msg : string).
Arguments Ok {A} a.
Arguments Raise {A} msg.

Definition bind {A B : Type} (r : result A) (k : A -> result B) : result B :=
  match r with
  | Ok a => k a
  | Raise msg => Raise msg
  end.

Notation "x <- e ;; k" := (bind e (fun x => k))
  (at level 61, e at next level, right associativity).

(** [try: body except Exception as e: handler(str(e))] *)
Definition try_except {A : Type} (body : result A) (handler : string -> A) : A :=
  match body with
  | Ok a => a
  | Raise msg => handler msg
  end.

Unset Elimination Schemes.
Inductive pyval : Type :=
| PNone
| PInt (z : Z)
| PFloat (x : Q)
| PStr (s : string)
| PList (l : list pyval)
| PDict (d : list (string * pyval)).
Set Elimination Schemes.

Definition dict := list (string * pyval).

Fixpoint dict_get (d : dict) (k : string) : option pyval :=
  match d with
  | [] => None
  | (k', v) :: d' => if String.eqb k' k then Some v else dict_get d' k
  end.

(** [d.get(k, default)]; a value that is not a mapping has no entries. *)
Definition get (v : pyval) (k : string) (default : pyval) : pyval :=
  match v with
  | PDict d => match dict_get d k with Some x => x | None => default end
  | _ => default
  end.

Definition keys (v : pyval) : list string :=
  match v with
  | PDict d => map fst d
  | _ => []
  end.

Fixpoint dict_set (d : dict) (k : string) (v : pyval) : dict :=
  match d with
  | [] => [(k, v)]
  | (k', v') :: d' =>
      if String.eqb k' k then (k', v) :: d' else (k', v') :: dict_set d' k v
  end.

(** [{**a, **b}] *)
Definition dict_merge (a b : pyval) : pyval :=
  match a, b with
  | PDict da, PDict db => PDict (fold_left (fun d kv => dict_set d (fst kv) (snd kv)) db da)
  | _, _ => a
  end.

Definition as_list (v : pyval) : list pyval :=
  match v with
  | PList l => l
  | _ => []
  end.

Definition as_str (v : pyval) : string :=
  match v with
  | PStr s => s
  | _ => ""
  end.

(** The number a numeric value denotes (an [int] or a [float]). *)
Definition as_num (v : pyval) : Q :=
  match v with
  | PInt z => inject_Z z
  | PFloat x => x
  | _ => 0
  end.

(* ================================================================= *)
(** * Strings *)

(** [str.isspace] on ASCII: TAB, LF, VT, FF, CR, FS, GS, RS, US and space;
    the same class is used by [\s], [str.strip] and [str.split]. *)
Definition is_space (c : ascii) : bool :=
  let n := nat_of_ascii c in
  ((9 <=? n) && (n <=? 13))%nat || ((28 <=? n) && (n <=? 32))%nat.

(** The character class [[\r\n\t]]. *)
Definition is_crlftab (c : ascii) : bool :=
  let n := nat_of_ascii c in
  (n =? 13)%nat || (n =? 10)%nat || (n =? 9)%nat.

(** [s.replace(old, new)] for single characters. *)
Fixpoint replace_char (old new : ascii) (s : string) : string :=
  match s with
  | EmptyString => EmptyString
  | String c s' =>
      String (if Ascii.eqb c old then new else c) (replace_char old new s')
  end.

(** [re.sub(r"[p]+", " ", s)]: every maximal run of characters of the
    class [p] becomes one space; [in_run] tells that the previous character
    was in the class. *)
Fixpoint sub_runs (p : ascii -> bool) (in_run : bool) (s : string) : string :=
  match s with
  | EmptyString => EmptyString
  | String c s' =>
      if p c then
        if in_run then sub_runs p true s' else String " " (sub_runs p true s')
      else String c (sub_runs p false s')
  end.

Fixpoint lstrip (s : string) : string :=
  match s with
  | EmptyString => EmptyString
  | String c s' => if is_space c then lstrip s' else s
  end.

Fixpoint rstrip (s : string) : string :=
  match s with
  | EmptyString => EmptyString
  | String c s' =>
      match rstrip s' with
      | EmptyString => if is_space c then EmptyString else String c EmptyString
      | r => String c r
      end
  end.

Definition strip (s : string) : string := rstrip (lstrip s).

Definition lower_char (c : ascii) : ascii :=
  let n := nat_of_ascii c in
  if ((65 <=? n) && (n <=? 90))%nat then ascii_of_nat (n + 32) else c.

Definition upper_char (c : ascii) : ascii :=
  let n := nat_of_ascii c in
  if ((97 <=? n) && (n <=? 122))%nat then ascii_of_nat (n - 32) else c.

Fixpoint map_string (f : ascii -> ascii) (s : string) : string :=
  match s with
  | EmptyString => EmptyString
  | String c s' => String (f c) (map_string f s')
  end.

Definition lower (s : string) : string := map_string lower_char s.
Definition upper (s : string) : string := map_string upper_char s.

(** [s.split()]: the maximal runs of non-whitespace characters; [cur] is
    the run being read. *)
Fixpoint split_from (s : string) (cur : string) : list string :=
  match s with
  | EmptyString => if String.eqb cur "" then [] else [cur]
  | String c s' =>
      if is_space c then
        if String.eqb cur "" then split_from s' "" else cur :: split_from s' ""
      else split_from s' (cur ++ String c "")
  end.

Definition split (s : string) : list string := split_from s "".

Fixpoint join (sep : string) (l : list string) : string :=
  match l with
  | [] => ""
  | [x] => x
  | x :: l' => x ++ sep ++ join sep l'
  end.

(** Comparison of strings by code point, as Python orders [str]. *)
Definition str_ltb (a b : string) : bool :=
  match String.compare a b with
  | Lt => true
  | _ => false
  end.

(* ================================================================= *)
(** * binary64 arithmetic *)

Open Scope Q_scope.

(** [round_half_even x]: the integer nearest to [x], ties to even. *)
Definition round_half_even (x : Q) : Z :=
  let f := Qfloor x in
  match Qcompare (x - inject_Z f) (1 # 2) with
  | Gt => (f + 1)%Z
  | Eq => if Z.even f then f else (f + 1)%Z
  | Lt => f
  end.

Definition pow2 (e : Z) : Q := 2 ^ e.

(** For [x > 0], the exponent [e] with [2^e <= x < 2^(e+1)]. *)
Definition binade (x : Q) : Z :=
  let e := (Z.log2 (Qnum x) - Z.log2 (Zpos (Qden x)))%Z in
  if Qlt_le_dec x (pow2 e) then (e - 1)%Z else e.

(** Rounding of a positive rational to 53 significant bits. *)
Definition rnd64_pos (x : Q) : Q :=
  let sh := (52 - binade x)%Z in
  Qred (inject_Z (round_half_even (x * pow2 sh)) * pow2 (- sh)).

(** The binary64 number nearest to [x] (ties to even). *)
Definition rnd64 (x : Q) : Q :=
  match Qcompare x 0 with
  | Eq => 0
  | Gt => rnd64_pos x
  | Lt => - rnd64_pos (- x)
  end.

Definition fadd (x y : Q) : Q := rnd64 (x + y).
Definition fsub (x y : Q) : Q := rnd64 (x - y).
Definition fmul (x y : Q) : Q := rnd64 (x * y).
(** A decimal literal such as [0.7]. *)
Definition flit (n : Z) (d : positive) : Q := rnd64 (n # d).
(** [float(n)] and [a / b] on integers. *)
Definition float_of_Z (n : Z) : Q := rnd64 (inject_Z n).
Definition int_div (a b : Z) : Q := rnd64 (inject_Z a / inject_Z b).

(** [round(x, ndigits)] on a float: the exact value of [x] is rounded to
    [ndigits] decimals, ties to even, and the decimal is converted to the
    nearest float. *)
Definition py_round (x : Q) (ndigits : Z) : Q :=
  let scale := inject_Z (10 ^ ndigits) in
  rnd64 (inject_Z (round_half_even (x * scale)) / scale).

(** [int(x)]: truncation toward zero. *)
Definition py_int (x : Q) : Z :=
  if Qlt_le_dec x 0 then (- Qfloor (- x))%Z else Qfloor x.

Definition Qltb (x y : Q) : bool := if Qlt_le_dec x y then true else false.

Close Scope Q_scope.

(* ================================================================= *)
(** * Tables *)

(** A cell of a table: a missing value, a string or a number. *)
Inductive cell : Type :=
| NaN
| Str (s : string)
| Num (x : Q).

(** What pandas reports about a column: [DString] when
    [pd.api.types.is_string_dtype] holds of it, [DNumber] when
    [select_dtypes(include=[np.number])] keeps it. *)
Inductive dtype : Type :=
| DString
| DNumber
| DOther.

Record DataFrame : Type := mkDF {
  columns : list (string * dtype);
  rows : list (list cell)
}.

Definition is_null (c : cell) : bool :=
  match c with
  | NaN => true
  | _ => false
  end.

Definition cell_eqb (a b : cell) : bool :=
  match a, b with
  | NaN, NaN => true
  | Str s, Str t => String.eqb s t
  | Num x, Num y => Qeq_bool x y
  | _, _ => false
  end.

Fixpoint row_eqb (r1 r2 : list cell) : bool :=
  match r1, r2 with
  | [], [] => true
  | a :: r1', b :: r2' => cell_eqb a b && row_eqb r1' r2'
  | _, _ => false
  end.

Definition is_string_dtype (t : dtype) : bool :=
  match t with
  | DString => true
  | _ => false
  end.

Definition is_number_dtype (t : dtype) : bool :=
  match t with
  | DNumber => true
  | _ => false
  end.

Fixpoint index_of (name : string) (cols : list (string * dtype)) : option nat :=
  match cols with
  | [] => None
  | (n, _) :: cols' =>
      if String.eqb n name then Some O else option_map S (index_of name cols')
  end.

(** The cells of column number [j]. *)
Definition column_at (df : DataFrame) (j : nat) : list cell :=
  map (fun r => nth j r NaN) (rows df).

(** [df[name]] *)
Definition series (df : DataFrame) (name : string) : list cell :=
  match index_of name (columns df) with
  | Some j => column_at df j
  | None => []
  end.

(** A well-formed table: the rows are mappings from the
    column names, which are distinct, to cells. *)
Definition valid_table (df : DataFrame) : Prop :=
  NoDup (map fst (columns df)) /\
  Forall (fun r => List.length r = List.length (columns df)) (rows df).

Definition non_empty_table (df : DataFrame) : Prop :=
  columns df <> [] /\ rows df <> [].

(* ================================================================= *)
(** * utils.py *)

Definition clean_text (text : string) : string :=
  let text := replace_char zero " " text in
  let text := sub_runs is_crlftab false text in
  let text := sub_runs is_space false text in
  strip text.

Definition _normalize_value (value : cell) : cell :=
  match value with
  | Str s => Str (clean_text s)
  | _ => value
  end.

(** [dropna(how="all")] *)
Definition dropna_all (rs : list (list cell)) : list (list cell) :=
  filter (fun r => negb (forallb is_null r)) rs.

(** [drop_duplicates()]: a row equal to an earlier one is dropped; [seen]
    holds the rows already kept. *)
Fixpoint drop_duplicates_from (seen rs : list (list cell)) : list (list cell) :=
  match rs with
  | [] => []
  | r :: rs' =>
      if existsb (row_eqb r) seen then drop_duplicates_from seen rs'
      else r :: drop_duplicates_from (r :: seen) rs'
  end.

Definition drop_duplicates (rs : list (list cell)) : list (list cell) :=
  drop_duplicates_from [] rs.

Definition clean_dataframe (df : DataFrame) : DataFrame :=
  let cleaned := dropna_all (rows df) in
  let cleaned := drop_duplicates cleaned in
  mkDF (columns df) (map (map _normalize_value) cleaned).

(* ================================================================= *)
(** * Counter and sorting *)

(** A [Counter]: keys in first-encountered order, each with its count. *)
Fixpoint counter_incr (k : string) (c : list (string * nat)) : list (string * nat) :=
  match c with
  | [] => [(k, 1%nat)]
  | (k', n) :: c' =>
      if String.eqb k' k then (k', S n) :: c' else (k', n) :: counter_incr k c'
  end.

Definition Counter (xs : list string) : list (string * nat) :=
  fold_left (fun c k => counter_incr k c) xs [].

(** [sorted(l, reverse=True)] for the strict order [ltb]: descending, and
    elements that compare equal keep their order. *)
Fixpoint insert_desc {A : Type} (ltb : A -> A -> bool) (x : A) (l : list A) : list A :=
  match l with
  | [] => [x]
  | y :: l' => if ltb x y then y :: insert_desc ltb x l' else x :: l
  end.

Definition sorted_desc {A : Type} (ltb : A -> A -> bool) (l : list A) : list A :=
  fold_right (insert_desc ltb) [] l.

Definition count_ltb (a b : string * nat) : bool := (snd a <? snd b)%nat.

(** [Counter.most_common(n)] *)
Definition most_common (n : nat) (c : list (string * nat)) : list (string * nat) :=
  firstn n (sorted_desc count_ltb c).

(* ================================================================= *)
(** * Library functions *)

(** What the pipeline takes from Python and its libraries without the
    repository defining it. *)
Record PyLib : Type := {
  (** [str(x)] of a number, used by [astype(str)] *)
  str_of_num : Q -> string;
  (** [format(x, spec)] of a float, for the specs [.1f], [.3f] and [.1%] *)
  format_float : string -> Q -> string;
  (** [format(n, spec)] of an integer, for the empty spec and [,] *)
  format_int : string -> Z -> string;
  (** [df.describe(include="all").fillna("").to_dict()] of a table that has
      columns *)
  describe : DataFrame -> pyval;
  (** [TfidfVectorizer.fit_transform], [train_test_split],
      [LogisticRegression.fit] and [predict]: the held-out labels, each
      with the prediction made for it, or the exception raised *)
  fit_predict : list string -> list bool -> result (list (bool * bool));
  (** [x ** n] on floats *)
  float_pow : Q -> Z -> Q;
  (** [DataFrame.corr()] at two numeric columns: Pearson's coefficient of
      the rows in which both hold a number, as pandas computes it in
      binary64; [None] when it is NaN *)
  corr : list cell -> list cell -> option Q
}.

(** The result mapping of the sentiment scorer for one text; the pipeline
    reads its ["label"] entry only, a string when present. *)
Record score : Type := mkScore { label : option string }.

(** The sentiment scorer: a callable from texts to scores that may raise. *)
Definition scorer : Type := list string -> result (list score).

(* ================================================================= *)
(** * Correlation *)

(** [.fillna(0)] on a coefficient: NaN becomes 0. *)
Definition fillna0 (c : option Q) : Q :=
  match c with
  | Some r => r
  | None => 0%Q
  end.

(** The tuples [(abs(corr_val), col_a, col_b, corr_val)] and their order,
    that of Python on tuples: by the first component that differs. *)
Definition pair_entry : Type := Q * string * string * Q.

Definition pair_ltb (p q : pair_entry) : bool :=
  match p, q with
  | (a1, ca1, cb1, r1), (a2, ca2, cb2, r2) =>
      if Qltb a1 a2 then true
      else if Qltb a2 a1 then false
      else if str_ltb ca1 ca2 then true
      else if str_ltb ca2 ca1 then false
      else if str_ltb cb1 cb2 then true
      else if str_ltb cb2 cb1 then false
      else Qltb r1 r2
  end.

(* ================================================================= *)
(** * analytics_engine.py *)

Section Engine.

Variable lib : PyLib.

Definition _find_text_column (df : DataFrame) : option string :=
  option_map fst (find (fun c => is_string_dtype (snd c)) (columns df)).

(** [if text_column:] holds of a name that is not the empty string. *)
Definition column_found (text_column : option string) : bool :=
  match text_column with
  | Some name => negb (String.eqb name "")
  | None => false
  end.

(** [df[text_column].fillna("").astype(str).tolist()] *)
Definition astype_str (c : cell) : string :=
  match c with
  | NaN => ""
  | Str s => s
  | Num x => str_of_num lib x
  end.

Definition text_values (df : DataFrame) (name : string) : list string :=
  map astype_str (series df name).

Definition _tokenize (text : string) : list string :=
  filter (fun token => negb (String.eqb token "")) (split (lower (clean_text text))).

Definition _sentiment_label (s : score) : string :=
  let label := match label s with Some l => l | None => "NEUTRAL" end in
  upper label.

Definition count_eq (x : string) (l : list string) : nat :=
  List.length (filter (String.eqb x) l).

Definition counter_dict (c : list (string * nat)) : pyval :=
  PDict (map (fun kn => (fst kn, PInt (Z.of_nat (snd kn)))) c).

Definition str_len (s : string) : Z := Z.of_nat (String.length s).

Definition Zsum (l : list Z) : Z := fold_right Z.add 0%Z l.

Definition perform_eda (df : DataFrame) (model : scorer) : result pyval :=
  let text_column := _find_text_column df in
  let records := Z.of_nat (List.length (rows df)) in
  match text_column with
  | Some name =>
      if column_found text_column then
        let texts := text_values df name in
        let lengths :=
          map (fun text => str_len (clean_text text))
              (filter (fun text => negb (String.eqb text "")) texts) in
        let avg_length :=
          match lengths with
          | [] => 0%Z
          | _ => (Zsum lengths / Z.of_nat (List.length lengths))%Z
          end in
        sentiment_distribution <-
          match texts with
          | [] => Ok (PDict [])
          | _ =>
              scores <- model (firstn 200 texts) ;;
              let labels := map _sentiment_label scores in
              Ok (counter_dict (Counter labels))
          end ;;
        let tokens := flat_map _tokenize (firstn 500 texts) in
        let word_frequency :=
          map (fun wc => PDict [("word", PStr (fst wc));
                                ("count", PInt (Z.of_nat (snd wc)))])
              (most_common 15 (Counter tokens)) in
        Ok (PDict [("total_records", PInt records);
                   ("average_text_length", PInt avg_length);
                   ("sentiment_distribution", sentiment_distribution);
                   ("word_frequency", PList word_frequency)])
      else
        Ok (PDict [("total_records", PInt records);
                   ("average_text_length", PInt 0);
                   ("sentiment_distribution", PDict []);
                   ("word_frequency", PList [])])
  | None =>
      Ok (PDict [("total_records", PInt records);
                 ("average_text_length", PInt 0);
                 ("sentiment_distribution", PDict []);
                 ("word_frequency", PList [])])
  end.

(** [df.describe(include="all")] raises on a table without columns. *)
Definition describe_all (df : DataFrame) : result pyval :=
  match columns df with
  | [] => Raise "Cannot describe a DataFrame without columns"
  | _ => Ok (describe lib df)
  end.

(** [len(labels) or 1] *)
Definition len_or_1 {A : Type} (l : list A) : Z :=
  match l with
  | [] => 1%Z
  | _ => Z.of_nat (List.length l)
  end.

Definition descriptive_analytics (df : DataFrame) (model : scorer) : result pyval :=
  let text_column := _find_text_column df in
  summary_stats <- describe_all df ;;
  pcts <-
    match text_column with
    | Some name =>
        if column_found text_column then
          let texts := text_values df name in
          scores <- model (firstn 200 texts) ;;
          let labels := map _sentiment_label scores in
          let total := len_or_1 labels in
          let positive_pct := int_div (Z.of_nat (count_eq "POSITIVE" labels)) total in
          let negative_pct := int_div (Z.of_nat (count_eq "NEGATIVE" labels)) total in
          Ok (positive_pct, negative_pct)
        else Ok (0%Q, 0%Q)
    | None => Ok (0%Q, 0%Q)
    end ;;
  Ok (PDict [("summary_statistics", summary_stats);
             ("positive_percentage", PFloat (py_round (fmul (fst pcts) 100) 2));
             ("negative_percentage", PFloat (py_round (fmul (snd pcts) 100) 2))]).

(** The texts scored NEGATIVE, from [zip(texts, scores)]. *)
Definition negative_texts (texts : list string) (scores : list score) : list string :=
  map fst (filter (fun ts => String.eqb (_sentiment_label (snd ts)) "NEGATIVE")
                  (combine texts scores)).

(** The numeric columns, as [df.select_dtypes(include=[np.number])] keeps
    them: name and cells. *)
Fixpoint numeric_columns_from (df : DataFrame) (j : nat) (cols : list (string * dtype))
  : list (string * list cell) :=
  match cols with
  | [] => []
  | (name, t) :: cols' =>
      if is_number_dtype t
      then (name, column_at df j) :: numeric_columns_from df (S j) cols'
      else numeric_columns_from df (S j) cols'
  end.

Definition numeric_columns (df : DataFrame) : list (string * list cell) :=
  numeric_columns_from df 0 (columns df).

(** The double loop over [columns] and [columns[i + 1:]]. *)
Fixpoint correlation_pairs (cols : list (string * list cell)) : list pair_entry :=
  match cols with
  | [] => []
  | (col_a, xs) :: cols' =>
      map (fun b => let corr_val := fillna0 (corr lib xs (snd b)) in
                    (Qabs corr_val, col_a, fst b, corr_val)) cols'
      ++ correlation_pairs cols'
  end.

Definition insight_of (p : pair_entry) : pyval :=
  match p with
  | (_, col_a, col_b, corr_val) =>
      PDict [("pair", PStr (col_a ++ " vs " ++ col_b));
             ("correlation", PFloat (py_round corr_val 3))]
  end.

Definition correlation_insights (df : DataFrame) : list pyval :=
  let numeric_df := numeric_columns df in
  if (2 <=? List.length numeric_df)%nat then
    map insight_of (firstn 5 (sorted_desc pair_ltb (correlation_pairs numeric_df)))
  else [].

Definition diagnostic_analytics (df : DataFrame) (model : scorer) : result pyval :=
  let text_column := _find_text_column df in
  negative_keywords <-
    match text_column with
    | Some name =>
        if column_found text_column then
          let texts := text_values df name in
          scores <- model (firstn 200 texts) ;;
          let tokens := flat_map _tokenize (negative_texts texts scores) in
          Ok (map (fun wc => PDict [("keyword", PStr (fst wc));
                                    ("count", PInt (Z.of_nat (snd wc)))])
                  (most_common 10 (Counter tokens)))
        else Ok []
    | None => Ok []
    end ;;
  Ok (PDict [("negative_keywords", PList negative_keywords);
             ("correlation_insights", PList (correlation_insights df))]).

(** ** Metrics of [sklearn.metrics] on binary labels

    Each pair holds a held-out label and the prediction for it; the
    positive class is [true].  The metrics are the ratios scikit-learn
    documents, evaluated in binary64, with [zero_division=0]. *)

Definition count_where (f : bool * bool -> bool) (pairs : list (bool * bool)) : Z :=
  Z.of_nat (List.length (filter f pairs)).

Definition true_pos (pairs : list (bool * bool)) : Z :=
  count_where (fun yp => fst yp && snd yp) pairs.
Definition false_pos (pairs : list (bool * bool)) : Z :=
  count_where (fun yp => negb (fst yp) && snd yp) pairs.
Definition false_neg (pairs : list (bool * bool)) : Z :=
  count_where (fun yp => fst yp && negb (snd yp)) pairs.

Definition ratio_or_zero (a b : Z) : Q :=
  if (b =? 0)%Z then 0%Q else int_div a b.

Definition accuracy_score (pairs : list (bool * bool)) : Q :=
  int_div (count_where (fun yp => Bool.eqb (fst yp) (snd yp)) pairs)
          (Z.of_nat (List.length pairs)).

Definition precision_score (pairs : list (bool * bool)) : Q :=
  ratio_or_zero (true_pos pairs) (true_pos pairs + false_pos pairs).

Definition recall_score (pairs : list (bool * bool)) : Q :=
  ratio_or_zero (true_pos pairs) (true_pos pairs + false_neg pairs).

Definition f1_score (pairs : list (bool * bool)) : Q :=
  ratio_or_zero (2 * true_pos pairs)
                (2 * true_pos pairs + false_pos pairs + false_neg pairs).

Definition skipped (reason : string) : pyval :=
  PDict [("status", PStr "skipped"); ("reason", PStr reason)].

(** [len(set(labels))] *)
Definition distinct_labels (labels : list bool) : nat :=
  (if existsb (fun b => b) labels then 1 else 0) +
  (if existsb negb labels then 1 else 0).

(** The body of the [try] statement. *)
Definition train_and_evaluate (texts : list string) (model : scorer) : result pyval :=
  scores <- model (firstn 500 texts) ;;
  let labels :=
    map (fun s => String.eqb (_sentiment_label s) "POSITIVE") scores in
  if (distinct_labels labels <? 2)%nat then
    Ok (skipped "All texts have the same sentiment; model training requires mixed sentiment data.")
  else
    pairs <- fit_predict lib (firstn (List.length labels) texts) labels ;;
    Ok (PDict [("status", PStr "trained");
               ("accuracy", PFloat (py_round (accuracy_score pairs) 3));
               ("precision", PFloat (py_round (precision_score pairs) 3));
               ("recall", PFloat (py_round (recall_score pairs) 3));
               ("f1_score", PFloat (py_round (f1_score pairs) 3))]).

Definition predictive_analytics (df : DataFrame) (model : scorer) : result pyval :=
  let text_column := _find_text_column df in
  match text_column with
  | Some name =>
      if column_found text_column then
        let texts := text_values df name in
        if (List.length texts <? 10)%nat then
          Ok (skipped "Not enough text records for training.")
        else
          Ok (try_except (train_and_evaluate texts model)
                (fun e => skipped ("Model training failed: " ++ e)))
      else Ok (skipped "No text column available for model training.")
  | None => Ok (skipped "No text column available for model training.")
  end.

Definition prescriptive_analytics (summary : pyval) : string :=
  let positive_pct :=
    get (get summary "descriptive_analytics" (PDict [])) "positive_percentage" (PInt 0) in
  let negative_pct :=
    get (get summary "descriptive_analytics" (PDict [])) "negative_percentage" (PInt 0) in
  if Qltb 50 (as_num negative_pct) then
    "High negative sentiment detected. Prioritize customer feedback loops and rapid remediation."
  else if Qltb 70 (as_num positive_pct) then
    "Strong positive sentiment. Scale current messaging and reinforce top-performing channels."
  else
    "Sentiment is mixed. Focus on improving consistency and monitoring key drivers weekly.".

Definition as_int (v : pyval) : Z :=
  match v with
  | PInt z => z
  | PFloat x => py_int x
  | _ => 0%Z
  end.

Definition is_str (v : pyval) (s : string) : bool :=
  match v with
  | PStr t => String.eqb t s
  | _ => false
  end.

Definition _generate_narrative (section : string) (data : pyval) : string :=
  if String.eqb section "descriptive" then
    let total := get data "total_records" (PInt 0) in
    let pos_pct := as_num (get data "positive_percentage" (PInt 0)) in
    let neg_pct := as_num (get data "negative_percentage" (PInt 0)) in
    "Analysis of " ++ format_int lib "," (as_int total)
      ++ " records reveals a sentiment distribution with "
      ++ format_float lib ".1f" pos_pct ++ "% positive and "
      ++ format_float lib ".1f" neg_pct ++ "% negative responses. "
      ++ "The dataset demonstrates "
      ++ (if Qltb neg_pct pos_pct then "favorable" else "concerning")
      ++ " patterns that warrant "
      ++ (if Qltb 70 pos_pct then "celebration"
          else if Qltb 40 neg_pct then "attention" else "monitoring")
      ++ "."
  else if String.eqb section "diagnostic" then
    let keywords := as_list (get data "negative_keywords" (PList [])) in
    let correlations := as_list (get data "correlation_insights" (PList [])) in
    match keywords with
    | _ :: _ =>
        let top_words :=
          join ", " (map (fun k => as_str (get k "keyword" PNone)) (firstn 3 keywords)) in
        "Root cause analysis identifies key negative indicators: " ++ top_words ++ ". "
          ++ (match correlations with
              | _ :: _ =>
                  "Statistical correlations reveal "
                    ++ format_int lib "" (Z.of_nat (List.length correlations))
                    ++ " significant relationships"
              | [] => "Limited correlation patterns detected"
              end)
          ++ " between features, suggesting "
          ++ (match correlations with _ :: _ => "structured" | [] => "independent" end)
          ++ " data dynamics."
    | [] => "Diagnostic analysis completed with limited negative indicators detected."
    end
  else if String.eqb section "predictive" then
    let status := get data "status" (PStr "unknown") in
    if is_str status "trained" then
      let acc := as_num (get data "accuracy" (PInt 0)) in
      let f1 := as_num (get data "f1_score" (PInt 0)) in
      "Predictive model successfully trained with " ++ format_float lib ".1%" acc
        ++ " accuracy and " ++ format_float lib ".3f" f1 ++ " F1-score. "
        ++ "Forward-looking projections indicate "
        ++ (if Qltb (flit 8 10) acc then "strong" else "moderate")
        ++ " reliability for sentiment prediction tasks. Model performance "
        ++ (if Qltb (flit 85 100) acc then "exceeds" else "meets")
        ++ " industry benchmarks."
    else
      "Predictive modeling skipped due to insufficient training data. Minimum 10 text records required."
  else if String.eqb section "prescriptive" then
    let pos_pct := as_num (get data "positive_percentage" (PInt 0)) in
    let neg_pct := as_num (get data "negative_percentage" (PInt 0)) in
    if Qltb 50 neg_pct then
      "Strategic intervention required. High negative sentiment demands immediate action. "
        ++ "Recommend forming cross-functional task force to address root causes and implement "
        ++ "rapid response protocols. Monitor weekly KPIs for improvement signals."
    else if Qltb 70 pos_pct then
      "Momentum preservation strategy advised. Strong positive indicators suggest current "
        ++ "approach is effective. Scale successful initiatives while maintaining vigilance on "
        ++ "quality metrics. Consider expanding reach to capture broader market segments."
    else
      "Balanced optimization approach recommended. Mixed sentiment patterns indicate opportunities "
        ++ "for targeted improvements. Focus resources on consistency enhancement and systematic "
        ++ "monitoring of key performance drivers to establish positive trajectory."
  else
    "Analysis complete with insights generated from statistical modeling.".

Definition dict_items (v : pyval) : list (string * pyval) :=
  match v with
  | PDict d => d
  | _ => []
  end.

(** [int(n * x)] for an integer [n] and a float [x]. *)
Definition int_times (n : Z) (x : Q) : Z := py_int (fmul (float_of_Z n) x).

Definition _create_bi_overview (eda descriptive : pyval) : pyval :=
  let sentiment_dist := get eda "sentiment_distribution" (PDict []) in
  let composition :=
    map (fun lc => PDict [("label", PStr (fst lc)); ("value", snd lc)])
        (dict_items sentiment_dist) in
  let composition :=
    match composition with
    | [] => [PDict [("label", PStr "Unknown"); ("value", PInt 100)]]
    | _ => composition
    end in
  let total_records := as_int (get eda "total_records" (PInt 100)) in
  let trend :=
    [PDict [("name", PStr "Q1"); ("value", PInt (int_times total_records (flit 7 10)))];
     PDict [("name", PStr "Q2"); ("value", PInt (int_times total_records (flit 85 100)))];
     PDict [("name", PStr "Q3"); ("value", PInt (int_times total_records (flit 95 100)))];
     PDict [("name", PStr "Q4"); ("value", PInt total_records)]] in
  let word_freq := as_list (get eda "word_frequency" (PList [])) in
  let distribution :=
    map (fun item => PDict [("category", get item "word" PNone);
                            ("value", get item "count" PNone)])
        (firstn 8 word_freq) in
  let distribution :=
    match distribution with
    | [] => [PDict [("category", PStr "No data"); ("value", PInt 0)]]
    | _ => distribution
    end in
  PDict [("composition", PList composition);
         ("trend", PList trend);
         ("distribution", PList distribution)].

Definition _create_kpis (eda descriptive : pyval) : list pyval :=
  let total_records := as_int (get eda "total_records" (PInt 0)) in
  let avg_length := as_int (get eda "average_text_length" (PInt 0)) in
  let pos_pct := as_num (get descriptive "positive_percentage" (PInt 0)) in
  let neg_pct := as_num (get descriptive "negative_percentage" (PInt 0)) in
  [PDict [("label", PStr "Total Records");
          ("value", PStr (format_int lib "," total_records));
          ("change", PStr "+15%");
          ("trend", PStr "up")];
   PDict [("label", PStr "Avg Text Length");
          ("value", PStr (format_int lib "" avg_length));
          ("change", PStr "+8%");
          ("trend", PStr "up")];
   PDict [("label", PStr "Positive Rate");
          ("value", PStr (format_float lib ".1f" pos_pct ++ "%"));
          ("change", PStr ((if Qltb 50 pos_pct then "+" else "")
                           ++ format_float lib ".1f" (fsub pos_pct 50) ++ "%"));
          ("trend", PStr (if Qltb 50 pos_pct then "up" else "down"))];
   PDict [("label", PStr "Negative Rate");
          ("value", PStr (format_float lib ".1f" neg_pct ++ "%"));
          ("change", PStr ((if Qltb 30 neg_pct then "+" else "")
                           ++ format_float lib ".1f" (fsub neg_pct 30) ++ "%"));
          ("trend", PStr (if Qltb neg_pct 30 then "down" else "up"))]].

Definition _create_forecast (predictive : pyval) (total_records : Z) : list pyval :=
  if negb (is_str (get predictive "status" PNone) "trained") then
    [PDict [("period", PStr "Current"); ("predicted", PInt total_records)];
     PDict [("period", PStr "Month +1");
            ("predicted", PInt (int_times total_records (flit 105 100)))];
     PDict [("period", PStr "Month +2");
            ("predicted", PInt (int_times total_records (flit 112 100)))];
     PDict [("period", PStr "Month +3");
            ("predicted", PInt (int_times total_records (flit 118 100)))]]
  else
    let accuracy := as_num (get predictive "accuracy" (PFloat (flit 7 10))) in
    let growth_rate := fadd 1 (fmul accuracy (flit 15 100)) in
    [PDict [("period", PStr "Current"); ("predicted", PInt total_records)];
     PDict [("period", PStr "Month +1");
            ("predicted", PInt (int_times total_records growth_rate))];
     PDict [("period", PStr "Month +2");
            ("predicted", PInt (int_times total_records (float_pow lib growth_rate 2)))];
     PDict [("period", PStr "Month +3");
            ("predicted", PInt (int_times total_records (float_pow lib growth_rate 3)))];
     PDict [("period", PStr "Month +4");
            ("predicted", PInt (int_times total_records (float_pow lib growth_rate 4)))]].

Definition recommendation (action impact priority : string) : pyval :=
  PDict [("action", PStr action); ("impact", PStr impact); ("priority", PStr priority)].

Definition _create_recommendations (descriptive diagnostic : pyval) : list pyval :=
  let pos_pct := as_num (get descriptive "positive_percentage" (PInt 0)) in
  let neg_pct := as_num (get descriptive "negative_percentage" (PInt 0)) in
  let correlations := as_list (get diagnostic "correlation_insights" (PList [])) in
  (if Qltb 40 neg_pct then
     recommendation "Implement Customer Feedback Loop"
       "Address negative sentiment drivers through systematic customer engagement and issue resolution protocols."
       "High"
   else
     recommendation "Scale Positive Messaging"
       "Amplify successful communication strategies across additional channels to maximize reach and engagement."
       "Medium")
  :: (if (2 <? List.length correlations)%nat then
        recommendation "Leverage Feature Relationships"
          "Exploit discovered correlations to optimize predictive accuracy and identify intervention points."
          "High"
      else
        recommendation "Enhance Data Collection"
          "Expand feature set to capture additional dimensions and improve analytical depth."
          "Medium")
  :: [recommendation "Establish Continuous Monitoring"
        "Deploy real-time analytics dashboards to track KPIs and enable rapid response to emerging patterns."
        (if Qltb 60 pos_pct then "Low" else "High")].

Definition no_correlation : pyval :=
  PDict [("factor", PStr "No significant correlation");
         ("relationship", PStr "neutral");
         ("strength", PFloat 0)].

(** The loop [while len(formatted) < 3: formatted.append(...)]; [fuel]
    bounds the number of iterations. *)
Fixpoint pad_to_3 (fuel : nat) (formatted : list pyval) : list pyval :=
  match fuel with
  | O => formatted
  | S fuel' =>
      if (List.length formatted <? 3)%nat
      then pad_to_3 fuel' (formatted ++ [no_correlation])
      else formatted
  end.

Definition _format_correlations (correlation_insights : list pyval) : list pyval :=
  let formatted :=
    map (fun insight =>
           let pair := get insight "pair" (PStr "Unknown vs Unknown") in
           let corr_value := as_num (get insight "correlation" (PInt 0)) in
           PDict [("factor", pair);
                  ("relationship", PStr (if Qltb 0 corr_value then "positive" else "negative"));
                  ("strength", PFloat (Qabs corr_value))])
        correlation_insights in
  pad_to_3 3 formatted.

Definition disclaimer : string :=
  "Recommendations are generated through statistical analysis and should be "
  ++ "validated by domain experts. Results are indicative and not guaranteed. "
  ++ "Always conduct additional due diligence before implementing strategic changes.".

Definition run_full_analysis (df : DataFrame) (model : scorer) : result pyval :=
  eda <- perform_eda df model ;;
  descriptive <- descriptive_analytics df model ;;
  diagnostic <- diagnostic_analytics df model ;;
  predictive <- predictive_analytics df model ;;
  let descriptive_narrative :=
    _generate_narrative "descriptive" (dict_merge eda descriptive) in
  let diagnostic_narrative := _generate_narrative "diagnostic" diagnostic in
  let predictive_narrative := _generate_narrative "predictive" predictive in
  let prescriptive_text :=
    prescriptive_analytics (PDict [("descriptive_analytics", descriptive)]) in
  let prescriptive_narrative := _generate_narrative "prescriptive" descriptive in
  let trained := is_str (get predictive "status" PNone) "trained" in
  Ok (PDict
    [("biOverview", _create_bi_overview eda descriptive);
     ("descriptive",
       PDict [("kpis", PList (_create_kpis eda descriptive));
              ("narrative", PStr descriptive_narrative);
              ("chartData", get eda "word_frequency" (PList []))]);
     ("diagnostic",
       PDict [("narrative", PStr diagnostic_narrative);
              ("correlations",
                PList (_format_correlations
                         (as_list (get diagnostic "correlation_insights" (PList [])))))]);
     ("predictive",
       PDict [("narrative", PStr predictive_narrative);
              ("forecast",
                PList (_create_forecast predictive
                         (as_int (get eda "total_records" (PInt 100)))));
              ("confidence",
                if trained then get predictive "accuracy" (PFloat (flit 75 100))
                else PFloat (flit 65 100));
              ("modelExplanation",
                PStr (if trained then
                        "Logistic Regression classifier trained on "
                          ++ format_int lib "" (as_int (get eda "total_records" (PInt 0)))
                          ++ " records using TF-IDF vectorization. Model metrics: Accuracy="
                          ++ format_float lib ".3f" (as_num (get predictive "accuracy" (PInt 0)))
                          ++ ", F1-Score="
                          ++ format_float lib ".3f" (as_num (get predictive "f1_score" (PInt 0)))
                      else
                        "Predictive model requires minimum dataset size for training reliability."))]);
     ("prescriptive",
       PDict [("narrative", PStr prescriptive_narrative);
              ("recommendations", PList (_create_recommendations descriptive diagnostic));
              ("disclaimer", PStr disclaimer)])]).

End Engine.

(* ================================================================= *)
(** * Notions used in the statements *)

(** Text in normal form: no NUL, every whitespace character is a space,
    and no space follows a space; [prev] tells that the previous character
    was a space. *)
Fixpoint spaced (prev : bool) (s : string) : bool :=
  match s with
  | EmptyString => true
  | String c s' =>
      if is_space c then Ascii.eqb c " " && negb prev && spaced true s'
      else negb (Ascii.eqb c zero) && spaced false s'
  end.

Definition head_clean (s : string) : bool :=
  match s with
  | EmptyString => true
  | String c _ => negb (is_space c)
  end.

Fixpoint no_nul (s : string) : bool :=
  match s with
  | EmptyString => true
  | String c s' => negb (Ascii.eqb c zero) && no_nul s'
  end.

(** The table has the text column [name]: the first string-typed column,
    under a name the test [if text_column:] accepts. *)
Definition text_column (df : DataFrame) (name : string) : Prop :=
  _find_text_column df = Some name /\ name <> "".

Definition map_result {A B : Type} (f : A -> B) (r : result A) : result B :=
  match r with
  | Ok a => Ok (f a)
  | Raise msg => Raise msg
  end.

(** What the stages see of a scorer: the labels of its scores. *)
Definition labels_of (model : scorer) (texts : list string) : result (list string) :=
  map_result (map _sentiment_label) (model texts).

(** The result of the predictive stage is well formed: a mapping whose
    status is ["trained"], with the four metrics, or ["skipped"], with a
    reason. *)
Definition trained_result (d : dict) : Prop :=
  dict_get d "status" = Some (PStr "trained") /\
  exists acc prec rec f1,
    dict_get d "accuracy" = Some (PFloat acc) /\
    dict_get d "precision" = Some (PFloat prec) /\
    dict_get d "recall" = Some (PFloat rec) /\
    dict_get d "f1_score" = Some (PFloat f1).

Definition skipped_result (d : dict) : Prop :=
  dict_get d "status" = Some (PStr "skipped") /\
  exists reason, dict_get d "reason" = Some (PStr reason).

Definition unit_interval (x : Q) : Prop := (0 <= x /\ x <= 1)%Q.

(** [labels] as the predictive stage binarizes them. *)
Definition positive_flags (scores : list score) : list bool :=
  map (fun s => String.eqb (_sentiment_label s) "POSITIVE") scores.

(** ** The exact coefficient

    Pearson's coefficient of two columns as a real number, which the
    coefficient of the library approximates in binary64.  The code does
    not compute it: it serves the statements and the library of the
    examples. *)

Open Scope Q_scope.

Definition Qsum (l : list Q) : Q := fold_right Qplus 0 l.

(** The rows in which both columns hold a number. *)
Fixpoint complete_pairs (xs ys : list cell) : list (Q * Q) :=
  match xs, ys with
  | Num a :: xs', Num b :: ys' => (a, b) :: complete_pairs xs' ys'
  | _ :: xs', _ :: ys' => complete_pairs xs' ys'
  | _, _ => []
  end.

(** The real number of square [corr_sq] that is negative when [corr_neg]
    holds. *)
Record exact_corr : Type := mkExact { corr_neg : bool; corr_sq : Q }.

(** [n * sum(x*y) - sum(x) * sum(y)], the covariance scaled by [n^2]. *)
Definition scaled_cov (ps : list (Q * Q)) : Q :=
  inject_Z (Z.of_nat (List.length ps)) * Qsum (map (fun p => fst p * snd p) ps)
  - Qsum (map fst ps) * Qsum (map snd ps).

(** The exact coefficient over the complete pairs; [None] when it is
    undefined, a variance being 0. *)
Definition exact_pearson (xs ys : list cell) : option exact_corr :=
  let ps := complete_pairs xs ys in
  let cov := scaled_cov ps in
  let vx := scaled_cov (map (fun p => (fst p, fst p)) ps) in
  let vy := scaled_cov (map (fun p => (snd p, snd p)) ps) in
  if Qeq_bool (vx * vy) 0 then None
  else Some (mkExact (Qltb cov 0) (Qred (cov * cov / (vx * vy)))).

Close Scope Q_scope.

(** ** Data of the examples *)

Definition decimal (z : Z) : string :=
  DecimalString.NilZero.string_of_int (Z.to_int z).

(** Every number of the column is below [2^-540] in magnitude: the squares
    of its deviations from the mean, which pandas sums, are then below the
    least positive binary64 number and round to 0. *)
Definition underflows (xs : list cell) : bool :=
  forallb (fun c => match c with
                    | Num x => Qltb (Qabs x) (pow2 (-540))
                    | _ => true
                    end) xs.

(** A coefficient for the examples: NaN when the squared deviations of a
    column underflow, as in pandas, and otherwise the exact coefficient
    cut to 15 decimals and rounded to binary64. *)
Definition example_corr (xs ys : list cell) : option Q :=
  if underflows xs || underflows ys then None
  else
    match exact_pearson xs ys with
    | Some e =>
        let m := rnd64 (inject_Z (Z.sqrt (Qfloor (corr_sq e * inject_Z (10 ^ 30))))
                        / inject_Z (10 ^ 15))%Q in
        Some (if corr_neg e then (- m)%Q else m)
    | None => None
    end.

(** A library for the examples.  Its [fit_predict] refuses, as the
    stratified [train_test_split] does, labels with a class of fewer than
    two members, and otherwise predicts the positive class for the
    held-out fifth of the data. *)
Definition example_lib : PyLib := {|
  str_of_num := fun x => decimal (Qfloor x);
  format_float := fun _ x => decimal (Qfloor x);
  format_int := fun _ n => decimal n;
  describe := fun _ => PDict [];
  fit_predict := fun _ labels =>
    if ((List.length (filter (fun b => b) labels) <? 2)%nat
        || (List.length (filter negb labels) <? 2)%nat)%bool
    then Raise "The least populated class in y has only 1 member, which is too few."
    else Ok (map (fun b => (b, true)) (firstn (List.length labels / 5) labels));
  float_pow := fun x n => Qred (x ^ n)%Q;
  corr := example_corr
|}.

(** A table of [n] rows with the text column ["comment"]. *)
Definition comments (n : nat) : DataFrame :=
  mkDF [("comment", DString)] (repeat [Str "fine"] n).

(** A scorer that labels the first [k] texts POSITIVE and the others
    NEGATIVE. *)
Definition first_positive (k : nat) : scorer :=
  fun texts =>
    Ok (map (fun _ => mkScore (Some "POSITIVE")) (firstn k texts)
        ++ map (fun _ => mkScore (Some "NEGATIVE")) (skipn k texts))%list.

(** A scorer that raises. *)
Definition failing_scorer : scorer :=
  fun _ => Raise "inference failed".

(** The scorer returns normally on the texts the eda, descriptive and
    diagnostic stages pass to it. *)
Definition scorer_returns (lib : PyLib) (df : DataFrame) (model : scorer) : Prop :=
  forall name, text_column df name ->
    exists scores, model (firstn 200 (text_values lib df name)) = Ok scores.

(** The entry [section][key] of a report. *)
Definition entry (report : pyval) (section key : string) : pyval :=
  get (get report section PNone) key PNone.

Definition feedback_loop : pyval :=
  recommendation "Implement Customer Feedback Loop"
    "Address negative sentiment drivers through systematic customer engagement and issue resolution protocols."
    "High".

Definition scale_messaging : pyval :=
  recommendation "Scale Positive Messaging"
    "Amplify successful communication strategies across additional channels to maximize reach and engagement."
    "Medium".

Definition high_negative_text : string :=
  "High negative sentiment detected. Prioritize customer feedback loops and rapid remediation.".
Definition strong_positive_text : string :=
  "Strong positive sentiment. Scale current messaging and reinforce top-performing channels.".
Definition mixed_text : string :=
  "Sentiment is mixed. Focus on improving consistency and monitoring key drivers weekly.".

(** The three prescriptive narratives of the report. *)
Definition intervention_narrative : string :=
  "Strategic intervention required. High negative sentiment demands immediate action. "
  ++ "Recommend forming cross-functional task force to address root causes and implement "
  ++ "rapid response protocols. Monitor weekly KPIs for improvement signals.".
Definition momentum_narrative : string :=
  "Momentum preservation strategy advised. Strong positive indicators suggest current "
  ++ "approach is effective. Scale successful initiatives while maintaining vigilance on "
  ++ "quality metrics. Consider expanding reach to capture broader market segments.".
Definition balanced_narrative : string :=
  "Balanced optimization approach recommended. Mixed sentiment patterns indicate opportunities "
  ++ "for targeted improvements. Focus resources on consistency enhancement and systematic "
  ++ "monitoring of key performance drivers to establish positive trajectory.".

(** A scorer that gives every text the same label, or none. *)
Definition constant_scorer (l : option string) : scorer :=
  fun texts => Ok (map (fun _ => mkScore l) texts).

(** The Standard Library's specification of IEEE 754 binary64, to compare
    [rnd64] with: the float of an integer and the rational a float
    denotes. *)
Definition b64_of_Z (n : Z) : SpecFloat.spec_float :=
  SpecFloat.binary_normalize 53 1024 n 0 false.

Definition Q_of_b64 (f : SpecFloat.spec_float) : Q :=
  match f with
  | SpecFloat.S754_finite s m e =>
      Qred ((if s then -1 else 1) * inject_Z (Z.pos m) * pow2 e)%Q
  | _ => 0%Q
  end.

Definition b64_div := SpecFloat.SFdiv 53 1024.
Definition b64_mul := SpecFloat.SFmul 53 1024.
Definition b64_add := SpecFloat.SFadd 53 1024.

(** No two rows of the list are equal. *)
Definition distinct_rows (rs : list (list cell)) : Prop :=
  ForallOrdPairs (fun a b => row_eqb a b = false) rs.

(** Two rows that differ in trailing whitespace only. *)
Definition whitespace_twins : DataFrame :=
  mkDF [("comment", DString); ("value", DNumber)]
       [[Str "good "; Num 1]; [Str "good"; Num 1]].

(** The position at which the token [w] is first encountered in [l]
    (the length of [l] when it does not occur). *)
Fixpoint first_pos (w : string) (l : list string) : nat :=
  match l with
  | [] => O
  | x :: l' => if String.eqb x w then O else S (first_pos w l')
  end.

(** The ranking of [most_common] over the tokens [l]: an entry comes
    before another when its count is greater, or when the counts are equal
    and its word is encountered first. *)
Definition ranks_before (l : list string) (a b : string * nat) : Prop :=
  (snd b < snd a)%nat \/
  (snd a = snd b /\ (first_pos (fst a) l < first_pos (fst b) l)%nat).

Definition word_entry (wc : string * nat) : pyval :=
  PDict [("word", PStr (fst wc)); ("count", PInt (Z.of_nat (snd wc)))].

(** [c] counts the tokens of [l]: one entry for each token, with the
    number of its occurrences, in the order of first encounter. *)
Definition counter_ok (l : list string) (c : list (string * nat)) : Prop :=
  NoDup (map fst c) /\
  (forall w, In w (map fst c) <-> In w l) /\
  Forall (fun wc => snd wc = count_eq (fst wc) l) c /\
  StronglySorted (fun a b => (first_pos a l < first_pos b l)%nat) (map fst c).

Fixpoint no_space (s : string) : bool :=
  match s with
  | EmptyString => true
  | String c s' => negb (is_space c) && no_space s'
  end.

(** The tuple the diagnostic stage builds for the columns [a] and [b]. *)
Definition pair_of (lib : PyLib) (a b : string * list cell) : pair_entry :=
  let corr_val := fillna0 (corr lib (snd a) (snd b)) in
  (Qabs corr_val, fst a, fst b, corr_val).

(** The absolute correlation of a tuple. *)
Definition pair_strength (p : pair_entry) : Q := fst (fst (fst p)).


(** A table with the numeric columns [a] and [b = 2 * a]. *)
Definition doubled : DataFrame :=
  mkDF [("col_a", DNumber); ("col_b", DNumber)]
       [[Num 1; Num 2]; [Num 2; Num 4]; [Num 5; Num 10]].

(** ** Sums over the numbers of a column *)

Definition count_Q (xs : list Q) : Q := inject_Z (Z.of_nat (List.length xs)).





(** A table of three reviews. *)
Definition reviews : DataFrame :=
  mkDF [("review", DString); ("stars", DNumber)]
       [[Str "Bad  food"; Num 1]; [Str "good food"; Num 4]; [Str " Good bad"; Num 3]].

(** ** Notions of the further properties *)

(** Every character of [s] is in the class [p]. *)
Fixpoint all_chars (p : ascii -> bool) (s : string) : bool :=
  match s with
  | EmptyString => true
  | String c s' => p c && all_chars p s'
  end.

(** Text of ASCII characters, code points below 128, on which the case
    mappings of the embedding are those of Python. *)
Definition ascii_text (s : string) : bool :=
  all_chars (fun c => (nat_of_ascii c <? 128)%nat) s.

(** Whitespace or NUL: what the normalizer removes or turns into a space. *)
Definition is_blank (c : ascii) : bool := is_space c || Ascii.eqb c zero.

(** Text as the normalizer leaves it: no NUL, all whitespace is single
    spaces, and none at either end. *)
Definition normal_text (s : string) : Prop :=
  spaced false s = true /\ head_clean s = true /\ rstrip s = s.

(** An insight of the diagnostic stage, a pair of columns with its
    correlation, and the entry the report makes of it. *)
Definition insight (pr : string * Q) : pyval :=
  PDict [("pair", PStr (fst pr)); ("correlation", PFloat (snd pr))].

Definition formatted_insight (pr : string * Q) : pyval :=
  PDict [("factor", PStr (fst pr));
         ("relationship", PStr (if Qltb 0 (snd pr) then "positive" else "negative"));
         ("strength", PFloat (Qabs (snd pr)))].

Definition keyword_entry (wc : string * nat) : pyval :=
  PDict [("keyword", PStr (fst wc)); ("count", PInt (Z.of_nat (snd wc)))].

Definition leverage_relationships : pyval :=
  recommendation "Leverage Feature Relationships"
    "Exploit discovered correlations to optimize predictive accuracy and identify intervention points."
    "High".

Definition enhance_collection : pyval :=
  recommendation "Enhance Data Collection"
    "Expand feature set to capture additional dimensions and improve analytical depth."
    "Medium".

Definition limited_indicators : string :=
  "Diagnostic analysis completed with limited negative indicators detected.".

Definition insufficient_data : string :=
  "Predictive modeling skipped due to insufficient training data. Minimum 10 text records required.".

Definition minimum_size : string :=
  "Predictive model requires minimum dataset size for training reliability.".

(** A scorer that accepts at most 500 texts in a call. *)
Definition at_most_500 (model : scorer) : scorer :=
  fun texts =>
    if (List.length texts <=? 500)%nat then model texts
    else Raise "too many texts".

(* ================================================================= *)
(** * The text normalizer *)

Lemma crlftab_is_space c : is_crlftab c = true -> is_space c = true.
Proof.
  unfold is_crlftab, is_space. intros H.
  repeat (apply orb_true_iff in H; destruct H as [H|H]);
    apply Nat.eqb_eq in H; rewrite H; reflexivity.
Qed.

Lemma replace_nul_no_nul s : no_nul (replace_char zero " " s) = true.
Proof.
  induction s as [|c s IH]; simpl; [reflexivity|].
  rewrite IH, andb_true_r.
  destruct (Ascii.eqb c zero) eqn:E; [reflexivity | now rewrite E].
Qed.

Lemma sub_runs_no_nul p b s : no_nul s = true -> no_nul (sub_runs p b s) = true.
Proof.
  revert b. induction s as [|c s IH]; intros b H; simpl in *; [reflexivity|].
  apply andb_true_iff in H as [Hc Hs].
  destruct (p c); [destruct b|]; simpl; rewrite ?Hc, ?IH; auto.
Qed.

Lemma sub_runs_spaced b s : no_nul s = true -> spaced b (sub_runs is_space b s) = true.
Proof.
  revert b. induction s as [|c s IH]; intros b H; simpl in *; [reflexivity|].
  apply andb_true_iff in H as [Hc Hs].
  destruct (is_space c) eqn:E.
  - destruct b; [now apply IH|]. simpl. now apply IH.
  - simpl. rewrite E, Hc. now apply IH.
Qed.

Lemma lstrip_spaced b s : spaced b s = true -> spaced false (lstrip s) = true.
Proof.
  revert b. induction s as [|c s IH]; intros b H; [reflexivity|].
  simpl in H |- *. destruct (is_space c) eqn:E.
  - apply andb_true_iff in H as [_ Hs]. now apply (IH true).
  - simpl. now rewrite E.
Qed.

Lemma lstrip_head_clean s : head_clean (lstrip s) = true.
Proof.
  induction s as [|c s IH]; simpl; [reflexivity|].
  destruct (is_space c) eqn:E; [exact IH | simpl; now rewrite E].
Qed.

Lemma rstrip_spaced b s : spaced b s = true -> spaced b (rstrip s) = true.
Proof.
  revert b. induction s as [|c s IH]; intros b H; [reflexivity|].
  simpl in H |- *.
  destruct (is_space c) eqn:E.
  - apply andb_true_iff in H as [Hc Hs]. specialize (IH true Hs).
    destruct (rstrip s) as [|d r] eqn:R; [reflexivity|].
    remember (String d r) as t. simpl. now rewrite E, Hc, IH.
  - apply andb_true_iff in H as [Hc Hs]. specialize (IH false Hs).
    destruct (rstrip s) as [|d r] eqn:R; [simpl; now rewrite E, Hc|].
    remember (String d r) as t. simpl. now rewrite E, Hc, IH.
Qed.

Lemma rstrip_head_clean s : head_clean s = true -> head_clean (rstrip s) = true.
Proof.
  destruct s as [|c s]; simpl; [reflexivity|]. intros H.
  apply negb_true_iff in H. rewrite H.
  destruct (rstrip s); simpl; now rewrite H.
Qed.

Lemma rstrip_idem s : rstrip (rstrip s) = rstrip s.
Proof.
  induction s as [|c s IH]; [reflexivity|]. simpl.
  destruct (rstrip s) as [|d r] eqn:R.
  - destruct (is_space c) eqn:E; [reflexivity | simpl; now rewrite E].
  - change (rstrip (String c (String d r))) with
      (match rstrip (String d r) with
       | EmptyString => if is_space c then EmptyString else String c EmptyString
       | String a r' => String c (String a r')
       end).
    now rewrite IH.
Qed.

Lemma lstrip_fix s : head_clean s = true -> lstrip s = s.
Proof.
  destruct s as [|c s]; simpl; [reflexivity|]. intros H.
  apply negb_true_iff in H. now rewrite H.
Qed.

Lemma replace_nul_fix b s : spaced b s = true -> replace_char zero " " s = s.
Proof.
  revert b. induction s as [|c s IH]; intros b H; [reflexivity|].
  simpl in H |- *. destruct (is_space c) eqn:E.
  - apply andb_true_iff in H as [H Hs]. apply andb_true_iff in H as [Hc _].
    apply Ascii.eqb_eq in Hc. subst c. simpl. f_equal. now apply (IH true).
  - apply andb_true_iff in H as [Hc Hs]. apply negb_true_iff in Hc. rewrite Hc.
    f_equal. now apply (IH false).
Qed.

Lemma sub_crlftab_fix b b' s : spaced b s = true -> sub_runs is_crlftab b' s = s.
Proof.
  revert b b'. induction s as [|c s IH]; intros b b' H; [reflexivity|].
  simpl in H |- *. destruct (is_space c) eqn:E.
  - apply andb_true_iff in H as [H Hs]. apply andb_true_iff in H as [Hc _].
    apply Ascii.eqb_eq in Hc. subst c. simpl. f_equal. now apply (IH true).
  - apply andb_true_iff in H as [_ Hs].
    destruct (is_crlftab c) eqn:F.
    + apply crlftab_is_space in F. congruence.
    + f_equal. now apply (IH false).
Qed.

Lemma sub_space_fix b s : spaced b s = true -> sub_runs is_space b s = s.
Proof.
  revert b. induction s as [|c s IH]; intros b H; [reflexivity|].
  simpl in H |- *. destruct (is_space c) eqn:E.
  - apply andb_true_iff in H as [H Hs]. apply andb_true_iff in H as [Hc Hb].
    apply negb_true_iff in Hb. subst b.
    apply Ascii.eqb_eq in Hc. subst c. f_equal. now apply IH.
  - apply andb_true_iff in H as [_ Hs]. f_equal. now apply IH.
Qed.

(** The normalizer yields text without NUL in which all whitespace is
    single spaces between words. *)
Lemma clean_text_spaced s : spaced false (clean_text s) = true.
Proof.
  unfold clean_text, strip. apply rstrip_spaced, (lstrip_spaced false).
  apply sub_runs_spaced, sub_runs_no_nul, replace_nul_no_nul.
Qed.

Lemma clean_text_head_clean s : head_clean (clean_text s) = true.
Proof. unfold clean_text, strip. apply rstrip_head_clean, lstrip_head_clean. Qed.

(** C8. The text normalizer is idempotent: normalizing a normalized string
    changes nothing.  [clean_text] is a total function of its argument, and
    maps the empty string to the empty string. *)
Theorem clean_text_idempotent (s : string) :
  clean_text (clean_text s) = clean_text s /\ clean_text "" = "".
Proof.
  split; [|reflexivity].
  pose proof (clean_text_spaced s) as Hsp.
  pose proof (clean_text_head_clean s) as Hh.
  assert (Hr : rstrip (clean_text s) = clean_text s)
    by (unfold clean_text at 1 2, strip; apply rstrip_idem).
  unfold clean_text at 1.
  rewrite (replace_nul_fix _ _ Hsp), (sub_crlftab_fix _ false _ Hsp),
    (sub_space_fix _ _ Hsp).
  unfold strip. now rewrite (lstrip_fix _ Hh).
Qed.

(* ================================================================= *)
(** * Rounding to binary64 *)

Open Scope Q_scope.


Lemma rhe_range x : (Qfloor x <= round_half_even x <= Qfloor x + 1)%Z.
Proof.
  unfold round_half_even.
  destruct (Qcompare _ _); [destruct (Z.even _)|..]; lia.
Qed.

Lemma rhe_Z k : round_half_even (inject_Z k) = k.
Proof.
  unfold round_half_even. rewrite Qfloor_Z.
  destruct (Qcompare_spec (inject_Z k - inject_Z k) (1 # 2)) as [H|H|H];
    try reflexivity; exfalso; lra.
Qed.

Lemma rhe_mono x y : x <= y -> (round_half_even x <= round_half_even y)%Z.
Proof.
  intros H. pose proof (Qfloor_resp_le _ _ H) as Hf.
  destruct (Z.eq_dec (Qfloor x) (Qfloor y)) as [E|NE].
  - unfold round_half_even. rewrite E.
    destruct (Qcompare_spec (x - inject_Z (Qfloor y)) (1 # 2)) as [H1|H1|H1];
    destruct (Qcompare_spec (y - inject_Z (Qfloor y)) (1 # 2)) as [H2|H2|H2];
      try (destruct (Z.even (Qfloor y)); lia); try lia; exfalso; lra.
  - pose proof (rhe_range x). pose proof (rhe_range y). lia.
Qed.

Lemma pow2_pos e : 0 < pow2 e.
Proof. apply Qpower_0_lt. reflexivity. Qed.

Lemma pow2_add a b : pow2 (a + b) == pow2 a * pow2 b.
Proof. apply Qpower_plus. discriminate. Qed.

Lemma pow2_le a b : (a <= b)%Z -> pow2 a <= pow2 b.
Proof. intros H. apply Qpower_le_compat_l; [exact H | discriminate]. Qed.

Lemma pow2_Z n : (0 <= n)%Z -> pow2 n == inject_Z (2 ^ n).
Proof. intros H. unfold pow2. now rewrite Zpower_Qpower. Qed.

Lemma pow2_opp a : pow2 a * pow2 (- a) == 1.
Proof. rewrite <- pow2_add. now replace (a + - a)%Z with 0%Z by lia. Qed.

Lemma binade_spec x : 0 < x -> pow2 (binade x) <= x /\ x < pow2 (binade x + 1).
Proof.
  intros Hx. destruct x as [a b]. 
  assert (Ha : (0 < a)%Z) by (unfold Qlt in Hx; simpl in Hx; lia).
  unfold binade. cbn [Qnum Qden].
  set (la := Z.log2 a). set (lb := Z.log2 (Z.pos b)).
  assert (Hla : (2 ^ la <= a < 2 ^ (la + 1))%Z).
  { unfold la. pose proof (Z.log2_spec a Ha). replace (la + 1)%Z with (Z.succ (Z.log2 a)) by (unfold la; lia). exact H. }
  assert (Hlb : (2 ^ lb <= Z.pos b < 2 ^ (lb + 1))%Z).
  { unfold lb. pose proof (Z.log2_spec (Z.pos b) eq_refl). replace (Z.log2 (Z.pos b) + 1)%Z with (Z.succ (Z.log2 (Z.pos b))) by lia. exact H. }
  assert (H0a : (0 <= la)%Z) by apply Z.log2_nonneg.
  assert (H0b : (0 <= lb)%Z) by apply Z.log2_nonneg.
  assert (Qa : pow2 la <= inject_Z a /\ inject_Z a < pow2 (la + 1)).
  { rewrite !pow2_Z by lia. rewrite <- Zle_Qle, <- Zlt_Qlt. exact Hla. }
  assert (Qb : pow2 lb <= inject_Z (Z.pos b) /\ inject_Z (Z.pos b) < pow2 (lb + 1)).
  { rewrite !pow2_Z by lia. rewrite <- Zle_Qle, <- Zlt_Qlt. exact Hlb. }
  assert (Hab : a # b == inject_Z a / inject_Z (Z.pos b)) by apply Qmake_Qdiv.
  assert (Hbpos : 0 < inject_Z (Z.pos b)) by reflexivity.
  (* x * b = a *)
  assert (Hxb : (a # b) * inject_Z (Z.pos b) == inject_Z a).
  { rewrite Hab. field. intro HH. rewrite HH in Hbpos. discriminate. }
  assert (Hlow : pow2 (la - lb - 1) <= a # b).
  { apply Qmult_le_r with (z := pow2 (lb + 1)); [apply pow2_pos|].
    rewrite <- pow2_add. replace (la - lb - 1 + (lb + 1))%Z with la by lia.
    apply Qle_trans with (inject_Z a); [apply Qa|].
    rewrite <- Hxb. apply Qmult_le_l; [exact Hx | apply Qlt_le_weak, Qb]. }
  assert (Hhigh : a # b < pow2 (la - lb + 1)).
  { apply Qmult_lt_r with (z := pow2 lb); [apply pow2_pos|].
    rewrite <- pow2_add. replace (la - lb + 1 + lb)%Z with (la + 1)%Z by lia.
    apply Qle_lt_trans with (inject_Z a); [|apply Qa].
    rewrite <- Hxb. apply Qmult_le_l; [exact Hx | apply Qb]. }
  destruct (Qlt_le_dec (a # b) (pow2 (la - lb))) as [Hlt|Hge].
  - split; [exact Hlow|]. now replace (la - lb - 1 + 1)%Z with (la - lb)%Z by lia.
  - split; [exact Hge | exact Hhigh].
Qed.

Lemma binade_mono x y : 0 < x -> x <= y -> (binade x <= binade y)%Z.
Proof.
  intros Hx Hxy.
  assert (Hy : 0 < y) by (eapply Qlt_le_trans; eauto).
  destruct (binade_spec x Hx) as [Lx _].
  destruct (binade_spec y Hy) as [_ Uy].
  destruct (Z_le_gt_dec (binade x) (binade y)) as [H|H]; [exact H|].
  exfalso.
  assert (pow2 (binade y + 1) <= pow2 (binade x)) by (apply pow2_le; lia).
  lra.
Qed.

(** The significand of a positive number lies between [2^52] and [2^53]. *)
Lemma significand_range x :
  0 < x ->
  (2 ^ 52 <= round_half_even (x * pow2 (52 - binade x)) <= 2 ^ 53)%Z.
Proof.
  intros Hx. destruct (binade_spec x Hx) as [L U].
  set (e := binade x) in *.
  assert (P := pow2_pos (52 - e)).
  assert (L' : inject_Z (2 ^ 52) <= x * pow2 (52 - e)).
  { rewrite <- pow2_Z by lia.
    assert (E : pow2 52 == pow2 e * pow2 (52 - e))
      by (rewrite <- pow2_add; now replace (e + (52 - e))%Z with 52%Z by lia).
    rewrite E. apply Qmult_le_r; assumption. }
  assert (U' : x * pow2 (52 - e) <= inject_Z (2 ^ 53)).
  { rewrite <- pow2_Z by lia.
    assert (E : pow2 53 == pow2 (e + 1) * pow2 (52 - e))
      by (rewrite <- pow2_add; now replace (e + 1 + (52 - e))%Z with 53%Z by lia).
    rewrite E. apply Qlt_le_weak, Qmult_lt_r; assumption. }
  apply rhe_mono in L', U'. rewrite rhe_Z in L', U'. lia.
Qed.

Lemma rnd64_pos_eq x :
  rnd64_pos x ==
  inject_Z (round_half_even (x * pow2 (52 - binade x))) * pow2 (- (52 - binade x)).
Proof. unfold rnd64_pos. apply Qred_correct. Qed.

Lemma rnd64_pos_range x :
  0 < x -> pow2 (binade x) <= rnd64_pos x /\ rnd64_pos x <= pow2 (binade x + 1).
Proof.
  intros Hx. rewrite rnd64_pos_eq.
  pose proof (significand_range x Hx) as [L U].
  set (e := binade x) in *. set (m := round_half_even _) in *.
  assert (P := pow2_pos (- (52 - e))).
  split.
  - assert (E : pow2 e == pow2 52 * pow2 (- (52 - e)))
      by (rewrite <- pow2_add; now replace (52 + - (52 - e))%Z with e by lia).
    rewrite E. apply Qmult_le_r; [exact P|]. rewrite pow2_Z by lia. now rewrite <- Zle_Qle.
  - assert (E : pow2 (e + 1) == pow2 53 * pow2 (- (52 - e)))
      by (rewrite <- pow2_add; now replace (53 + - (52 - e))%Z with (e + 1)%Z by lia).
    rewrite E. apply Qmult_le_r; [exact P|]. rewrite pow2_Z by lia. now rewrite <- Zle_Qle.
Qed.

Lemma rnd64_pos_mono x y : 0 < x -> x <= y -> rnd64_pos x <= rnd64_pos y.
Proof.
  intros Hx Hxy.
  assert (Hy : 0 < y) by (eapply Qlt_le_trans; eauto).
  pose proof (binade_mono x y Hx Hxy) as Hb.
  destruct (Z.eq_dec (binade x) (binade y)) as [E|NE].
  - rewrite !rnd64_pos_eq, E.
    apply Qmult_le_r; [apply pow2_pos|].
    rewrite <- Zle_Qle. apply rhe_mono.
    apply Qmult_le_r; [apply pow2_pos | exact Hxy].
  - destruct (rnd64_pos_range x Hx) as [_ U].
    destruct (rnd64_pos_range y Hy) as [L _].
    assert (pow2 (binade x + 1) <= pow2 (binade y)) by (apply pow2_le; lia).
    lra.
Qed.

Lemma rnd64_nonneg x : 0 <= x -> 0 <= rnd64 x.
Proof.
  intros Hx. unfold rnd64.
  destruct (Qcompare_spec x 0) as [H|H|H]; [lra | lra |].
  destruct (rnd64_pos_range x H) as [L _]. pose proof (pow2_pos (binade x)). lra.
Qed.

(** Rounding is monotone on the non-negative numbers. *)
Lemma rnd64_mono x y : 0 <= x -> x <= y -> rnd64 x <= rnd64 y.
Proof.
  intros Hx Hxy. unfold rnd64 at 1.
  destruct (Qcompare_spec x 0) as [H|H|H].
  - apply rnd64_nonneg. lra.
  - lra.
  - unfold rnd64. destruct (Qcompare_spec y 0) as [H'|H'|H']; try lra.
    now apply rnd64_pos_mono.
Qed.

Lemma rnd64_bounded x c : 0 <= x -> x <= c -> rnd64 c == c -> 0 <= rnd64 x <= c.
Proof.
  intros Hx Hc E. split; [now apply rnd64_nonneg|].
  rewrite <- E. now apply rnd64_mono.
Qed.

Lemma py_round_bounded x c n :
  (0 <= n)%Z -> 0 <= x -> x <= inject_Z c -> rnd64 (inject_Z c) == inject_Z c ->
  0 <= py_round x n <= inject_Z c.
Proof.
  intros Hn Hx Hc E. unfold py_round.
  set (scale := inject_Z (10 ^ n)).
  assert (Hs : 0 < scale).
  { unfold scale. rewrite <- (Zlt_Qlt 0). apply Z.pow_pos_nonneg; lia. }
  assert (L : (0 <= round_half_even (x * scale))%Z).
  { rewrite <- (rhe_Z 0). apply rhe_mono. apply Qmult_le_0_compat; lra. }
  assert (U : (round_half_even (x * scale) <= c * 10 ^ n)%Z).
  { rewrite <- (rhe_Z (c * 10 ^ n)). apply rhe_mono.
    rewrite inject_Z_mult. fold scale. apply Qmult_le_r; assumption. }
  apply rnd64_bounded; [| |exact E].
  - apply Qle_shift_div_l; [exact Hs|]. rewrite Qmult_0_l. now rewrite <- (Zle_Qle 0).
  - apply Qle_shift_div_r; [exact Hs|]. unfold scale. rewrite <- inject_Z_mult.
    now rewrite <- Zle_Qle.
Qed.

Lemma int_div_unit a b : (0 <= a <= b)%Z -> 0 <= int_div a b <= 1.
Proof.
  intros H. unfold int_div.
  destruct (Z.eq_dec b 0) as [->|Hb].
  - assert (a = 0%Z) by lia. subst a. vm_compute. split; discriminate.
  - assert (Hb' : 0 < inject_Z b) by (rewrite <- (Zlt_Qlt 0); lia).
    apply rnd64_bounded; [ | | reflexivity].
    + apply Qle_shift_div_l; [exact Hb'|]. rewrite Qmult_0_l. rewrite <- (Zle_Qle 0). lia.
    + apply Qle_shift_div_r; [exact Hb'|]. rewrite Qmult_1_l. rewrite <- Zle_Qle. lia.
Qed.
Lemma py_round_mono x y n :
  (0 <= n)%Z -> 0 <= x -> x <= y -> py_round x n <= py_round y n.
Proof.
  intros Hn Hx Hxy. unfold py_round.
  set (scale := inject_Z (10 ^ n)).
  assert (Hs : 0 < scale).
  { unfold scale. rewrite <- (Zlt_Qlt 0). apply Z.pow_pos_nonneg; lia. }
  assert (L : (0 <= round_half_even (x * scale))%Z).
  { rewrite <- (rhe_Z 0). apply rhe_mono. apply Qmult_le_0_compat; lra. }
  assert (M : (round_half_even (x * scale) <= round_half_even (y * scale))%Z).
  { apply rhe_mono. apply Qmult_le_r; assumption. }
  apply rnd64_mono.
  - apply Qle_shift_div_l; [exact Hs|]. rewrite Qmult_0_l. now rewrite <- (Zle_Qle 0).
  - apply Qmult_le_r; [now apply Qinv_lt_0_compat | now rewrite <- Zle_Qle].
Qed.

(** A percentage grows with the ratio it is computed from. *)
Lemma percentage_mono a b q :
  (0 <= a)%Z -> (0 < b)%Z -> inject_Z a / inject_Z b <= q ->
  py_round (fmul (int_div a b) 100) 2 <= py_round (fmul (rnd64 q) 100) 2.
Proof.
  intros Ha Hb Hq.
  assert (Hb' : 0 < inject_Z b) by (rewrite <- (Zlt_Qlt 0); lia).
  assert (H0 : 0 <= inject_Z a / inject_Z b).
  { apply Qle_shift_div_l; [exact Hb'|]. rewrite Qmult_0_l, <- (Zle_Qle 0). lia. }
  assert (H1 : 0 <= int_div a b) by now apply rnd64_nonneg.
  assert (H2 : int_div a b <= rnd64 q) by now apply rnd64_mono.
  apply py_round_mono; [lia | |].
  - apply rnd64_nonneg. apply Qmult_le_0_compat; [exact H1 | discriminate].
  - apply rnd64_mono.
    + apply Qmult_le_0_compat; [exact H1 | discriminate].
    + apply Qmult_le_r; [reflexivity | exact H2].
Qed.

Lemma ratio_le (a b n : Z) (d : positive) :
  (0 < b)%Z -> (Z.pos d * a <= n * b)%Z -> inject_Z a / inject_Z b <= n # d.
Proof.
  intros Hb H.
  assert (Hb' : 0 < inject_Z b) by (rewrite <- (Zlt_Qlt 0); lia).
  apply Qle_shift_div_r; [exact Hb'|].
  unfold Qle, Qmult, inject_Z. simpl. lia.
Qed.

(** Of two labels counted among the same texts, one cannot have a
    percentage above 70 and the other a percentage above 40. *)
Lemma percentages_exclusive (p n t : Z) :
  (0 <= p)%Z -> (0 <= n)%Z -> (p + n <= t)%Z -> (0 < t)%Z ->
  70 < py_round (fmul (int_div p t) 100) 2 ->
  ~ 40 < py_round (fmul (int_div n t) 100) 2.
Proof.
  intros Hp Hn Hsum Ht H70 H40.
  destruct (Z_le_gt_dec (10 * p) (7 * t)) as [Hle|Hgt].
  - pose proof (percentage_mono p t (7 # 10) Hp Ht (ratio_le p t 7 10 Ht Hle)) as H.
    assert (E : py_round (fmul (rnd64 (7 # 10)) 100) 2 == 70) by (vm_compute; reflexivity).
    rewrite E in H. lra.
  - assert (Hle : (5 * n <= 2 * t)%Z) by lia.
    pose proof (percentage_mono n t (2 # 5) Hn Ht (ratio_le n t 2 5 Ht Hle)) as H.
    assert (E : py_round (fmul (rnd64 (2 # 5)) 100) 2 == 40) by (vm_compute; reflexivity).
    rewrite E in H. lra.
Qed.

Close Scope Q_scope.

(* ================================================================= *)
(** * Sentiment labels *)

Lemma labels_of_inv (m1 m2 : scorer) texts :
  labels_of m1 texts = labels_of m2 texts ->
  (exists s1 s2, m1 texts = Ok s1 /\ m2 texts = Ok s2 /\
                 map _sentiment_label s1 = map _sentiment_label s2)
  \/ (exists e, m1 texts = Raise e /\ m2 texts = Raise e).
Proof.
  unfold labels_of. destruct (m1 texts) as [s1|e1], (m2 texts) as [s2|e2];
    simpl; intros H; inversion H; eauto 6.
Qed.

Lemma negative_texts_labels texts scores :
  negative_texts texts scores =
  map fst (filter (fun tl => String.eqb (snd tl) "NEGATIVE")
                  (combine texts (map _sentiment_label scores))).
Proof.
  unfold negative_texts. revert scores.
  induction texts as [|t texts IH]; intros [|s scores]; simpl; try reflexivity.
  destruct (String.eqb (_sentiment_label s) "NEGATIVE"); simpl; now rewrite IH.
Qed.

Lemma negative_texts_ext texts s1 s2 :
  map _sentiment_label s1 = map _sentiment_label s2 ->
  negative_texts texts s1 = negative_texts texts s2.
Proof. intros H. now rewrite !negative_texts_labels, H. Qed.

Lemma positive_flags_ext (s1 s2 : list score) :
  map _sentiment_label s1 = map _sentiment_label s2 ->
  map (fun s => String.eqb (_sentiment_label s) "POSITIVE") s1 =
  map (fun s => String.eqb (_sentiment_label s) "POSITIVE") s2.
Proof.
  intros H.
  change (fun s => String.eqb (_sentiment_label s) "POSITIVE")
    with (fun s => (fun l => String.eqb l "POSITIVE") (_sentiment_label s)).
  now rewrite <- !(map_map _sentiment_label (fun l => String.eqb l "POSITIVE")), H.
Qed.

Section SameLabels.

Variable lib : PyLib.
Variables m1 m2 : scorer.
Hypothesis same : forall texts, labels_of m1 texts = labels_of m2 texts.

Ltac same_call texts :=
  destruct (labels_of_inv m1 m2 texts (same texts))
    as [(s1 & s2 & -> & -> & Hl)|(e & -> & ->)]; cbn [bind].

Lemma perform_eda_labels df : perform_eda lib df m1 = perform_eda lib df m2.
Proof.
  unfold perform_eda. destruct (_find_text_column df) as [name|]; [|reflexivity].
  destruct (column_found (Some name)); [|reflexivity].
  destruct (text_values lib df name) as [|t texts] eqn:E; [reflexivity|].
  same_call (firstn 200 (t :: texts)); [now rewrite Hl | reflexivity].
Qed.

Lemma descriptive_labels df :
  descriptive_analytics lib df m1 = descriptive_analytics lib df m2.
Proof.
  unfold descriptive_analytics. destruct (describe_all lib df); [cbn [bind]|reflexivity].
  destruct (_find_text_column df) as [name|]; [|reflexivity].
  destruct (column_found (Some name)); [|reflexivity].
  same_call (firstn 200 (text_values lib df name)); [now rewrite Hl | reflexivity].
Qed.

Lemma diagnostic_labels df :
  diagnostic_analytics lib df m1 = diagnostic_analytics lib df m2.
Proof.
  unfold diagnostic_analytics. destruct (_find_text_column df) as [name|]; [|reflexivity].
  destruct (column_found (Some name)); [|reflexivity].
  same_call (firstn 200 (text_values lib df name)); [|reflexivity].
  now rewrite (negative_texts_ext _ _ _ Hl).
Qed.

Lemma predictive_labels df :
  predictive_analytics lib df m1 = predictive_analytics lib df m2.
Proof.
  unfold predictive_analytics. destruct (_find_text_column df) as [name|]; [|reflexivity].
  destruct (column_found (Some name)); [|reflexivity].
  destruct (_ <? 10)%nat; [reflexivity|].
  unfold train_and_evaluate.
  same_call (firstn 500 (text_values lib df name)); [|reflexivity].
  now rewrite (positive_flags_ext _ _ Hl).
Qed.

Lemma run_full_analysis_labels df :
  run_full_analysis lib df m1 = run_full_analysis lib df m2.
Proof.
  unfold run_full_analysis.
  now rewrite perform_eda_labels, descriptive_labels, diagnostic_labels,
    predictive_labels.
Qed.

End SameLabels.

(** C10. Every stage derives the label of a score by uppercasing the
    string under ["label"], with ["NEUTRAL"] when the key is absent, and
    reads nothing else of a score: two scorers whose labels agree after
    this derivation (labels that differ in case only, or a missing label
    against ["NEUTRAL"]) give the same result in every stage and the same
    report.  A score without label has the label ["NEUTRAL"], which is
    neither ["POSITIVE"] nor ["NEGATIVE"]. *)
Theorem sentiment_label_uniform :
  (forall s : score,
     _sentiment_label s =
     upper (match label s with Some l => l | None => "NEUTRAL" end)) /\
  _sentiment_label (mkScore None) = "NEUTRAL" /\
  (forall l1 l2 : string,
     upper l1 = upper l2 ->
     _sentiment_label (mkScore (Some l1)) = _sentiment_label (mkScore (Some l2))) /\
  (forall (lib : PyLib) (m1 m2 : scorer),
     (forall texts, labels_of m1 texts = labels_of m2 texts) ->
     forall df,
       perform_eda lib df m1 = perform_eda lib df m2 /\
       descriptive_analytics lib df m1 = descriptive_analytics lib df m2 /\
       diagnostic_analytics lib df m1 = diagnostic_analytics lib df m2 /\
       predictive_analytics lib df m1 = predictive_analytics lib df m2 /\
       run_full_analysis lib df m1 = run_full_analysis lib df m2).
Proof.
  split; [reflexivity|]. split; [reflexivity|]. split.
  - intros l1 l2 H. exact H.
  - intros lib m1 m2 H df.
    repeat split;
      [apply perform_eda_labels | apply descriptive_labels | apply diagnostic_labels
      | apply predictive_labels | apply run_full_analysis_labels]; exact H.
Qed.

Lemma sentiment_label_uniform_witness :
  run_full_analysis example_lib (comments 3) (constant_scorer None) =
  run_full_analysis example_lib (comments 3) (constant_scorer (Some "Neutral")).
Proof.
  destruct sentiment_label_uniform as (_ & _ & _ & H).
  apply (H example_lib (constant_scorer None) (constant_scorer (Some "Neutral"))).
  intros texts. unfold labels_of, constant_scorer. simpl.
  rewrite !map_map. reflexivity.
Defined.

(* ================================================================= *)
(** * The predictive stage *)

Lemma skipped_is_skipped reason : skipped_result [("status", PStr "skipped"); ("reason", PStr reason)].
Proof. split; [reflexivity | now exists reason]. Qed.

(** The predictive stage returns normally, with a well-formed result. *)
Lemma predictive_returns (lib : PyLib) (df : DataFrame) (model : scorer) :
  exists d : dict,
    predictive_analytics lib df model = Ok (PDict d) /\
    (trained_result d \/ skipped_result d).
Proof.
  unfold predictive_analytics.
  destruct (_find_text_column df) as [name|];
    [|eexists; split; [reflexivity | right; apply skipped_is_skipped]].
  destruct (column_found (Some name));
    [|eexists; split; [reflexivity | right; apply skipped_is_skipped]].
  destruct (_ <? 10)%nat;
    [eexists; split; [reflexivity | right; apply skipped_is_skipped]|].
  unfold train_and_evaluate.
  destruct (model _) as [scores|e]; cbn [bind try_except];
    [|eexists; split; [reflexivity | right; apply skipped_is_skipped]].
  destruct (_ <? 2)%nat; cbn [try_except];
    [eexists; split; [reflexivity | right; apply skipped_is_skipped]|].
  destruct (fit_predict lib _ _) as [pairs|e]; cbn [bind try_except];
    [|eexists; split; [reflexivity | right; apply skipped_is_skipped]].
  eexists; split; [reflexivity|]. left. split; [reflexivity|].
  repeat eexists.
Qed.

(** C2. Whatever the table, the scorer and the training pipeline do, the
    predictive stage returns normally, and its result is a mapping with
    status ["trained"] and the four metrics, or with status ["skipped"]
    and a reason: an exception of the scorer or of vectorization,
    splitting, training or evaluation is caught. *)
Theorem predictive_never_raises (lib : PyLib) (df : DataFrame) (model : scorer) :
  exists d : dict,
    predictive_analytics lib df model = Ok (PDict d) /\
    (trained_result d \/ skipped_result d).
Proof. exact (predictive_returns lib df model). Qed.


Lemma index_of_some name cols :
  In name (map fst cols) -> exists j, index_of name cols = Some j.
Proof.
  induction cols as [|[n t] cols IH]; simpl; [tauto|].
  intros H. destruct (String.eqb n name) eqn:E; [now exists O|].
  destruct H as [H|H]; [subst; now rewrite String.eqb_refl in E|].
  destruct (IH H) as [j ->]. now exists (S j).
Qed.

Lemma find_text_column_in df name :
  _find_text_column df = Some name -> In name (map fst (columns df)).
Proof.
  unfold _find_text_column.
  destruct (find _ (columns df)) as [c|] eqn:F; [|discriminate].
  intros H. inversion H. subst. apply find_some in F. apply in_map, F.
Qed.

(** The text column holds one text for each row of the table. *)
Lemma text_values_length lib df name :
  _find_text_column df = Some name ->
  List.length (text_values lib df name) = List.length (rows df).
Proof.
  intros H. unfold text_values, series.
  destruct (index_of_some _ _ (find_text_column_in _ _ H)) as [j ->].
  unfold column_at. now rewrite !length_map.
Qed.

Lemma no_string_column df :
  Forall (fun c => snd c <> DString) (columns df) -> _find_text_column df = None.
Proof.
  unfold _find_text_column. intros H.
  induction (columns df) as [|[n t] cols IH]; [reflexivity|].
  inversion H as [|? ? Ht Hc]; subst. simpl in *.
  destruct t; simpl; try congruence; now apply IH.
Qed.

Lemma column_found_text df name :
  text_column df name -> column_found (Some name) = true.
Proof.
  intros [_ Hn]. simpl. apply negb_true_iff, String.eqb_neq, Hn.
Qed.

Lemma count_where_le f pairs :
  (0 <= count_where f pairs <= Z.of_nat (List.length pairs))%Z.
Proof.
  unfold count_where. pose proof (filter_length_le f pairs). lia.
Qed.

Lemma ratio_or_zero_unit a b : (0 <= a <= b)%Z -> unit_interval (ratio_or_zero a b).
Proof.
  intros H. unfold ratio_or_zero, unit_interval.
  destruct (b =? 0)%Z; [split; discriminate | now apply int_div_unit].
Qed.

Lemma py_round3_unit x : unit_interval x -> unit_interval (py_round x 3).
Proof.
  intros [L U]. apply (py_round_bounded x 1 3); [lia | exact L | exact U | reflexivity].
Qed.

Lemma metrics_unit pairs :
  unit_interval (py_round (accuracy_score pairs) 3) /\
  unit_interval (py_round (precision_score pairs) 3) /\
  unit_interval (py_round (recall_score pairs) 3) /\
  unit_interval (py_round (f1_score pairs) 3).
Proof.
  pose proof (count_where_le (fun yp => fst yp && snd yp) pairs) as Htp.
  pose proof (count_where_le (fun yp => negb (fst yp) && snd yp) pairs) as Hfp.
  pose proof (count_where_le (fun yp => fst yp && negb (snd yp)) pairs) as Hfn.
  repeat split; apply py_round3_unit;
    unfold accuracy_score, precision_score, recall_score, f1_score,
      true_pos, false_pos, false_neg.
  all: try (apply ratio_or_zero_unit; lia).
  all: apply int_div_unit, count_where_le.
Qed.

Lemma distinct_labels_same labels :
  (forall a b, In a labels -> In b labels -> a = b) ->
  (distinct_labels labels <? 2)%nat = true.
Proof.
  intros H. unfold distinct_labels.
  destruct (existsb (fun b => b) labels) eqn:E1, (existsb negb labels) eqn:E2;
    try reflexivity.
  apply existsb_exists in E1 as (a & Ha & Ea), E2 as (b & Hb & Eb).
  specialize (H a b Ha Hb). rewrite H in Ea. cbn beta in Ea. rewrite Ea in Eb. discriminate.
Qed.

Lemma distinct_labels_mixed labels :
  In true labels -> In false labels -> (distinct_labels labels <? 2)%nat = false.
Proof.
  intros Ht Hf. unfold distinct_labels.
  assert (E1 : existsb (fun b => b) labels = true)
    by (apply existsb_exists; now exists true).
  assert (E2 : existsb negb labels = true)
    by (apply existsb_exists; now exists false).
  now rewrite E1, E2.
Qed.

(** C3, as the code has it.  The guards of the predictive stage are
    evaluated in order: without a string-typed column the stage is skipped;
    with a text column and fewer than 10 rows it is skipped for want of
    records; with at least 10 rows whose labels, POSITIVE against the rest,
    are all the same it is skipped for want of mixed sentiment; with both
    kinds of label present the stage is trained, with accuracy, precision,
    recall and F1 in the unit interval, when vectorization, the stratified
    split, training and prediction succeed, and skipped with the failure
    as reason when they raise, as it is when the scorer raises. *)
Theorem predictive_guards (lib : PyLib) (df : DataFrame) (model : scorer) :
  (Forall (fun c => snd c <> DString) (columns df) ->
   predictive_analytics lib df model =
   Ok (skipped "No text column available for model training.")) /\
  (forall name, text_column df name ->
     let texts := text_values lib df name in
     ((List.length (rows df) < 10)%nat ->
      predictive_analytics lib df model =
      Ok (skipped "Not enough text records for training.")) /\
     (forall e,
        (10 <= List.length (rows df))%nat ->
        model (firstn 500 texts) = Raise e ->
        predictive_analytics lib df model =
        Ok (skipped ("Model training failed: " ++ e))) /\
     (forall scores,
        (10 <= List.length (rows df))%nat ->
        model (firstn 500 texts) = Ok scores ->
        let labels := positive_flags scores in
        ((forall a b, In a labels -> In b labels -> a = b) ->
         predictive_analytics lib df model =
         Ok (skipped "All texts have the same sentiment; model training requires mixed sentiment data.")) /\
        (In true labels -> In false labels ->
         (forall pairs,
            fit_predict lib (firstn (List.length labels) texts) labels = Ok pairs ->
            exists acc prec rec f1,
              predictive_analytics lib df model =
              Ok (PDict [("status", PStr "trained"); ("accuracy", PFloat acc);
                         ("precision", PFloat prec); ("recall", PFloat rec);
                         ("f1_score", PFloat f1)]) /\
              unit_interval acc /\ unit_interval prec /\
              unit_interval rec /\ unit_interval f1) /\
         (forall e,
            fit_predict lib (firstn (List.length labels) texts) labels = Raise e ->
            predictive_analytics lib df model =
            Ok (skipped ("Model training failed: " ++ e)))))).
Proof.
  split.
  - intros H. unfold predictive_analytics. now rewrite (no_string_column df H).
  - intros name Hc texts. subst texts.
    pose proof (column_found_text df name Hc) as Hf.
    destruct Hc as [Hc Hn].
    pose proof (text_values_length lib df name Hc) as Hlen.
    unfold predictive_analytics. rewrite Hc, Hf, Hlen.
    split; [|split].
    + intros H. apply Nat.ltb_lt in H. now rewrite H.
    + intros e H Hm. apply Nat.ltb_ge in H. rewrite H.
      unfold train_and_evaluate. now rewrite Hm.
    + intros scores H Hm.
      apply Nat.ltb_ge in H. rewrite H.
      unfold train_and_evaluate. rewrite Hm. cbn [bind].
      fold (positive_flags scores).
      split.
      * intros Hs. now rewrite (distinct_labels_same _ Hs).
      * intros Ht Hfa. rewrite (distinct_labels_mixed _ Ht Hfa).
        split.
        -- intros pairs Hp. rewrite Hp. cbn [bind try_except].
           destruct (metrics_unit pairs) as (A & P & R & F).
           do 4 eexists. split; [reflexivity|]. exact (conj A (conj P (conj R F))).
        -- intros e He. now rewrite He.
Qed.

(** With ten rows of which nine are scored POSITIVE and one NEGATIVE, both
    labels are present, yet the stratified split fails and the stage is
    skipped. *)
Lemma predictive_mixed_skipped :
  let df := comments 10 in
  let model := first_positive 9 in
  exists scores,
    text_column df "comment" /\
    (10 <= List.length (rows df))%nat /\
    model (firstn 500 (text_values example_lib df "comment")) = Ok scores /\
    In true (positive_flags scores) /\
    In false (positive_flags scores) /\
    predictive_analytics example_lib df model =
    Ok (skipped "Model training failed: The least populated class in y has only 1 member, which is too few.").
Proof.
  eexists. split; [split; [reflexivity | discriminate]|].
  split; [vm_compute; lia|].
  split; [reflexivity|].
  split; [vm_compute; tauto|].
  split; [vm_compute; tauto|].
  vm_compute. reflexivity.
Qed.

Lemma predictive_guards_witness :
  exists acc prec rec f1,
    predictive_analytics example_lib (comments 12) (first_positive 6) =
    Ok (PDict [("status", PStr "trained"); ("accuracy", PFloat acc);
               ("precision", PFloat prec); ("recall", PFloat rec);
               ("f1_score", PFloat f1)]) /\
    unit_interval acc /\ unit_interval prec /\ unit_interval rec /\ unit_interval f1.
Proof.
  destruct (predictive_guards example_lib (comments 12) (first_positive 6)) as [_ H].
  destruct (H "comment") as (_ & _ & H1); [split; [reflexivity | discriminate]|].
  edestruct H1 as [_ H2]; [vm_compute; lia | reflexivity |].
  destruct H2 as [H3 _]; [vm_compute; tauto | vm_compute; tauto |].
  eapply H3. reflexivity.
Defined.

(* ================================================================= *)
(** * The report *)

Lemma scorer_returns_call lib df model name :
  scorer_returns lib df model ->
  _find_text_column df = Some name -> column_found (Some name) = true ->
  exists scores, model (firstn 200 (text_values lib df name)) = Ok scores.
Proof.
  intros H Hc Hf. apply H. split; [exact Hc|].
  simpl in Hf. apply negb_true_iff, String.eqb_neq in Hf. exact Hf.
Qed.

Lemma perform_eda_returns lib df model :
  scorer_returns lib df model -> exists eda, perform_eda lib df model = Ok eda.
Proof.
  intros H. unfold perform_eda.
  destruct (_find_text_column df) as [name|] eqn:Hc; [|eauto].
  destruct (column_found (Some name)) eqn:Hf; [|eauto].
  destruct (scorer_returns_call _ _ _ _ H Hc Hf) as [scores Hs].
  destruct (text_values lib df name) as [|t texts]; [cbn [bind]; eauto|].
  rewrite Hs. cbn [bind]. eauto.
Qed.

Lemma descriptive_returns lib df model :
  columns df <> [] -> scorer_returns lib df model ->
  exists d, descriptive_analytics lib df model = Ok d.
Proof.
  intros Hcol H. unfold descriptive_analytics, describe_all.
  destruct (columns df) as [|c cols] eqn:E; [congruence|]. cbn [bind].
  destruct (_find_text_column df) as [name|] eqn:Hc; [|cbn [bind]; eauto].
  destruct (column_found (Some name)) eqn:Hf; [|cbn [bind]; eauto].
  destruct (scorer_returns_call _ _ _ _ H Hc Hf) as [scores Hs].
  rewrite Hs. cbn [bind]. eauto.
Qed.

Lemma diagnostic_returns lib df model :
  scorer_returns lib df model ->
  exists kw, diagnostic_analytics lib df model =
             Ok (PDict [("negative_keywords", PList kw);
                        ("correlation_insights", PList (correlation_insights lib df))]).
Proof.
  intros H. unfold diagnostic_analytics.
  destruct (_find_text_column df) as [name|] eqn:Hc; [|cbn [bind]; eauto].
  destruct (column_found (Some name)) eqn:Hf; [|cbn [bind]; eauto].
  destruct (scorer_returns_call _ _ _ _ H Hc Hf) as [scores Hs].
  rewrite Hs. cbn [bind]. eauto.
Qed.

Lemma pad_to_3_spec l :
  pad_to_3 3 l = (l ++ repeat no_correlation (3 - List.length l))%list.
Proof.
  destruct l as [|a [|b [|c l]]]; simpl; try reflexivity.
  now rewrite app_nil_r.
Qed.

Lemma format_correlations_length l : (3 <= List.length (_format_correlations l))%nat.
Proof.
  unfold _format_correlations. rewrite pad_to_3_spec, length_app, repeat_length, length_map.
  lia.
Qed.

Lemma perform_eda_raises lib df model name e :
  text_column df name -> rows df <> [] ->
  model (firstn 200 (text_values lib df name)) = Raise e ->
  perform_eda lib df model = Raise e.
Proof.
  intros Hc Hrows Hm. pose proof (column_found_text df name Hc) as Hf.
  destruct Hc as [Hc _].
  pose proof (text_values_length lib df name Hc) as Hlen.
  unfold perform_eda. rewrite Hc, Hf.
  destruct (text_values lib df name) as [|t texts] eqn:Et.
  - destruct (rows df); [congruence | discriminate].
  - now rewrite Hm.
Qed.

(** C1, as the code has it.  For a valid table that is not empty and a
    scorer that returns normally on the texts of the table,
    [run_full_analysis] returns a mapping whose keys are exactly
    biOverview, descriptive, diagnostic, predictive and prescriptive, each
    section with its fixed keys; the correlations of the diagnostic section
    are the formatted correlation insights followed by as many neutral
    placeholders as are missing to three, hence at least three entries.
    When the scorer raises on the first 200 texts, [run_full_analysis]
    raises the same exception.  (An exception of the scorer in the
    predictive stage is caught there.) *)
Theorem report_shape (lib : PyLib) (df : DataFrame) (model : scorer) :
  valid_table df -> non_empty_table df ->
  (scorer_returns lib df model ->
   exists report,
     run_full_analysis lib df model = Ok report /\
     keys report =
       ["biOverview"; "descriptive"; "diagnostic"; "predictive"; "prescriptive"] /\
     keys (get report "biOverview" PNone) = ["composition"; "trend"; "distribution"] /\
     keys (get report "descriptive" PNone) = ["kpis"; "narrative"; "chartData"] /\
     keys (get report "diagnostic" PNone) = ["narrative"; "correlations"] /\
     keys (get report "predictive" PNone) =
       ["narrative"; "forecast"; "confidence"; "modelExplanation"] /\
     keys (get report "prescriptive" PNone) =
       ["narrative"; "recommendations"; "disclaimer"] /\
     let correlations := as_list (entry report "diagnostic" "correlations") in
     (3 <= List.length correlations)%nat /\
     exists formatted,
       List.length formatted = List.length (correlation_insights lib df) /\
       correlations =
         (formatted ++ repeat no_correlation (3 - List.length formatted))%list) /\
  (forall name e,
     text_column df name ->
     model (firstn 200 (text_values lib df name)) = Raise e ->
     run_full_analysis lib df model = Raise e).
Proof.
  intros _ [Hcol Hrows]. split.
  - intros Hs.
    destruct (perform_eda_returns lib df model Hs) as [eda He].
    destruct (descriptive_returns lib df model Hcol Hs) as [d Hd].
    destruct (diagnostic_returns lib df model Hs) as [kw Hg].
    destruct (predictive_returns lib df model) as (p & Hp & _).
    unfold run_full_analysis. rewrite He, Hd, Hg, Hp. cbn [bind].
    eexists. split; [reflexivity|].
    do 6 (split; [reflexivity|]).
    change (as_list (entry _ "diagnostic" "correlations"))
      with (_format_correlations (correlation_insights lib df)).
    split; [apply format_correlations_length|].
    unfold _format_correlations. rewrite pad_to_3_spec.
    eexists. split; [|reflexivity]. apply length_map.
  - intros name e Hc Hm. unfold run_full_analysis.
    now rewrite (perform_eda_raises lib df model name e Hc Hrows Hm).
Qed.

(** A scorer that raises makes [run_full_analysis] raise: only the
    predictive stage catches exceptions. *)
Lemma report_raises_with_scorer :
  valid_table (comments 3) /\ non_empty_table (comments 3) /\
  run_full_analysis example_lib (comments 3) failing_scorer = Raise "inference failed".
Proof.
  split; [|split; [|reflexivity]].
  - split; [repeat constructor; simpl; tauto | repeat constructor].
  - split; discriminate.
Qed.

Lemma report_shape_witness :
  exists report,
    run_full_analysis example_lib (comments 3) (first_positive 2) = Ok report /\
    keys report =
      ["biOverview"; "descriptive"; "diagnostic"; "predictive"; "prescriptive"] /\
    (3 <= List.length (as_list (entry report "diagnostic" "correlations")))%nat.
Proof.
  destruct (report_shape example_lib (comments 3) (first_positive 2)) as [H _].
  - split; [repeat constructor; simpl; tauto | repeat constructor].
  - split; discriminate.
  - destruct H as (report & H1 & H2 & _ & _ & _ & _ & _ & H3 & _).
    + intros name _. eexists. reflexivity.
    + exists report. split; [exact H1|]. split; [exact H2 | exact H3].
Defined.

(* ================================================================= *)
(** * The descriptive stage *)

Lemma count_eq_cons x a l :
  count_eq x (a :: l) = ((if String.eqb x a then 1 else 0) + count_eq x l)%nat.
Proof. unfold count_eq. simpl. now destruct (String.eqb x a). Qed.

Lemma count_eq_le x l : (count_eq x l <= List.length l)%nat.
Proof. unfold count_eq. apply filter_length_le. Qed.

(** The labels POSITIVE and NEGATIVE are counted apart; together they
    count every label exactly when there is no other label. *)
Lemma positive_negative_counts labels :
  (count_eq "POSITIVE" labels + count_eq "NEGATIVE" labels <= List.length labels)%nat /\
  ((count_eq "POSITIVE" labels + count_eq "NEGATIVE" labels = List.length labels)%nat <->
   Forall (fun l => l = "POSITIVE" \/ l = "NEGATIVE") labels).
Proof.
  induction labels as [|a l [IH1 IH2]].
  - split; [reflexivity|]. split; [constructor | reflexivity].
  - rewrite !count_eq_cons. cbn [List.length].
    destruct (String.eqb "POSITIVE" a) eqn:Ep; destruct (String.eqb "NEGATIVE" a) eqn:En.
    + apply String.eqb_eq in Ep, En. congruence.
    + apply String.eqb_eq in Ep. subst a. split; [lia|]. split.
      * intros H. constructor; [now left | apply IH2; lia].
      * intros H. inversion H; subst. apply IH2 in H3. lia.
    + apply String.eqb_eq in En. subst a. split; [lia|]. split.
      * intros H. constructor; [now right | apply IH2; lia].
      * intros H. inversion H; subst. apply IH2 in H3. lia.
    + apply String.eqb_neq in Ep, En. split; [lia|]. split.
      * intros H. lia.
      * intros H. inversion H; subst. destruct H2; congruence.
Qed.

Lemma percentage_bounded (count total : Z) :
  (0 <= count <= total)%Z ->
  (0 <= py_round (fmul (int_div count total) 100) 2 <= 100)%Q.
Proof.
  intros H. destruct (int_div_unit count total H) as [L U].
  apply (py_round_bounded _ 100 2); [lia | | | reflexivity].
  - apply rnd64_nonneg. apply Qmult_le_0_compat; [exact L | discriminate].
  - apply (rnd64_bounded _ 100); [ | | reflexivity].
    + apply Qmult_le_0_compat; [exact L | discriminate].
    + setoid_replace (inject_Z 100) with (1 * 100)%Q by reflexivity.
      apply Qmult_le_r; [reflexivity | exact U].
Qed.

Lemma count_le_len_or_1 x (labels : list string) :
  (0 <= Z.of_nat (count_eq x labels) <= len_or_1 labels)%Z.
Proof.
  pose proof (count_eq_le x labels). unfold len_or_1.
  destruct labels; simpl in *; lia.
Qed.

(** What the descriptive stage returns are the percentages of two counts
    among the same total. *)
Lemma descriptive_counts lib df model d :
  descriptive_analytics lib df model = Ok d ->
  exists p n t : Z,
    (0 <= p)%Z /\ (0 <= n)%Z /\ (p + n <= t)%Z /\ (0 < t)%Z /\
    get d "positive_percentage" (PInt 0) =
      PFloat (py_round (fmul (int_div p t) 100) 2) /\
    get d "negative_percentage" (PInt 0) =
      PFloat (py_round (fmul (int_div n t) 100) 2).
Proof.
  unfold descriptive_analytics.
  destruct (describe_all lib df) as [summary|]; [cbn [bind]|discriminate].
  assert (Hzero : forall d,
             Ok (PDict [("summary_statistics", summary);
                        ("positive_percentage", PFloat (py_round (fmul 0 100) 2));
                        ("negative_percentage", PFloat (py_round (fmul 0 100) 2))])
             = Ok d ->
             exists p n t : Z,
               (0 <= p)%Z /\ (0 <= n)%Z /\ (p + n <= t)%Z /\ (0 < t)%Z /\
               get d "positive_percentage" (PInt 0) =
                 PFloat (py_round (fmul (int_div p t) 100) 2) /\
               get d "negative_percentage" (PInt 0) =
                 PFloat (py_round (fmul (int_div n t) 100) 2)).
  { intros d0 H. inversion H. exists 0%Z, 0%Z, 1%Z.
    repeat split; try lia; reflexivity. }
  destruct (_find_text_column df) as [name|]; [|apply Hzero].
  destruct (column_found (Some name)); [|apply Hzero].
  destruct (model _) as [scores|]; [cbn [bind fst snd]|discriminate].
  intros H. inversion H. clear H.
  set (labels := map _sentiment_label scores).
  exists (Z.of_nat (count_eq "POSITIVE" labels)),
    (Z.of_nat (count_eq "NEGATIVE" labels)), (len_or_1 labels).
  destruct (positive_negative_counts labels) as [Hle _].
  assert (Ht : (Z.of_nat (List.length labels) <= len_or_1 labels /\ 0 < len_or_1 labels)%Z).
  { unfold len_or_1. destruct labels; simpl; lia. }
  repeat split; try lia; reflexivity.
Qed.

(** C5, as the code has it.  For a table that has columns, the
    descriptive stage propagates an exception of the scorer, and otherwise
    returns positive_percentage and negative_percentage, each the count of
    its label among the scored labels divided by their number and
    multiplied by 100 in binary64, rounded to 2 decimals, both 0.0 when
    no column is string-typed.  The two counts sum to at most the number of scored
    labels, with equality exactly when every label is POSITIVE or
    NEGATIVE, and each percentage lies between 0 and 100. *)
Theorem descriptive_percentages (lib : PyLib) (df : DataFrame) (model : scorer) :
  columns df <> [] ->
  (Forall (fun c => snd c <> DString) (columns df) ->
   descriptive_analytics lib df model =
   Ok (PDict [("summary_statistics", describe lib df);
              ("positive_percentage", PFloat 0);
              ("negative_percentage", PFloat 0)])) /\
  (forall name, text_column df name ->
     let texts := text_values lib df name in
     (forall e, model (firstn 200 texts) = Raise e ->
                descriptive_analytics lib df model = Raise e) /\
     (forall scores, model (firstn 200 texts) = Ok scores ->
        let labels := map _sentiment_label scores in
        let positive := count_eq "POSITIVE" labels in
        let negative := count_eq "NEGATIVE" labels in
        let total := len_or_1 labels in
        let pos := py_round (fmul (int_div (Z.of_nat positive) total) 100) 2 in
        let neg := py_round (fmul (int_div (Z.of_nat negative) total) 100) 2 in
        descriptive_analytics lib df model =
        Ok (PDict [("summary_statistics", describe lib df);
                   ("positive_percentage", PFloat pos);
                   ("negative_percentage", PFloat neg)]) /\
        (positive + negative <= List.length labels)%nat /\
        ((positive + negative = List.length labels)%nat <->
         Forall (fun l => l = "POSITIVE" \/ l = "NEGATIVE") labels) /\
        (0 <= pos <= 100)%Q /\ (0 <= neg <= 100)%Q)).
Proof.
  intros Hcol.
  assert (Hdesc : describe_all lib df = Ok (describe lib df)).
  { unfold describe_all. destruct (columns df); [congruence | reflexivity]. }
  split.
  - intros H. unfold descriptive_analytics. rewrite Hdesc. cbn [bind].
    now rewrite (no_string_column df H).
  - intros name Hc texts. subst texts.
    pose proof (column_found_text df name Hc) as Hf. destruct Hc as [Hc _].
    unfold descriptive_analytics. rewrite Hdesc, Hc, Hf. cbn [bind].
    split.
    + intros e He. now rewrite He.
    + intros scores Hs. rewrite Hs. cbn [bind fst snd]. cbv zeta.
      split; [reflexivity|].
      destruct (positive_negative_counts (map _sentiment_label scores)) as [H1 H2].
      split; [exact H1|]. split; [exact H2|].
      split; apply percentage_bounded, count_le_len_or_1.
Qed.

(** Of 160 texts, 49 are scored POSITIVE and 111 NEGATIVE: the percentages
    are 30.63 and 69.38, and their sum exceeds 100.  A scorer that raises
    makes the stage raise. *)
Lemma percentages_exceed_100 :
  (exists scores d,
     first_positive 49 (firstn 200 (text_values example_lib (comments 160) "comment"))
       = Ok scores /\
     forallb (fun l => String.eqb l "POSITIVE" || String.eqb l "NEGATIVE")
             (map _sentiment_label scores) = true /\
     descriptive_analytics example_lib (comments 160) (first_positive 49) = Ok d /\
     let pos := as_num (get d "positive_percentage" (PInt 0)) in
     let neg := as_num (get d "negative_percentage" (PInt 0)) in
     pos = rnd64 (3063 # 100) /\ neg = rnd64 (6938 # 100) /\
     (100 < pos + neg)%Q /\ (100 < fadd pos neg)%Q) /\
  descriptive_analytics example_lib (comments 3) failing_scorer = Raise "inference failed".
Proof.
  split; [|reflexivity].
  do 2 eexists. split; [reflexivity|].
  split; [vm_compute; reflexivity|].
  split; [vm_compute; reflexivity|].
  split; [vm_compute; reflexivity|].
  split; [vm_compute; reflexivity|].
  split; vm_compute; reflexivity.
Qed.

(** On the operations of this example [rnd64] agrees with the Standard
    Library's specification of binary64 division, multiplication and
    addition. *)
Example rnd64_agrees_with_binary64 :
  Q_of_b64 (b64_mul (b64_div (b64_of_Z 49) (b64_of_Z 160)) (b64_of_Z 100))
    = fmul (int_div 49 160) 100 /\
  Q_of_b64 (b64_mul (b64_div (b64_of_Z 111) (b64_of_Z 160)) (b64_of_Z 100))
    = fmul (int_div 111 160) 100 /\
  Q_of_b64 (b64_div (b64_of_Z 3063) (b64_of_Z 100)) = rnd64 (3063 # 100) /\
  Q_of_b64 (b64_div (b64_of_Z 6938) (b64_of_Z 100)) = rnd64 (6938 # 100) /\
  Q_of_b64 (b64_add (b64_div (b64_of_Z 3063) (b64_of_Z 100))
                    (b64_div (b64_of_Z 6938) (b64_of_Z 100)))
    = fadd (rnd64 (3063 # 100)) (rnd64 (6938 # 100)).
Proof. vm_compute. repeat split. Qed.

Lemma descriptive_percentages_witness :
  exists pos neg,
    descriptive_analytics example_lib (comments 4) (first_positive 1) =
    Ok (PDict [("summary_statistics", PDict []);
               ("positive_percentage", PFloat pos);
               ("negative_percentage", PFloat neg)]) /\
    (0 <= pos <= 100)%Q /\ (0 <= neg <= 100)%Q.
Proof.
  destruct (descriptive_percentages example_lib (comments 4) (first_positive 1))
    as [_ H]; [discriminate|].
  destruct (H "comment") as [_ H1]; [split; [reflexivity | discriminate]|].
  edestruct H1 as (H2 & _ & _ & H3 & H4); [reflexivity|].
  do 2 eexists. split; [exact H2|]. split; [exact H3 | exact H4].
Defined.

(* ================================================================= *)
(** * Prescriptive advice *)

Lemma Qltb_true x y : Qltb x y = true <-> (x < y)%Q.
Proof.
  unfold Qltb. destruct (Qlt_le_dec x y) as [H|H]; split; intros H'; auto.
  - discriminate.
  - exfalso. apply (Qlt_irrefl x). eapply Qlt_le_trans; eauto.
Qed.

Lemma Qltb_false x y : Qltb x y = false <-> ~ (x < y)%Q.
Proof.
  rewrite <- Qltb_true. destruct (Qltb x y); split; intros H; congruence.
Qed.

Lemma prescriptive_narrative_cases lib d :
  _generate_narrative lib "prescriptive" d =
  if Qltb 50 (as_num (get d "negative_percentage" (PInt 0))) then intervention_narrative
  else if Qltb 70 (as_num (get d "positive_percentage" (PInt 0))) then momentum_narrative
  else balanced_narrative.
Proof. reflexivity. Qed.

Lemma prescriptive_text_cases d :
  prescriptive_analytics (PDict [("descriptive_analytics", d)]) =
  if Qltb 50 (as_num (get d "negative_percentage" (PInt 0))) then high_negative_text
  else if Qltb 70 (as_num (get d "positive_percentage" (PInt 0))) then strong_positive_text
  else mixed_text.
Proof. reflexivity. Qed.

Lemma recommendations_head d g :
  exists second third,
    _create_recommendations d g =
    [if Qltb 40 (as_num (get d "negative_percentage" (PInt 0)))
     then feedback_loop else scale_messaging; second; third] /\
    (exists a i p, second = recommendation a i p /\
       a <> "Implement Customer Feedback Loop" /\ a <> "Scale Positive Messaging") /\
    (exists a i p, third = recommendation a i p /\
       a <> "Implement Customer Feedback Loop" /\ a <> "Scale Positive Messaging").
Proof.
  unfold _create_recommendations. do 2 eexists. split; [reflexivity|]. split.
  - destruct (2 <? _)%nat; do 3 eexists; (split; [reflexivity|]); split; discriminate.
  - do 3 eexists; (split; [reflexivity|]); split; discriminate.
Qed.

Lemma run_full_analysis_inv lib df model report :
  run_full_analysis lib df model = Ok report ->
  exists d g,
    descriptive_analytics lib df model = Ok d /\
    diagnostic_analytics lib df model = Ok g /\
    entry report "prescriptive" "narrative" =
      PStr (_generate_narrative lib "prescriptive" d) /\
    as_list (entry report "prescriptive" "recommendations") =
      _create_recommendations d g.
Proof.
  unfold run_full_analysis.
  destruct (perform_eda lib df model) as [eda|]; [cbn [bind]|discriminate].
  destruct (descriptive_analytics lib df model) as [d|]; [cbn [bind]|discriminate].
  destruct (diagnostic_analytics lib df model) as [g|]; [cbn [bind]|discriminate].
  destruct (predictive_analytics lib df model) as [p|]; [cbn [bind]|discriminate].
  intros H. inversion H. exists d, g. repeat split; reflexivity.
Qed.

(** C6, as the code has it.  In every report the prescriptive narrative is
    the "strategic intervention / high negative sentiment" text exactly
    when the negative percentage of the descriptive stage exceeds 50;
    otherwise it is the "momentum / scale" text when the positive
    percentage exceeds 70, and the "balanced / mixed sentiment" text
    otherwise; [prescriptive_analytics] chooses its advice by the same
    tests.  The High-priority recommendation to implement a customer
    feedback loop is produced exactly when the negative percentage exceeds
    40, and the Medium-priority recommendation to scale positive messaging
    exactly when it does not, which is the case whenever the positive
    percentage exceeds 70. *)
Theorem prescriptive_thresholds lib df model report :
  run_full_analysis lib df model = Ok report ->
  exists d,
    descriptive_analytics lib df model = Ok d /\
    let pos := as_num (get d "positive_percentage" (PInt 0)) in
    let neg := as_num (get d "negative_percentage" (PInt 0)) in
    let narrative := entry report "prescriptive" "narrative" in
    let advice := prescriptive_analytics (PDict [("descriptive_analytics", d)]) in
    let recs := as_list (entry report "prescriptive" "recommendations") in
    (narrative = PStr intervention_narrative <-> (50 < neg)%Q) /\
    (advice = high_negative_text <-> (50 < neg)%Q) /\
    (~ (50 < neg)%Q -> (70 < pos)%Q ->
     narrative = PStr momentum_narrative /\ advice = strong_positive_text) /\
    (~ (50 < neg)%Q -> ~ (70 < pos)%Q ->
     narrative = PStr balanced_narrative /\ advice = mixed_text) /\
    (In feedback_loop recs <-> (40 < neg)%Q) /\
    (In scale_messaging recs <-> ~ (40 < neg)%Q) /\
    ((70 < pos)%Q -> In scale_messaging recs).
Proof.
  intros H. destruct (run_full_analysis_inv _ _ _ _ H) as (d & g & Hd & _ & Hn & Hr).
  exists d. split; [exact Hd|]. cbv zeta.
  assert (Hex : (70 < as_num (get d "positive_percentage" (PInt 0)))%Q ->
                ~ (40 < as_num (get d "negative_percentage" (PInt 0)))%Q).
  { destruct (descriptive_counts _ _ _ _ Hd) as (p & n & t & Hp & Hn' & Hs & Ht & -> & ->).
    now apply percentages_exclusive. }
  rewrite Hn, Hr, prescriptive_narrative_cases, prescriptive_text_cases.
  set (neg := as_num (get d "negative_percentage" (PInt 0))).
  set (pos := as_num (get d "positive_percentage" (PInt 0))).
  destruct (recommendations_head d g)
    as (r2 & r3 & -> & (a2 & i2 & p2 & -> & N2 & N2') & (a3 & i3 & p3 & -> & N3 & N3')).
  fold neg.
  repeat split.
  - destruct (Qltb 50 neg) eqn:E; [intros _; now apply Qltb_true|].
    destruct (Qltb 70 pos); discriminate.
  - intros E. apply Qltb_true in E. now rewrite E.
  - destruct (Qltb 50 neg) eqn:E; [intros _; now apply Qltb_true|].
    destruct (Qltb 70 pos); discriminate.
  - intros E. apply Qltb_true in E. now rewrite E.
  - apply Qltb_false in H0. apply Qltb_true in H1. now rewrite H0, H1.
  - apply Qltb_false in H0. apply Qltb_true in H1. now rewrite H0, H1.
  - apply Qltb_false in H0, H1. now rewrite H0, H1.
  - apply Qltb_false in H0, H1. now rewrite H0, H1.
  - destruct (Qltb 40 neg) eqn:E; [intros _; now apply Qltb_true|].
    intros [F|[F|[F|[]]]]; inversion F; congruence.
  - intros E. apply Qltb_true in E. rewrite E. now left.
  - destruct (Qltb 40 neg) eqn:E; [|intros _; now apply Qltb_false].
    intros [F|[F|[F|[]]]]; inversion F; congruence.
  - intros E. apply Qltb_false in E. rewrite E. now left.
  - intros E. apply Hex, Qltb_false in E. fold neg in E. rewrite E. now left.
Qed.

(** Of twenty texts, nine are scored NEGATIVE: the negative percentage is
    45, the narrative is the balanced one, and the feedback loop is
    recommended with High priority. *)
Lemma feedback_loop_below_50 :
  exists report d,
    run_full_analysis example_lib (comments 20) (first_positive 11) = Ok report /\
    descriptive_analytics example_lib (comments 20) (first_positive 11) = Ok d /\
    (as_num (get d "negative_percentage" (PInt 0)) == 45)%Q /\
    ~ (50 < as_num (get d "negative_percentage" (PInt 0)))%Q /\
    entry report "prescriptive" "narrative" = PStr balanced_narrative /\
    In feedback_loop (as_list (entry report "prescriptive" "recommendations")).
Proof.
  do 2 eexists. split; [vm_compute; reflexivity|].
  split; [vm_compute; reflexivity|].
  split; [vm_compute; reflexivity|].
  split; [vm_compute; discriminate|].
  split; [vm_compute; reflexivity|].
  vm_compute. now left.
Qed.

Lemma prescriptive_thresholds_witness :
  exists report,
    run_full_analysis example_lib (comments 4) (first_positive 1) = Ok report /\
    In feedback_loop (as_list (entry report "prescriptive" "recommendations")) /\
    entry report "prescriptive" "narrative" = PStr intervention_narrative.
Proof.
  eexists. split; [reflexivity|].
  destruct (prescriptive_thresholds example_lib (comments 4) (first_positive 1) _ eq_refl)
    as (d & Hd & Hn & _ & _ & _ & Hf & _ & _).
  inversion Hd; subst d; clear Hd.
  split; [apply Hf; vm_compute; reflexivity | apply Hn; vm_compute; reflexivity].
Defined.

(* ================================================================= *)
(** * The table cleaner *)

Lemma cell_eqb_refl a : cell_eqb a a = true.
Proof.
  destruct a; simpl; [reflexivity | apply String.eqb_refl | apply Qeq_bool_refl].
Qed.

Lemma cell_eqb_sym a b : cell_eqb a b = cell_eqb b a.
Proof.
  destruct a, b; simpl; try reflexivity; [apply String.eqb_sym|].
  destruct (Qeq_bool x x0) eqn:E, (Qeq_bool x0 x) eqn:F; try reflexivity.
  - apply Qeq_bool_iff in E. symmetry in E. apply Qeq_bool_iff in E. congruence.
  - apply Qeq_bool_iff in F. symmetry in F. apply Qeq_bool_iff in F. congruence.
Qed.

Lemma cell_eqb_trans a b c :
  cell_eqb a b = true -> cell_eqb b c = true -> cell_eqb a c = true.
Proof.
  destruct a, b, c; simpl; try discriminate; try reflexivity.
  - intros H1 H2. apply String.eqb_eq in H1, H2. subst. apply String.eqb_refl.
  - intros H1 H2. apply Qeq_bool_iff in H1, H2. apply Qeq_bool_iff.
    now rewrite H1.
Qed.

Lemma row_eqb_refl r : row_eqb r r = true.
Proof. induction r as [|a r IH]; simpl; [reflexivity | now rewrite cell_eqb_refl]. Qed.

Lemma row_eqb_sym r s : row_eqb r s = row_eqb s r.
Proof.
  revert s. induction r as [|a r IH]; intros [|b s]; simpl; try reflexivity.
  now rewrite cell_eqb_sym, IH.
Qed.

Lemma row_eqb_trans r s t :
  row_eqb r s = true -> row_eqb s t = true -> row_eqb r t = true.
Proof.
  revert s t. induction r as [|a r IH]; intros [|b s] [|c t]; simpl;
    try discriminate; try reflexivity.
  intros H1 H2. apply andb_true_iff in H1 as [H1 H1'], H2 as [H2 H2'].
  apply andb_true_iff. split; [eapply cell_eqb_trans | eapply IH]; eauto.
Qed.

Lemma row_eqb_null r s :
  row_eqb r s = true -> forallb is_null r = forallb is_null s.
Proof.
  revert s. induction r as [|a r IH]; intros [|b s]; simpl; try discriminate;
    try reflexivity.
  intros H. apply andb_true_iff in H as [H1 H2]. rewrite (IH s H2).
  destruct a, b; simpl in *; try discriminate; reflexivity.
Qed.

(** Membership up to equality of rows does not depend on a member that is
    equal to another one. *)
Lemma existsb_row_eqb_ext r l1 l2 :
  (forall x, existsb (row_eqb x) l1 = true <-> existsb (row_eqb x) l2 = true) ->
  existsb (row_eqb r) l1 = existsb (row_eqb r) l2.
Proof.
  intros H. specialize (H r).
  destruct (existsb (row_eqb r) l1), (existsb (row_eqb r) l2); try reflexivity.
  - symmetry. now apply H.
  - now apply H.
Qed.

Lemma existsb_row_eqb_trans r a l :
  row_eqb r a = true -> existsb (row_eqb a) l = true -> existsb (row_eqb r) l = true.
Proof.
  intros H1 H2. apply existsb_exists in H2 as (x & Hx & H2).
  apply existsb_exists. exists x. split; [exact Hx|]. eapply row_eqb_trans; eauto.
Qed.

Lemma drop_duplicates_from_snoc seen l r :
  drop_duplicates_from seen (l ++ [r]) =
  (drop_duplicates_from seen l
   ++ (if existsb (row_eqb r) (seen ++ l) then [] else [r]))%list.
Proof.
  revert seen. induction l as [|a l IH]; intros seen.
  - simpl. rewrite app_nil_r. now destruct (existsb (row_eqb r) seen).
  - cbn [app drop_duplicates_from].
    destruct (existsb (row_eqb a) seen) eqn:Ea.
    + rewrite IH. f_equal. rewrite !existsb_app. cbn [existsb].
      destruct (row_eqb r a) eqn:Era; [|reflexivity].
      now rewrite (existsb_row_eqb_trans r a seen Era Ea).
    + cbn [app]. rewrite IH. f_equal. f_equal.
      rewrite !existsb_app. cbn [existsb app].
      now rewrite Bool.orb_assoc, (Bool.orb_comm (row_eqb r a)).
Qed.

Lemma drop_duplicates_snoc l r :
  drop_duplicates (l ++ [r]) =
  (drop_duplicates l ++ (if existsb (row_eqb r) l then [] else [r]))%list.
Proof. apply (drop_duplicates_from_snoc [] l r). Qed.

Lemma dropna_all_snoc l r :
  dropna_all (l ++ [r]) =
  (dropna_all l ++ (if forallb is_null r then [] else [r]))%list.
Proof.
  unfold dropna_all. rewrite filter_app. simpl. now destruct (forallb is_null r).
Qed.

Lemma existsb_dropna r l :
  forallb is_null r = false ->
  existsb (row_eqb r) (dropna_all l) = existsb (row_eqb r) l.
Proof.
  intros Hr. unfold dropna_all. induction l as [|a l IH]; [reflexivity|].
  simpl. destruct (forallb is_null a) eqn:Ea; simpl; rewrite IH; [|reflexivity].
  destruct (row_eqb r a) eqn:E; [|reflexivity].
  apply row_eqb_null in E. congruence.
Qed.

Lemma drop_duplicates_from_distinct seen l :
  distinct_rows (drop_duplicates_from seen l) /\
  Forall (fun r => existsb (row_eqb r) seen = false) (drop_duplicates_from seen l).
Proof.
  revert seen. induction l as [|a l IH]; intros seen.
  - split; constructor.
  - cbn [drop_duplicates_from]. destruct (existsb (row_eqb a) seen) eqn:Ea.
    + apply IH.
    + destruct (IH (a :: seen)) as [D F]. split.
      * constructor; [|exact D].
        eapply Forall_impl; [|exact F]. intros r Hr. cbn [existsb] in Hr.
        apply orb_false_iff in Hr as [Hr _]. now rewrite row_eqb_sym.
      * constructor; [exact Ea|].
        eapply Forall_impl; [|exact F]. intros r Hr. cbn [existsb] in Hr.
        now apply orb_false_iff in Hr as [_ Hr].
Qed.

Lemma drop_duplicates_from_incl seen l r :
  In r (drop_duplicates_from seen l) -> In r l.
Proof.
  revert seen. induction l as [|a l IH]; intros seen; [tauto|].
  cbn [drop_duplicates_from]. destruct (existsb (row_eqb a) seen).
  - intros H. right. eauto.
  - intros [H|H]; [now left | right; eauto].
Qed.

Lemma normalize_keeps_null r :
  forallb is_null (map _normalize_value r) = forallb is_null r.
Proof.
  induction r as [|a r IH]; [reflexivity|]. simpl. rewrite IH. now destruct a.
Qed.

(** C4, as the code has it.  The cleaner keeps the columns; a row is kept,
    in its place, exactly when it is not entirely null and no earlier row
    of the input equals it; the rows kept are pairwise different as they
    stand in the input; each cell of a kept row is then normalized, a
    string by the text normalizer, any other cell unchanged.  No row of
    the output is entirely null. *)
Theorem clean_dataframe_spec (cols : list (string * dtype)) :
  (forall rs, columns (clean_dataframe (mkDF cols rs)) = cols) /\
  rows (clean_dataframe (mkDF cols [])) = [] /\
  (forall rs r,
     rows (clean_dataframe (mkDF cols (rs ++ [r]))) =
     (rows (clean_dataframe (mkDF cols rs))
      ++ (if forallb is_null r || existsb (row_eqb r) rs then []
          else [map _normalize_value r]))%list) /\
  (forall rs,
     exists kept,
       rows (clean_dataframe (mkDF cols rs)) = map (map _normalize_value) kept /\
       distinct_rows kept /\
       (forall r, In r kept -> In r rs /\ forallb is_null r = false)) /\
  (forall rs r, In r (rows (clean_dataframe (mkDF cols rs))) ->
                forallb is_null r = false) /\
  (forall s, _normalize_value (Str s) = Str (clean_text s)) /\
  (forall c, (forall s, c <> Str s) -> _normalize_value c = c).
Proof.
  split; [reflexivity|]. split; [reflexivity|].
  assert (Hkept : forall rs r, In r (drop_duplicates (dropna_all rs)) ->
                               In r rs /\ forallb is_null r = false).
  { intros rs r H. apply drop_duplicates_from_incl in H.
    unfold dropna_all in H. apply filter_In in H as [H1 H2].
    split; [exact H1 | now apply negb_true_iff]. }
  split; [|split; [|split; [|split]]].
  - intros rs r. unfold clean_dataframe. cbn [rows].
    rewrite dropna_all_snoc.
    destruct (forallb is_null r) eqn:En; cbn [orb].
    + now rewrite !app_nil_r.
    + rewrite drop_duplicates_snoc, map_app, (existsb_dropna r rs En).
      now destruct (existsb (row_eqb r) rs).
  - intros rs. exists (drop_duplicates (dropna_all rs)).
    split; [reflexivity|]. split; [apply drop_duplicates_from_distinct | apply Hkept].
  - intros rs r H. unfold clean_dataframe in H. cbn [rows] in H.
    apply in_map_iff in H as (r0 & <- & H). rewrite normalize_keeps_null.
    now apply Hkept in H.
  - reflexivity.
  - intros c H. destruct c; try reflexivity. now destruct (H s).
Qed.

(** Two rows that differ in whitespace only both survive deduplication and
    are equal after normalization: the output holds a duplicate. *)
Lemma cleaner_leaves_duplicate :
  exists r, rows (clean_dataframe whitespace_twins) = [r; r].
Proof. eexists. vm_compute. reflexivity. Qed.

Lemma clean_dataframe_spec_witness :
  rows (clean_dataframe
          (mkDF [("comment", DString); ("value", DNumber)]
                ([[Str "good "; Num 1]; [NaN; NaN]] ++ [[Str "good "; Num 1]]))) =
  [[Str "good"; Num 1]].
Proof.
  destruct (clean_dataframe_spec [("comment", DString); ("value", DNumber)])
    as (_ & _ & H & _).
  rewrite H. reflexivity.
Defined.

(* ================================================================= *)
(** * Sorting and counting *)

Section SortedDesc.

Context {A : Type}.
Variable ltb : A -> A -> bool.

Lemma insert_desc_perm x l : Permutation (insert_desc ltb x l) (x :: l).
Proof.
  induction l as [|y l IH]; simpl; [reflexivity|].
  destruct (ltb x y); [|reflexivity].
  rewrite IH. apply perm_swap.
Qed.

Lemma sorted_desc_perm l : Permutation (sorted_desc ltb l) l.
Proof.
  induction l as [|x l IH]; simpl; [reflexivity|].
  rewrite insert_desc_perm. now constructor.
Qed.

Lemma sorted_desc_length l : List.length (sorted_desc ltb l) = List.length l.
Proof. apply Permutation_length, sorted_desc_perm. Qed.

(** [P] is an order the comparison [ltb] refines: the one of two elements
    that [ltb] puts first in a descending list comes first in [P],
    provided [R] holds of the pair when [ltb] does not tell them apart. *)
Variable P R : A -> A -> Prop.
Hypothesis P_trans : forall a b c, P a b -> P b c -> P a c.
Hypothesis ltb_P : forall x y, ltb x y = true -> P y x.
Hypothesis not_ltb_P : forall x y, R x y -> ltb x y = false -> P x y.

Lemma insert_desc_sorted x s :
  Forall (R x) s -> StronglySorted P s -> StronglySorted P (insert_desc ltb x s).
Proof.
  intros Hx Hs. induction Hs as [|y s Hs IH Hy]; simpl.
  - repeat constructor.
  - inversion Hx as [|? ? Hxy Hxs]; subst.
    destruct (ltb x y) eqn:E.
    + constructor; [now apply IH|].
      eapply Permutation_Forall; [symmetry; apply insert_desc_perm|].
      constructor; [now apply ltb_P | exact Hy].
    + assert (Pxy : P x y) by now apply not_ltb_P.
      constructor; [now constructor|].
      constructor; [exact Pxy|].
      eapply Forall_impl; [|exact Hy]. intros z Hz. eapply P_trans; eauto.
Qed.

(** Sorting a list that is ordered by [R] gives a list ordered by [P]. *)
Lemma sorted_desc_sorted l :
  StronglySorted R l -> StronglySorted P (sorted_desc ltb l).
Proof.
  induction 1 as [|x l Hl IH Hx]; simpl; [constructor|].
  apply insert_desc_sorted; [|exact IH].
  eapply Permutation_Forall; [symmetry; apply sorted_desc_perm | exact Hx].
Qed.

End SortedDesc.

Lemma In_firstn {A} n (l : list A) x : In x (firstn n l) -> In x l.
Proof. intros H. rewrite <- (firstn_skipn n l). apply in_or_app. now left. Qed.

Lemma In_skipn {A} n (l : list A) x : In x (skipn n l) -> In x l.
Proof. intros H. rewrite <- (firstn_skipn n l). apply in_or_app. now right. Qed.

Lemma StronglySorted_firstn {A} (P : A -> A -> Prop) n l :
  StronglySorted P l -> StronglySorted P (firstn n l).
Proof.
  intros H. revert n. induction H as [|x l Hl IH Hx]; intros [|n]; simpl;
    try constructor; [apply IH|].
  apply Forall_forall. intros y Hy. apply In_firstn in Hy.
  rewrite Forall_forall in Hx. now apply Hx.
Qed.

(** In an ordered list every element of a prefix precedes every element
    of the rest. *)
Lemma StronglySorted_split {A} (P : A -> A -> Prop) n l a b :
  StronglySorted P l -> In a (firstn n l) -> In b (skipn n l) -> P a b.
Proof.
  intros H. revert n. induction H as [|x l Hl IH Hx]; intros [|n]; simpl; try tauto.
  intros [->|Ha] Hb.
  - rewrite Forall_forall in Hx. apply Hx. eapply In_skipn; eauto.
  - eapply IH; eauto.
Qed.

Lemma StronglySorted_map_fst {A B} (P : A -> A -> Prop) (l : list (A * B)) :
  StronglySorted P (map fst l) <->
  StronglySorted (fun a b => P (fst a) (fst b)) l.
Proof.
  induction l as [|x l IH]; simpl; [split; constructor|].
  split; intros H; inversion H; subst; constructor; try (now apply IH).
  - rewrite Forall_forall in *. intros y Hy. apply H3, in_map, Hy.
  - rewrite Forall_forall in *. intros y Hy. apply in_map_iff in Hy as (z & <- & Hz).
    now apply H3.
Qed.

Lemma first_pos_le w l : (first_pos w l <= List.length l)%nat.
Proof.
  induction l as [|x l IH]; simpl; [lia|]. destruct (String.eqb x w); lia.
Qed.

Lemma first_pos_in w l : In w l -> (first_pos w l < List.length l)%nat.
Proof.
  induction l as [|x l IH]; simpl; [tauto|].
  destruct (String.eqb x w) eqn:E; [lia|].
  intros [H|H]; [subst; now rewrite String.eqb_refl in E | apply IH in H; lia].
Qed.

Lemma first_pos_app_in w l l' : In w l -> first_pos w (l ++ l') = first_pos w l.
Proof.
  induction l as [|x l IH]; simpl; [tauto|].
  destruct (String.eqb x w) eqn:E; [reflexivity|].
  intros [H|H]; [subst; now rewrite String.eqb_refl in E | now rewrite IH].
Qed.

Lemma first_pos_snoc_new w l : ~ In w l -> first_pos w (l ++ [w]) = List.length l.
Proof.
  induction l as [|x l IH]; simpl.
  - now rewrite String.eqb_refl.
  - intros H. destruct (String.eqb x w) eqn:E.
    + apply String.eqb_eq in E. tauto.
    + rewrite IH; tauto.
Qed.

Lemma count_eq_app x l l' : count_eq x (l ++ l') = (count_eq x l + count_eq x l')%nat.
Proof. unfold count_eq. now rewrite filter_app, length_app. Qed.

Lemma count_eq_single x k : count_eq x [k] = if String.eqb x k then 1%nat else 0%nat.
Proof. unfold count_eq. simpl. now destruct (String.eqb x k). Qed.

Lemma count_eq_absent x l : ~ In x l -> count_eq x l = 0%nat.
Proof.
  unfold count_eq. induction l as [|a l IH]; simpl; [reflexivity|].
  intros H. destruct (String.eqb x a) eqn:E.
  - apply String.eqb_eq in E. subst. tauto.
  - apply IH. tauto.
Qed.

Lemma count_eq_present x l : In x l -> (1 <= count_eq x l)%nat.
Proof.
  unfold count_eq. induction l as [|a l IH]; simpl; [tauto|].
  destruct (String.eqb x a) eqn:E; [simpl; lia|].
  intros [H|H]; [subst; now rewrite String.eqb_refl in E | now apply IH].
Qed.

Lemma counter_incr_keys_in k c :
  In k (map fst c) -> map fst (counter_incr k c) = map fst c.
Proof.
  induction c as [|[k' n] c IH]; simpl; [tauto|].
  destruct (String.eqb k' k) eqn:E; [reflexivity|].
  intros [H|H]; [subst; now rewrite String.eqb_refl in E|].
  simpl. now rewrite IH.
Qed.

Lemma counter_incr_new k c :
  ~ In k (map fst c) -> counter_incr k c = (c ++ [(k, 1%nat)])%list.
Proof.
  induction c as [|[k' n] c IH]; simpl; [reflexivity|].
  intros H. destruct (String.eqb k' k) eqn:E.
  - apply String.eqb_eq in E. tauto.
  - rewrite IH; tauto.
Qed.

Lemma counter_incr_counts k c l :
  NoDup (map fst c) ->
  Forall (fun wc => snd wc = count_eq (fst wc) l) c ->
  In k (map fst c) ->
  Forall (fun wc => snd wc = count_eq (fst wc) (l ++ [k])) (counter_incr k c).
Proof.
  induction c as [|[k' n] c IH]; simpl; [tauto|].
  intros Hnd Hc Hin. inversion Hnd as [|? ? Hk' Hnd']; subst.
  inversion Hc as [|? ? Hn Hc']; subst. simpl in Hn.
  destruct (String.eqb k' k) eqn:E.
  - apply String.eqb_eq in E. subst k'. constructor.
    + simpl. rewrite count_eq_app, count_eq_single, String.eqb_refl. lia.
    + rewrite Forall_forall in *. intros [w m] Hw. simpl.
      rewrite count_eq_app, count_eq_single.
      destruct (String.eqb w k) eqn:F.
      * apply String.eqb_eq in F. subst w. exfalso. apply Hk'.
        apply in_map_iff. now exists (k, m).
      * pose proof (Hc' _ Hw) as Hm. simpl in Hm. lia.
  - constructor.
    + simpl. rewrite count_eq_app, count_eq_single, E. lia.
    + apply IH; auto. destruct Hin as [H|H]; [|exact H].
      subst. now rewrite String.eqb_refl in E.
Qed.

Lemma StronglySorted_in_ext {A} (P Q : A -> A -> Prop) l :
  (forall a b, In a l -> In b l -> P a b -> Q a b) ->
  StronglySorted P l -> StronglySorted Q l.
Proof.
  intros H Hs. induction Hs as [|x l Hs IH Hx]; constructor.
  - apply IH. intros a b Ha Hb. apply H; now right.
  - rewrite Forall_forall in *. intros y Hy. apply H; [now left | now right | auto].
Qed.

Lemma StronglySorted_snoc {A} (P : A -> A -> Prop) l x :
  StronglySorted P l -> Forall (fun a => P a x) l -> StronglySorted P (l ++ [x]).
Proof.
  intros Hs Hx. induction Hs as [|y l Hs IH Hy]; simpl.
  - repeat constructor.
  - inversion Hx; subst. constructor; [now apply IH|].
    apply Forall_app. split; [exact Hy | now constructor].
Qed.

Lemma counter_ok_step l c k :
  counter_ok l c -> counter_ok (l ++ [k]) (counter_incr k c).
Proof.
  intros (Hnd & Hkeys & Hcount & Hsort).
  destruct (in_dec string_dec k (map fst c)) as [Hin|Hout].
  - assert (Hk : In k l) by now apply Hkeys.
    unfold counter_ok. rewrite (counter_incr_keys_in k c Hin).
    split; [exact Hnd|]. split; [|split].
    + intros w. rewrite Hkeys, in_app_iff. simpl. split; [tauto|].
      intros [H|[H|[]]]; [exact H | now subst].
    + now apply counter_incr_counts.
    + eapply StronglySorted_in_ext; [|exact Hsort].
      intros a b Ha Hb H. apply Hkeys in Ha, Hb.
      now rewrite !first_pos_app_in.
  - assert (Hk : ~ In k l) by (intros H; now apply Hout, Hkeys).
    unfold counter_ok. rewrite (counter_incr_new k c Hout), map_app. simpl.
    split; [|split; [|split]].
    + apply NoDup_app; [exact Hnd | repeat constructor; tauto |].
      intros w Hw [H|[]]. now subst.
    + intros w. rewrite !in_app_iff, Hkeys. reflexivity.
    + apply Forall_app. split.
      * rewrite Forall_forall in *. intros [w m] Hw. simpl.
        rewrite count_eq_app, count_eq_single.
        destruct (String.eqb w k) eqn:F.
        -- apply String.eqb_eq in F. subst w. exfalso. apply Hout.
           apply in_map_iff. now exists (k, m).
        -- pose proof (Hcount _ Hw) as Hm. simpl in Hm. lia.
      * repeat constructor. simpl.
        rewrite count_eq_app, count_eq_single, String.eqb_refl, (count_eq_absent k l Hk).
        reflexivity.
    + apply StronglySorted_snoc.
      * eapply StronglySorted_in_ext; [|exact Hsort].
        intros a b Ha Hb H. apply Hkeys in Ha, Hb.
        now rewrite !first_pos_app_in.
      * apply Forall_forall. intros a Ha. apply Hkeys in Ha.
        rewrite (first_pos_app_in a l [k] Ha), (first_pos_snoc_new k l Hk).
        now apply first_pos_in.
Qed.

Lemma Counter_snoc l k : Counter (l ++ [k]) = counter_incr k (Counter l).
Proof. unfold Counter. now rewrite fold_left_app. Qed.

(** [Counter] counts. *)
Lemma Counter_ok l : counter_ok l (Counter l).
Proof.
  induction l as [|k l IH] using rev_ind.
  - repeat split; simpl; try tauto; constructor.
  - rewrite Counter_snoc. now apply counter_ok_step.
Qed.

(* ================================================================= *)
(** * The exploratory stage *)

Lemma no_space_app s t : no_space (s ++ t) = no_space s && no_space t.
Proof.
  induction s as [|c s IH]; simpl; [reflexivity|]. now rewrite IH, andb_assoc.
Qed.

Lemma eqb_empty_app s c : String.eqb (s ++ String c "") "" = false.
Proof. destruct s; reflexivity. Qed.

(** The tokens of [split] are not empty and hold no whitespace. *)
Lemma split_from_tokens s cur :
  no_space cur = true ->
  Forall (fun t => t <> "" /\ no_space t = true) (split_from s cur).
Proof.
  revert cur. induction s as [|c s IH]; intros cur Hcur; simpl.
  - destruct (String.eqb cur "") eqn:E; [constructor|].
    apply String.eqb_neq in E. repeat constructor; assumption.
  - destruct (is_space c) eqn:Ec.
    + destruct (String.eqb cur "") eqn:E; [now apply IH|].
      apply String.eqb_neq in E. constructor; [now split | now apply IH].
    + apply IH. rewrite no_space_app, Hcur. simpl. now rewrite Ec.
Qed.

Lemma tokenize_tokens text :
  Forall (fun t => t <> "" /\ no_space t = true) (_tokenize text).
Proof.
  unfold _tokenize. apply Forall_forall. intros t Ht.
  apply filter_In in Ht as [Ht _].
  pose proof (split_from_tokens (lower (clean_text text)) "" eq_refl) as H.
  rewrite Forall_forall in H. now apply H.
Qed.

Lemma ranks_before_trans l a b c :
  ranks_before l a b -> ranks_before l b c -> ranks_before l a c.
Proof. unfold ranks_before. lia. Qed.

(** The entries [most_common] returns for the tokens [l]. *)
Lemma most_common_spec n l :
  let top := most_common n (Counter l) in
  List.length top = Nat.min n (List.length (nodup string_dec l)) /\
  NoDup (map fst top) /\
  (forall w c, In (w, c) top -> In w l /\ c = count_eq w l) /\
  StronglySorted (ranks_before l) top /\
  (forall w, In w l -> ~ In w (map fst top) ->
     forall e, In e top -> ranks_before l e (w, count_eq w l)).
Proof.
  destruct (Counter_ok l) as (Hnd & Hkeys & Hcount & Hsort).
  set (c := Counter l) in *.
  set (s := sorted_desc count_ltb c).
  assert (Hperm : Permutation s c) by apply sorted_desc_perm.
  assert (Hs : StronglySorted (ranks_before l) s).
  { apply (sorted_desc_sorted count_ltb (ranks_before l)
             (fun a b => (first_pos (fst a) l < first_pos (fst b) l)%nat)).
    - apply ranks_before_trans.
    - intros x y H. unfold count_ltb in H. apply Nat.ltb_lt in H. now left.
    - intros x y HR H. unfold count_ltb in H. apply Nat.ltb_ge in H.
      unfold ranks_before. lia.
    - apply (StronglySorted_map_fst
               (fun a b => (first_pos a l < first_pos b l)%nat) c). exact Hsort. }
  assert (Hnds : NoDup (map fst s)).
  { eapply Permutation_NoDup; [|exact Hnd]. apply Permutation_map. now symmetry. }
  assert (Hin : forall e, In e s <-> In e c).
  { intros e. split; apply Permutation_in; [exact Hperm | now symmetry]. }
  cbv zeta. unfold most_common. fold c. fold s.
  split; [|split; [|split; [|split]]].
  - rewrite length_firstn. unfold s. rewrite sorted_desc_length. f_equal.
    rewrite <- (length_map fst c). apply Permutation_length.
    apply NoDup_Permutation; [exact Hnd | apply NoDup_nodup|].
    intros w. rewrite Hkeys. symmetry. apply nodup_In.
  - rewrite <- (firstn_skipn n s), map_app in Hnds. now apply NoDup_app_remove_r in Hnds.
  - intros w k H. apply In_firstn, Hin in H.
    rewrite Forall_forall in Hcount. specialize (Hcount _ H). simpl in Hcount.
    split; [|exact Hcount]. apply Hkeys, in_map_iff. now exists (w, k).
  - now apply StronglySorted_firstn.
  - intros w Hw Hnot e He.
    apply Hkeys, in_map_iff in Hw as ([w' k] & Hfst & Hwk). simpl in Hfst. subst w'.
    assert (Hk : k = count_eq w l).
    { rewrite Forall_forall in Hcount. apply (Hcount _ Hwk). }
    subst k. apply Hin in Hwk.
    rewrite <- (firstn_skipn n s) in Hwk. apply in_app_or in Hwk as [H|H].
    + exfalso. apply Hnot, in_map_iff. now exists (w, count_eq w l).
    + eapply StronglySorted_split; eauto.
Qed.

(** C9. With a text column, and the scorer returning, the eda stage
    returns as word_frequency the entries, word and count, of the most
    frequent tokens of the first 500 texts, a token being a maximal run of
    characters other than whitespace of the normalized, lowercased text
    (never empty): all distinct tokens when there are at most 15, else 15
    of them; each with the number of its occurrences; in descending order
    of count, tokens of equal count in the order of their first encounter;
    and every token left out ranks after every token listed. *)
Theorem eda_word_frequency (lib : PyLib) (df : DataFrame) (model : scorer) (name : string) :
  text_column df name ->
  scorer_returns lib df model ->
  let texts := text_values lib df name in
  let tokens :=
    flat_map (fun text =>
                filter (fun t => negb (String.eqb t ""))
                       (split (lower (clean_text text))))
             (firstn 500 texts) in
  exists eda top,
    perform_eda lib df model = Ok eda /\
    get eda "word_frequency" PNone = PList (map word_entry top) /\
    List.length top = Nat.min 15 (List.length (nodup string_dec tokens)) /\
    NoDup (map fst top) /\
    (forall w c, In (w, c) top -> In w tokens /\ c = count_eq w tokens) /\
    StronglySorted (ranks_before tokens) top /\
    (forall w, In w tokens -> ~ In w (map fst top) ->
       forall e, In e top -> ranks_before tokens e (w, count_eq w tokens)) /\
    Forall (fun t => t <> "" /\ no_space t = true) tokens.
Proof.
  intros Hc Hs. cbv zeta.
  pose proof (column_found_text df name Hc) as Hf.
  destruct (Hs name Hc) as [scores Hm]. destruct Hc as [Hc _].
  unfold perform_eda. rewrite Hc, Hf.
  remember (text_values lib df name) as texts eqn:Et.
  set (tokens := flat_map _ (firstn 500 texts)).
  assert (Hsd : exists sd,
             match texts with
             | [] => Ok (PDict [])
             | _ :: _ =>
                 scores <- model (firstn 200 texts) ;;
                 Ok (counter_dict (Counter (map _sentiment_label scores)))
             end = Ok sd).
  { destruct texts; [eauto|]. rewrite Hm. cbn [bind]. eauto. }
  destruct Hsd as [sd Hsd].
  exists (PDict [("total_records", PInt (Z.of_nat (List.length (rows df))));
                 ("average_text_length",
                  PInt match map (fun text => str_len (clean_text text))
                                 (filter (fun text => negb (String.eqb text "")) texts) with
                       | [] => 0%Z
                       | _ :: _ =>
                           (Zsum (map (fun text => str_len (clean_text text))
                                      (filter (fun text => negb (String.eqb text "")) texts))
                            / Z.of_nat (List.length
                                (map (fun text => str_len (clean_text text))
                                     (filter (fun text => negb (String.eqb text "")) texts))))%Z
                       end);
                 ("sentiment_distribution", sd);
                 ("word_frequency", PList (map word_entry (most_common 15 (Counter tokens))))]),
    (most_common 15 (Counter tokens)).
  split.
  - rewrite Hsd. reflexivity.
  - split; [reflexivity|].
    destruct (most_common_spec 15 tokens) as (H1 & H2 & H3 & H4 & H5).
    repeat (split; [assumption|]).
    unfold tokens. apply Forall_flat_map, Forall_forall. intros text _.
    apply tokenize_tokens.
Qed.

(** The tokens "bad", "food" and "good" occur twice each and are listed in
    the order of their first encounter. *)
Example word_frequency_of_reviews :
  exists eda,
    perform_eda example_lib reviews (first_positive 2) = Ok eda /\
    get eda "word_frequency" PNone =
    PList (map word_entry [("bad", 2%nat); ("food", 2%nat); ("good", 2%nat)]).
Proof. eexists. split; vm_compute; reflexivity. Qed.

Lemma eda_word_frequency_witness :
  exists eda top,
    perform_eda example_lib reviews (first_positive 2) = Ok eda /\
    get eda "word_frequency" PNone = PList (map word_entry top) /\
    List.length top = 3%nat /\
    StronglySorted
      (ranks_before ["bad"; "food"; "good"; "food"; "good"; "bad"]) top.
Proof.
  destruct (eda_word_frequency example_lib reviews (first_positive 2) "review")
    as (eda & top & H1 & H2 & H3 & _ & _ & H4 & _).
  - split; [reflexivity | discriminate].
  - intros name _. eexists. reflexivity.
  - exists eda, top. split; [exact H1|]. split; [exact H2|].
    split; [exact H3 | exact H4].
Defined.

(* ================================================================= *)
(** * The diagnostic stage *)

Lemma correlation_pairs_cons lib a cols :
  correlation_pairs lib (a :: cols) =
  (map (pair_of lib a) cols ++ correlation_pairs lib cols)%list.
Proof. destruct a as [col_a xs]. reflexivity. Qed.

(** One tuple for each unordered pair of columns. *)
Lemma correlation_pairs_length lib cols :
  (2 * List.length (correlation_pairs lib cols) =
   List.length cols * (List.length cols - 1))%nat.
Proof.
  induction cols as [|a cols IH]; [reflexivity|].
  rewrite correlation_pairs_cons, length_app, length_map. cbn [List.length]. nia.
Qed.

(** The tuples are those of a column and a later column. *)
Lemma correlation_pairs_in lib cols e :
  In e (correlation_pairs lib cols) <->
  exists l1 a l2 b l3,
    cols = (l1 ++ a :: l2 ++ b :: l3)%list /\ e = pair_of lib a b.
Proof.
  induction cols as [|x cols IH].
  - split; [intros [] | intros (l1 & a & l2 & b & l3 & H & _)].
    destruct l1; discriminate.
  - rewrite correlation_pairs_cons, in_app_iff, in_map_iff, IH. split.
    + intros [(b & <- & Hb) | (l1 & a & l2 & b & l3 & -> & ->)].
      * apply in_split in Hb as (l2 & l3 & ->). now exists [], x, l2, b, l3.
      * now exists (x :: l1), a, l2, b, l3.
    + intros (l1 & a & l2 & b & l3 & H & ->). destruct l1 as [|y l1].
      * simpl in H. inversion H; subst. left. exists b. split; [reflexivity|].
        apply in_or_app. right. now left.
      * simpl in H. inversion H; subst. right. now exists l1, a, l2, b, l3.
Qed.

Lemma pair_strength_of lib a b :
  pair_strength (pair_of lib a b) = Qabs (fillna0 (corr lib (snd a) (snd b))).
Proof. reflexivity. Qed.






Open Scope Q_scope.



Lemma count_Q_nonneg xs : 0 <= count_Q xs.
Proof. unfold count_Q. rewrite <- (Zle_Qle 0). lia. Qed.







Close Scope Q_scope.

Open Scope Q_scope.





(** ** The exact coefficient of collinear columns *)





Close Scope Q_scope.




(* ================================================================= *)
(** * The normalizer and the tokenizer as splitting and joining *)

Lemma split_from_sub_runs p b s cur :
  (forall c, p c = true -> is_space c = true) ->
  (b = true -> cur = "") ->
  split_from (sub_runs p b s) cur = split_from s cur.
Proof.
  intros Hp. revert b cur. induction s as [|c s IH]; intros b cur Hb; [reflexivity|].
  cbn [sub_runs]. destruct (p c) eqn:Pc.
  - cbn [split_from]. rewrite (Hp c Pc). destruct b.
    + rewrite (Hb eq_refl). cbn. now apply IH.
    + change (split_from (String " " (sub_runs p true s)) cur)
        with (if String.eqb cur "" then split_from (sub_runs p true s) ""
              else cur :: split_from (sub_runs p true s) "").
      now rewrite IH.
  - cbn [split_from]. destruct (is_space c).
    + rewrite IH; [reflexivity | discriminate].
    + apply IH. discriminate.
Qed.

Lemma split_from_lstrip s : split_from (lstrip s) "" = split_from s "".
Proof.
  induction s as [|c s IH]; [reflexivity|]. cbn [lstrip split_from].
  destruct (is_space c) eqn:E; [exact IH|]. cbn [split_from]. now rewrite E.
Qed.

Lemma split_from_rstrip s cur : split_from (rstrip s) cur = split_from s cur.
Proof.
  revert cur. induction s as [|c s IH]; intros cur; [reflexivity|].
  cbn [rstrip]. destruct (rstrip s) as [|d r] eqn:R.
  - destruct (is_space c) eqn:E; cbn [split_from]; rewrite E, <- IH; cbn [split_from].
    + now destruct (String.eqb cur "").
    + reflexivity.
  - remember (String d r) as t eqn:Et. cbn [split_from]. now rewrite !IH.
Qed.

Lemma spaced_true_head s : spaced true s = true -> head_clean s = true.
Proof.
  destruct s as [|c s]; [reflexivity|]. simpl. destruct (is_space c); [|reflexivity].
  rewrite andb_false_r. discriminate.
Qed.

Lemma rstrip_fix_tail c s :
  rstrip (String c s) = String c s ->
  rstrip s = s /\ (is_space c = true -> s <> "").
Proof.
  cbn [rstrip]. destruct (rstrip s) as [|d r] eqn:R.
  - destruct (is_space c); [discriminate|]. intros H. injection H as <-.
    split; [reflexivity | discriminate].
  - intros H. injection H as <-. split; [reflexivity | discriminate].
Qed.

Lemma append_snoc cur c w : (cur ++ String c "") ++ w = cur ++ String c w.
Proof. induction cur as [|a cur IH]; simpl; [reflexivity | now rewrite IH]. Qed.

Lemma join_split_normal b w cur :
  spaced b w = true -> rstrip w = w -> (cur = "" -> head_clean w = true) ->
  join " " (split_from w cur) = cur ++ w.
Proof.
  revert b cur. induction w as [|c w IH]; intros b cur Hs Hr Hh.
  - cbn [split_from]. destruct (String.eqb cur "") eqn:E.
    + apply String.eqb_eq in E. now subst.
    + cbn. clear. induction cur; simpl; congruence.
  - destruct (rstrip_fix_tail c w Hr) as [Hr' Hne].
    cbn [spaced] in Hs. cbn [split_from]. destruct (is_space c) eqn:E.
    + apply andb_true_iff in Hs as [Hs Hs']. apply andb_true_iff in Hs as [Hc _].
      apply Ascii.eqb_eq in Hc. subst c.
      destruct (String.eqb cur "") eqn:Ec.
      { apply String.eqb_eq in Ec. specialize (Hh Ec). discriminate. }
      pose proof (IH true "" Hs' Hr' (fun _ => spaced_true_head w Hs')) as Hj.
      cbn [append] in Hj.
      destruct (split_from w "") as [|y l].
      { cbn in Hj. now destruct (Hne eq_refl). }
      change (join " " (cur :: y :: l)) with (cur ++ " " ++ join " " (y :: l)).
      now rewrite Hj.
    + apply andb_true_iff in Hs as [_ Hs'].
      rewrite (IH false (cur ++ String c "") Hs' Hr').
      * apply append_snoc.
      * intros H. destruct cur; discriminate.
Qed.

(** Collapsing the whitespace and stripping is splitting at whitespace
    and joining with single spaces. *)
Lemma strip_runs_join u :
  no_nul u = true ->
  strip (sub_runs is_space false (sub_runs is_crlftab false u)) = join " " (split u).
Proof.
  intros Hu.
  set (w := sub_runs is_space false (sub_runs is_crlftab false u)).
  assert (Hsp : spaced false (strip w) = true).
  { unfold strip. apply rstrip_spaced, (lstrip_spaced false).
    now apply sub_runs_spaced, sub_runs_no_nul. }
  assert (Hh : head_clean (strip w) = true)
    by (unfold strip; apply rstrip_head_clean, lstrip_head_clean).
  assert (Hr : rstrip (strip w) = strip w) by (unfold strip; apply rstrip_idem).
  rewrite <- (join_split_normal false (strip w) "" Hsp Hr (fun _ => Hh)) at 1.
  f_equal. unfold strip, split. rewrite split_from_rstrip, split_from_lstrip.
  unfold w. rewrite split_from_sub_runs; [|auto|discriminate].
  apply split_from_sub_runs; [apply crlftab_is_space | discriminate].
Qed.

(** X1. The normalizer is splitting at whitespace and joining with single
    spaces, as [" ".join(text.replace("\x00", " ").split())]: the words of
    the text, NUL counting as a space, separated by one space each. *)
Theorem clean_text_join_split (s : string) :
  clean_text s = join " " (split (replace_char zero " " s)).
Proof. unfold clean_text. apply strip_runs_join, replace_nul_no_nul. Qed.

Lemma replace_char_length a b s :
  String.length (replace_char a b s) = String.length s.
Proof. induction s as [|c s IH]; simpl; congruence. Qed.

Lemma sub_runs_length p b s : (String.length (sub_runs p b s) <= String.length s)%nat.
Proof.
  revert b. induction s as [|c s IH]; intros b; simpl; [lia|].
  destruct (p c); [destruct b|]; simpl;
    pose proof (IH true); pose proof (IH false); lia.
Qed.

Lemma lstrip_length s : (String.length (lstrip s) <= String.length s)%nat.
Proof.
  induction s as [|c s IH]; simpl; [lia|]. destruct (is_space c); simpl; lia.
Qed.

Lemma rstrip_length s : (String.length (rstrip s) <= String.length s)%nat.
Proof.
  induction s as [|c s IH]; cbn [rstrip]; [simpl; lia|].
  destruct (rstrip s) as [|d r]; [destruct (is_space c); simpl in *; lia|].
  cbn [String.length] in *. lia.
Qed.

Lemma clean_text_shorter s : (String.length (clean_text s) <= String.length s)%nat.
Proof.
  unfold clean_text, strip.
  etransitivity; [apply rstrip_length|]. etransitivity; [apply lstrip_length|].
  etransitivity; [apply sub_runs_length|]. etransitivity; [apply sub_runs_length|].
  now rewrite replace_char_length.
Qed.

Lemma split_from_nil s cur :
  split_from s cur = [] <-> cur = "" /\ all_chars is_space s = true.
Proof.
  revert cur. induction s as [|c s IH]; intros cur; cbn [split_from all_chars].
  - destruct (String.eqb cur "") eqn:E.
    + apply String.eqb_eq in E. tauto.
    + apply String.eqb_neq in E. split; [discriminate | tauto].
  - destruct (is_space c) eqn:Ec; cbn [andb].
    + destruct (String.eqb cur "") eqn:E.
      * apply String.eqb_eq in E. subst. rewrite IH. tauto.
      * apply String.eqb_neq in E. split; [discriminate | tauto].
    + rewrite IH. split; [|intros [_ H]; discriminate].
      intros [H _]. destruct cur; discriminate.
Qed.

Lemma join_nil_iff sep l :
  Forall (fun t => t <> "") l -> (join sep l = "" <-> l = []).
Proof.
  intros H. split; [|now intros ->].
  destruct l as [|x l]; [reflexivity|]. inversion H as [|? ? Hx _]; subst.
  destruct l; cbn [join]; intros E; destruct x; try discriminate; now destruct Hx.
Qed.

Lemma all_chars_replace_nul s :
  all_chars is_space (replace_char zero " " s) = all_chars is_blank s.
Proof.
  induction s as [|c s IH]; [reflexivity|]. cbn [replace_char all_chars].
  rewrite IH. f_equal. unfold is_blank.
  destruct (Ascii.eqb c zero); [now rewrite orb_true_r | now rewrite orb_false_r].
Qed.

Lemma split_nonempty s : Forall (fun t => t <> "") (split s).
Proof.
  eapply Forall_impl; [|apply (split_from_tokens s "" eq_refl)]. now intros t [H _].
Qed.

(** X2. The normalizer never lengthens a text, and its result is empty
    exactly when the text holds nothing but whitespace and NUL. *)
Theorem clean_text_length_and_blank (s : string) :
  (String.length (clean_text s) <= String.length s)%nat /\
  (clean_text s = "" <-> all_chars is_blank s = true).
Proof.
  split; [apply clean_text_shorter|].
  unfold clean_text. rewrite strip_runs_join by apply replace_nul_no_nul.
  rewrite (join_nil_iff " " _ (split_nonempty _)).
  unfold split. rewrite split_from_nil, all_chars_replace_nul. tauto.
Qed.

Lemma clean_text_fix s : normal_text s -> clean_text s = s.
Proof.
  intros (Hsp & Hh & Hr). unfold clean_text.
  rewrite (replace_nul_fix _ _ Hsp), (sub_crlftab_fix _ false _ Hsp),
    (sub_space_fix _ _ Hsp).
  unfold strip. now rewrite (lstrip_fix _ Hh).
Qed.

Lemma clean_text_normal s : normal_text (clean_text s).
Proof.
  split; [apply clean_text_spaced|]. split; [apply clean_text_head_clean|].
  unfold clean_text, strip. apply rstrip_idem.
Qed.

(** X3. The texts the normalizer leaves unchanged are exactly those in
    normal form: without NUL, with single spaces as the only whitespace,
    and with none at either end.  Every result of the normalizer is one. *)
Theorem clean_text_fixed_points (s : string) :
  (clean_text s = s <-> normal_text s) /\ normal_text (clean_text s).
Proof.
  split; [|apply clean_text_normal].
  split; [|apply clean_text_fix]. intros <-. apply clean_text_normal.
Qed.

(** ** The tokenizer *)

Lemma is_space_lower c : is_space (lower_char c) = is_space c.
Proof. destruct c as [[] [] [] [] [] [] [] []]; reflexivity. Qed.

Lemma lower_char_idem c : lower_char (lower_char c) = lower_char c.
Proof. destruct c as [[] [] [] [] [] [] [] []]; reflexivity. Qed.

Lemma lower_upper_char c : lower_char (upper_char c) = lower_char c.
Proof. destruct c as [[] [] [] [] [] [] [] []]; reflexivity. Qed.

Lemma lower_replace_upper_char c :
  lower_char (if Ascii.eqb (upper_char c) zero then " "%char else upper_char c) =
  lower_char (if Ascii.eqb c zero then " "%char else c).
Proof. destruct c as [[] [] [] [] [] [] [] []]; reflexivity. Qed.

Lemma lower_replace_lower_char c :
  lower_char (if Ascii.eqb (lower_char c) zero then " "%char else lower_char c) =
  lower_char (if Ascii.eqb c zero then " "%char else c).
Proof. destruct c as [[] [] [] [] [] [] [] []]; reflexivity. Qed.

Lemma map_string_app f s t :
  map_string f (s ++ t) = map_string f s ++ map_string f t.
Proof. induction s as [|c s IH]; simpl; [reflexivity | now rewrite IH]. Qed.

Lemma eqb_empty_map f s : String.eqb (map_string f s) "" = String.eqb s "".
Proof. now destruct s. Qed.

Lemma split_from_lower s cur :
  split_from (lower s) (lower cur) = map lower (split_from s cur).
Proof.
  unfold lower. revert cur. induction s as [|c s IH]; intros cur;
    cbn [map_string split_from].
  - rewrite eqb_empty_map. now destruct (String.eqb cur "").
  - rewrite is_space_lower, eqb_empty_map. destruct (is_space c).
    + destruct (String.eqb cur ""); cbn [map]; [|f_equal]; apply (IH "").
    + rewrite <- IH, map_string_app. reflexivity.
Qed.

Lemma lower_idem s : lower (lower s) = lower s.
Proof.
  unfold lower. induction s as [|c s IH]; simpl; [reflexivity|].
  now rewrite lower_char_idem, IH.
Qed.

Lemma filter_nonempty (l : list string) :
  Forall (fun t => t <> "") l ->
  filter (fun token => negb (String.eqb token "")) l = l.
Proof.
  induction 1 as [|t l Ht _ IH]; [reflexivity|]. simpl.
  apply String.eqb_neq in Ht. now rewrite Ht, IH.
Qed.

(** The test [if token] of the comprehension never fails, and the tokens
    are the words of the text itself. *)
Lemma tokenize_as_split s :
  _tokenize s = map lower (split (replace_char zero " " s)).
Proof.
  unfold _tokenize. rewrite (filter_nonempty _ (split_nonempty _)).
  unfold split. rewrite (split_from_lower _ "").
  f_equal. unfold clean_text, strip.
  rewrite split_from_rstrip, split_from_lstrip.
  rewrite split_from_sub_runs; [|auto|discriminate].
  apply split_from_sub_runs; [apply crlftab_is_space | discriminate].
Qed.

(** X4. The tokens of a text are its words in lower case, a word being a
    maximal run of characters other than whitespace and NUL: the
    tokenizer is [text.replace("\x00", " ").lower().split()], and
    normalizing the text beforehand does not change its tokens. *)
Theorem tokenize_words (s : string) :
  _tokenize s = split (lower (replace_char zero " " s)) /\
  _tokenize (clean_text s) = _tokenize s.
Proof.
  split.
  - rewrite tokenize_as_split. unfold split. symmetry. apply (split_from_lower _ "").
  - unfold _tokenize. now rewrite (clean_text_fix _ (clean_text_normal s)).
Qed.

Lemma lower_replace_upper s :
  lower (replace_char zero " " (upper s)) = lower (replace_char zero " " s).
Proof.
  unfold lower, upper. induction s as [|c s IH]; [reflexivity|].
  cbn [map_string replace_char]. now rewrite lower_replace_upper_char, IH.
Qed.

Lemma lower_replace_lower s :
  lower (replace_char zero " " (lower s)) = lower (replace_char zero " " s).
Proof.
  unfold lower. induction s as [|c s IH]; [reflexivity|].
  cbn [map_string replace_char]. now rewrite lower_replace_lower_char, IH.
Qed.

Lemma tokenize_lower_split s :
  _tokenize s = split_from (lower (replace_char zero " " s)) "".
Proof. rewrite tokenize_as_split. symmetry. apply (split_from_lower _ ""). Qed.

(** X5. On ASCII text, tokenizing ignores case: a text, its upper-case
    and its lower-case form have the same tokens, and no token changes
    when lowercased. *)
Theorem tokenize_ignores_case (s : string) :
  ascii_text s = true ->
  _tokenize (upper s) = _tokenize s /\
  _tokenize (lower s) = _tokenize s /\
  Forall (fun t => lower t = t) (_tokenize s).
Proof.
  intros _. split; [|split].
  - now rewrite !tokenize_lower_split, lower_replace_upper.
  - now rewrite !tokenize_lower_split, lower_replace_lower.
  - rewrite tokenize_as_split. apply Forall_forall. intros t Ht.
    apply in_map_iff in Ht as (x & <- & _). apply lower_idem.
Qed.

Lemma tokenize_ignores_case_witness :
  _tokenize (upper "Good food, BAD service") = _tokenize "Good food, BAD service" /\
  _tokenize "Good food, BAD service" = ["good"; "food,"; "bad"; "service"].
Proof.
  destruct (tokenize_ignores_case "Good food, BAD service" eq_refl) as [H _].
  split; [exact H | reflexivity].
Defined.
(* ================================================================= *)
(** * Cleaning a table again *)

Lemma normalize_value_idem c : _normalize_value (_normalize_value c) = _normalize_value c.
Proof.
  destruct c; try reflexivity. simpl.
  now rewrite (clean_text_fix _ (clean_text_normal s)).
Qed.

Lemma dropna_all_fix l :
  Forall (fun r => forallb is_null r = false) l -> dropna_all l = l.
Proof.
  unfold dropna_all. induction 1 as [|r l Hr _ IH]; [reflexivity|].
  simpl. now rewrite Hr, IH.
Qed.

Lemma drop_duplicates_from_fix seen l :
  distinct_rows l ->
  Forall (fun r => existsb (row_eqb r) seen = false) l ->
  drop_duplicates_from seen l = l.
Proof.
  intros D. revert seen. induction D as [|a l Ha D IH]; intros seen F; [reflexivity|].
  inversion F as [|? ? Fa Fl]; subst. cbn [drop_duplicates_from]. rewrite Fa.
  f_equal. apply IH. rewrite Forall_forall in *. intros r Hr. cbn [existsb].
  rewrite row_eqb_sym, (Ha r Hr). now apply Fl.
Qed.

Lemma drop_duplicates_from_length seen l :
  (List.length (drop_duplicates_from seen l) <= List.length l)%nat.
Proof.
  revert seen. induction l as [|a l IH]; intros seen; [reflexivity|].
  cbn [drop_duplicates_from]. destruct (existsb (row_eqb a) seen); simpl.
  - specialize (IH seen). lia.
  - specialize (IH (a :: seen)). lia.
Qed.

Lemma clean_dataframe_rows_le df :
  (List.length (rows (clean_dataframe df)) <= List.length (rows df))%nat.
Proof.
  unfold clean_dataframe. cbn [rows]. rewrite length_map.
  etransitivity; [apply drop_duplicates_from_length|].
  unfold dropna_all. apply filter_length_le.
Qed.

(** A table without duplicate rows and without entirely null rows, whose
    cells are normalized, is left as it is. *)
Lemma clean_dataframe_fix cols rs :
  distinct_rows rs ->
  Forall (fun r => forallb is_null r = false) rs ->
  Forall (fun r => map _normalize_value r = r) rs ->
  clean_dataframe (mkDF cols rs) = mkDF cols rs.
Proof.
  intros D N F. unfold clean_dataframe. cbn [rows columns]. f_equal.
  rewrite (dropna_all_fix _ N). unfold drop_duplicates.
  rewrite (drop_duplicates_from_fix [] rs D)
    by (apply Forall_forall; reflexivity).
  induction F as [|r l Hr _ IH]; [reflexivity|]. simpl.
  inversion D; inversion N; subst. rewrite Hr. f_equal. now apply IH.
Qed.

(** X6. Cleaning settles after two passes: after the second pass the rows
    are pairwise different, and cleaning the table a third time changes
    nothing.  No pass adds a row.  One pass is not enough: a second pass
    can remove a row that the first pass made equal to another. *)
Theorem clean_dataframe_settles :
  (forall df : DataFrame,
     let once := clean_dataframe df in
     let twice := clean_dataframe once in
     clean_dataframe twice = twice /\
     distinct_rows (rows twice) /\
     (List.length (rows twice) <= List.length (rows once))%nat /\
     (List.length (rows once) <= List.length (rows df))%nat) /\
  (exists df : DataFrame,
     clean_dataframe (clean_dataframe df) <> clean_dataframe df).
Proof.
  split; [intros df|].
  2:{ exists whitespace_twins. intros H.
      apply (f_equal (fun d => List.length (rows d))) in H.
      vm_compute in H. discriminate. }
  cbv zeta. split; [|split; [|split; apply clean_dataframe_rows_le]].
  - set (once := clean_dataframe df).
    assert (Hn : Forall (fun r => forallb is_null r = false) (rows once)).
    { apply Forall_forall. intros r Hr. unfold once, clean_dataframe in Hr.
      cbn [rows] in Hr. apply in_map_iff in Hr as (r0 & <- & Hr).
      rewrite normalize_keeps_null. apply drop_duplicates_from_incl in Hr.
      unfold dropna_all in Hr. apply filter_In in Hr as [_ Hr].
      now apply negb_true_iff. }
    assert (Hf : Forall (fun r => map _normalize_value r = r) (rows once)).
    { apply Forall_forall. intros r Hr. unfold once, clean_dataframe in Hr.
      cbn [rows] in Hr. apply in_map_iff in Hr as (r0 & <- & _).
      rewrite map_map. apply map_ext. intros c. apply normalize_value_idem. }
    set (kept := drop_duplicates (rows once)).
    assert (Hk : forall r, In r kept -> In r (rows once))
      by (intros r; apply drop_duplicates_from_incl).
    assert (Hkf : Forall (fun r => map _normalize_value r = r) kept).
    { rewrite Forall_forall in *. auto. }
    assert (Ht : clean_dataframe once = mkDF (columns once) kept).
    { unfold clean_dataframe at 1. rewrite (dropna_all_fix _ Hn). fold kept.
      f_equal. clear -Hkf. induction Hkf as [|r l Hr _ IH]; [reflexivity|].
      simpl. now rewrite Hr, IH. }
    rewrite Ht. apply clean_dataframe_fix.
    + apply drop_duplicates_from_distinct.
    + rewrite Forall_forall in *. auto.
    + exact Hkf.
  - set (once := clean_dataframe df). unfold clean_dataframe at 1. cbn [rows].
    assert (Hf : Forall (fun r => map _normalize_value r = r)
                        (drop_duplicates (dropna_all (rows once)))).
    { apply Forall_forall. intros r Hr. apply drop_duplicates_from_incl in Hr.
      unfold dropna_all in Hr. apply filter_In in Hr as [Hr _].
      unfold once, clean_dataframe in Hr. cbn [rows] in Hr.
      apply in_map_iff in Hr as (r0 & <- & _).
      rewrite map_map. apply map_ext. intros c. apply normalize_value_idem. }
    assert (E : map (map _normalize_value) (drop_duplicates (dropna_all (rows once)))
                = drop_duplicates (dropna_all (rows once))).
    { induction Hf as [|r l Hr _ IH]; [reflexivity|]. simpl. now rewrite Hr, IH. }
    rewrite E. apply drop_duplicates_from_distinct.
Qed.
(* ================================================================= *)
(** * The synthetic series: trend and forecast *)

Open Scope Q_scope.

(** An integer below [2^53] is a binary64 number. *)
Lemma rnd64_Z n : (0 <= n < 2 ^ 53)%Z -> rnd64 (inject_Z n) == inject_Z n.
Proof.
  intros [H0 H1]. destruct (Z.eq_dec n 0) as [->|Hn]; [reflexivity|].
  assert (Hpos : 0 < inject_Z n) by (unfold Qlt; simpl; lia).
  unfold rnd64. destruct (Qcompare_spec (inject_Z n) 0) as [H|H|H]; [lra | lra |].
  rewrite rnd64_pos_eq.
  destruct (binade_spec _ Hpos) as [Hlo _].
  set (e := binade (inject_Z n)) in *.
  assert (He : (e <= 52)%Z).
  { destruct (Z_le_gt_dec e 52) as [|Hgt]; [assumption|exfalso].
    assert (Hp : pow2 53 <= pow2 e) by (apply pow2_le; lia).
    rewrite (pow2_Z 53) in Hp by lia.
    assert (Hle : inject_Z (2 ^ 53) <= inject_Z n) by lra.
    rewrite <- Zle_Qle in Hle. lia. }
  set (sh := (52 - e)%Z). assert (Hsh : (0 <= sh)%Z) by (unfold sh; lia).
  assert (Hx : inject_Z n * pow2 sh == inject_Z (n * 2 ^ sh)).
  { rewrite inject_Z_mult, (pow2_Z sh Hsh). reflexivity. }
  assert (Hr : round_half_even (inject_Z n * pow2 sh) = (n * 2 ^ sh)%Z).
  { apply Z.le_antisymm.
    - rewrite <- (rhe_Z (n * 2 ^ sh)). apply rhe_mono. rewrite Hx. apply Qle_refl.
    - rewrite <- (rhe_Z (n * 2 ^ sh)) at 1. apply rhe_mono. rewrite Hx. apply Qle_refl. }
  rewrite Hr, <- Hx, <- Qmult_assoc, pow2_opp. ring.
Qed.

Lemma py_int_nonneg x : 0 <= x -> py_int x = Qfloor x.
Proof.
  intros H. unfold py_int. destruct (Qlt_le_dec x 0) as [Hl|]; [|reflexivity].
  exfalso. apply (Qlt_irrefl 0). eapply Qle_lt_trans; eauto.
Qed.

Lemma py_int_mono x y : 0 <= x -> x <= y -> (py_int x <= py_int y)%Z.
Proof.
  intros H0 H. rewrite !py_int_nonneg by lra.
  now apply Qfloor_resp_le.
Qed.

Lemma float_of_Z_nonneg n : (0 <= n)%Z -> 0 <= float_of_Z n.
Proof.
  intros H. apply rnd64_nonneg. change 0 with (inject_Z 0). now rewrite <- Zle_Qle.
Qed.

(** [int(n * x)] grows with the factor [x]. *)
Lemma int_times_mono n x y :
  (0 <= n)%Z -> 0 <= x -> x <= y -> (int_times n x <= int_times n y)%Z.
Proof.
  intros Hn Hx Hxy. pose proof (float_of_Z_nonneg n Hn) as Hf.
  unfold int_times, fmul. apply py_int_mono.
  - apply rnd64_nonneg. now apply Qmult_le_0_compat.
  - apply rnd64_mono; [now apply Qmult_le_0_compat|].
    rewrite !(Qmult_comm (float_of_Z n)). now apply Qmult_le_compat_r.
Qed.

Lemma int_times_nonneg n x : (0 <= n)%Z -> 0 <= x -> (0 <= int_times n x)%Z.
Proof.
  intros Hn Hx. pose proof (float_of_Z_nonneg n Hn) as Hf.
  unfold int_times, fmul. rewrite py_int_nonneg.
  - change 0%Z with (Qfloor 0). apply Qfloor_resp_le, rnd64_nonneg.
    now apply Qmult_le_0_compat.
  - apply rnd64_nonneg. now apply Qmult_le_0_compat.
Qed.

Lemma int_times_le n x :
  (0 <= n < 2 ^ 53)%Z -> 0 <= x -> x <= 1 -> (int_times n x <= n)%Z.
Proof.
  intros Hn Hx Hx1. pose proof (rnd64_Z n Hn) as He.
  assert (Hn0 : 0 <= inject_Z n).
  { change 0 with (inject_Z 0). rewrite <- Zle_Qle. lia. }
  unfold int_times, fmul, float_of_Z.
  assert (Hb : 0 <= rnd64 (rnd64 (inject_Z n) * x) <= inject_Z n).
  { apply rnd64_bounded; [| |exact He].
    - apply Qmult_le_0_compat; [|exact Hx]. now rewrite He.
    - rewrite He. rewrite <- (Qmult_1_r (inject_Z n)) at 2.
      rewrite !(Qmult_comm (inject_Z n)). now apply Qmult_le_compat_r. }
  rewrite py_int_nonneg by apply Hb.
  rewrite <- (Qfloor_Z n) at 2. apply Qfloor_resp_le, Hb.
Qed.

Lemma int_times_ge n x : (0 <= n < 2 ^ 53)%Z -> 1 <= x -> (n <= int_times n x)%Z.
Proof.
  intros Hn Hx. pose proof (rnd64_Z n Hn) as He.
  assert (Hn0 : 0 <= inject_Z n).
  { change 0 with (inject_Z 0). rewrite <- Zle_Qle. lia. }
  unfold int_times, fmul, float_of_Z.
  assert (Hp : inject_Z n <= rnd64 (inject_Z n) * x).
  { rewrite He. rewrite <- (Qmult_1_r (inject_Z n)) at 1.
    rewrite !(Qmult_comm (inject_Z n)). now apply Qmult_le_compat_r. }
  assert (Hb : inject_Z n <= rnd64 (rnd64 (inject_Z n) * x)).
  { rewrite <- He at 1. now apply rnd64_mono. }
  rewrite py_int_nonneg by lra.
  rewrite <- (Qfloor_Z n) at 1. now apply Qfloor_resp_le.
Qed.

Lemma flit_le a b c d : 0 <= a # b -> a # b <= c # d -> flit a b <= flit c d.
Proof. apply rnd64_mono. Qed.

Lemma flit_nonneg a b : 0 <= a # b -> 0 <= flit a b.
Proof. apply rnd64_nonneg. Qed.

Lemma rnd64_one : rnd64 1 == 1.
Proof. reflexivity. Qed.

Lemma flit_le_1 a b : 0 <= a # b -> a # b <= 1 -> flit a b <= 1.
Proof. intros H0 H1. now apply (rnd64_bounded (a # b) 1). Qed.

Lemma flit_ge_1 a b : 1 <= a # b -> 1 <= flit a b.
Proof. intros H. rewrite <- rnd64_one. now apply rnd64_mono. Qed.

Close Scope Q_scope.

Lemma perform_eda_total lib df model eda default :
  perform_eda lib df model = Ok eda ->
  get eda "total_records" default = PInt (Z.of_nat (List.length (rows df))).
Proof.
  unfold perform_eda.
  destruct (_find_text_column df) as [name|]; [|intros H; now inversion H].
  destruct (column_found (Some name)); [|intros H; now inversion H].
  destruct (text_values lib df name) as [|t texts].
  - cbn [bind]. intros H; now inversion H.
  - destruct (model _) as [scores|e]; cbn [bind]; [|discriminate].
    intros H; now inversion H.
Qed.

(** X7. The trend that the overview draws from a result of the eda stage
    has the four points Q1 to Q4; for a table of fewer than [2^53] rows
    the values never decrease from one quarter to the next, start at zero
    or above, and end at the number of rows. *)
Theorem trend_never_decreases lib df model (eda descriptive : pyval) :
  perform_eda lib df model = Ok eda ->
  (Z.of_nat (List.length (rows df)) < 2 ^ 53)%Z ->
  exists q1 q2 q3 : Z,
    get (_create_bi_overview eda descriptive) "trend" PNone =
    PList [PDict [("name", PStr "Q1"); ("value", PInt q1)];
           PDict [("name", PStr "Q2"); ("value", PInt q2)];
           PDict [("name", PStr "Q3"); ("value", PInt q3)];
           PDict [("name", PStr "Q4");
                  ("value", PInt (Z.of_nat (List.length (rows df))))]] /\
    (0 <= q1 <= q2)%Z /\ (q2 <= q3 <= Z.of_nat (List.length (rows df)))%Z.
Proof.
  intros He Hlt. set (n := Z.of_nat (List.length (rows df))) in *.
  assert (Hn : (0 <= n < 2 ^ 53)%Z) by (unfold n in *; lia).
  unfold _create_bi_overview. rewrite (perform_eda_total _ _ _ _ _ He). fold n.
  cbn [as_int]. do 3 eexists. split; [reflexivity|].
  assert (H0 : (0 <= n)%Z) by lia.
  repeat split.
  - apply int_times_nonneg; [exact H0 | now apply flit_nonneg].
  - apply int_times_mono; [exact H0 | now apply flit_nonneg | now apply flit_le].
  - apply int_times_mono; [exact H0 | now apply flit_nonneg | now apply flit_le].
  - apply int_times_le; [exact Hn | now apply flit_nonneg | now apply flit_le_1].
Qed.

Lemma trend_never_decreases_witness :
  exists q1 q2 q3 : Z,
    get (_create_bi_overview
           (match perform_eda example_lib (comments 10) (first_positive 2) with
            | Ok eda => eda
            | Raise _ => PNone
            end) (PDict [])) "trend" PNone =
    PList [PDict [("name", PStr "Q1"); ("value", PInt q1)];
           PDict [("name", PStr "Q2"); ("value", PInt q2)];
           PDict [("name", PStr "Q3"); ("value", PInt q3)];
           PDict [("name", PStr "Q4"); ("value", PInt 10)]] /\
    (0 <= q1 <= q2)%Z /\ (q2 <= q3 <= 10)%Z.
Proof.
  apply (trend_never_decreases example_lib (comments 10) (first_positive 2) _ (PDict [])
           eq_refl).
  reflexivity.
Defined.

(** X8. The forecast made of a result of the predictive stage starts at
    the current record count.  Without a trained model it has four points
    and, for a count below [2^53], never falls from one month to the
    next.  With a trained model it has five points, and the first month
    is not below the current count when the accuracy is not negative. *)
Theorem forecast_never_falls (lib : PyLib) (d : dict) (n : Z) :
  (0 <= n < 2 ^ 53)%Z ->
  (is_str (get (PDict d) "status" PNone) "trained" = false ->
   exists m1 m2 m3 : Z,
     _create_forecast lib (PDict d) n =
     [PDict [("period", PStr "Current"); ("predicted", PInt n)];
      PDict [("period", PStr "Month +1"); ("predicted", PInt m1)];
      PDict [("period", PStr "Month +2"); ("predicted", PInt m2)];
      PDict [("period", PStr "Month +3"); ("predicted", PInt m3)]] /\
     (n <= m1 <= m2)%Z /\ (m2 <= m3)%Z) /\
  (is_str (get (PDict d) "status" PNone) "trained" = true ->
   forall acc : Q,
     get (PDict d) "accuracy" (PFloat (flit 7 10)) = PFloat acc ->
     exists m1 m2 m3 m4 : Z,
       _create_forecast lib (PDict d) n =
       [PDict [("period", PStr "Current"); ("predicted", PInt n)];
        PDict [("period", PStr "Month +1"); ("predicted", PInt m1)];
        PDict [("period", PStr "Month +2"); ("predicted", PInt m2)];
        PDict [("period", PStr "Month +3"); ("predicted", PInt m3)];
        PDict [("period", PStr "Month +4"); ("predicted", PInt m4)]] /\
       ((0 <= acc)%Q -> (n <= m1)%Z)).
Proof.
  intros Hn. assert (H0 : (0 <= n)%Z) by lia. split; intros Hs.
  - unfold _create_forecast. rewrite Hs. cbn [negb].
    do 3 eexists. split; [reflexivity|]. repeat split.
    + apply int_times_ge; [exact Hn | now apply flit_ge_1].
    + apply int_times_mono; [exact H0 | now apply flit_nonneg | now apply flit_le].
    + apply int_times_mono; [exact H0 | now apply flit_nonneg | now apply flit_le].
  - intros acc Hacc. unfold _create_forecast. rewrite Hs, Hacc. cbn [negb as_num].
    do 4 eexists. split; [reflexivity|]. intros Ha.
    apply int_times_ge; [exact Hn|]. unfold fadd, fmul.
    rewrite <- rnd64_one at 1. apply rnd64_mono; [discriminate|].
    rewrite <- (Qplus_0_r 1) at 1. apply Qplus_le_r, rnd64_nonneg.
    apply Qmult_le_0_compat; [exact Ha | now apply flit_nonneg].
Qed.

Lemma forecast_never_falls_witness :
  exists m1 m2 m3 : Z,
    _create_forecast example_lib (skipped "Not enough text records for training.") 40 =
    [PDict [("period", PStr "Current"); ("predicted", PInt 40)];
     PDict [("period", PStr "Month +1"); ("predicted", PInt m1)];
     PDict [("period", PStr "Month +2"); ("predicted", PInt m2)];
     PDict [("period", PStr "Month +3"); ("predicted", PInt m3)]] /\
    (40 <= m1 <= m2)%Z /\ (m2 <= m3)%Z.
Proof.
  apply (forecast_never_falls example_lib
           [("status", PStr "skipped");
            ("reason", PStr "Not enough text records for training.")] 40).
  - lia.
  - reflexivity.
Defined.
(* ================================================================= *)
(** * The correlations of the diagnostic stage *)

Open Scope Q_scope.

Lemma rnd64_sym_bounded x c :
  - c <= x <= c -> rnd64 c == c -> - c <= rnd64 x <= c.
Proof.
  intros [Hlo Hhi] Ec. destruct (Qlt_le_dec x 0) as [Hneg|Hpos].
  - assert (Hb : 0 <= rnd64 (- x) <= c) by (apply rnd64_bounded; lra).
    assert (E : rnd64 x == - rnd64 (- x)).
    { unfold rnd64 at 1 2.
      destruct (Qcompare_spec x 0) as [H|H|H]; [lra | | lra].
      destruct (Qcompare_spec (- x) 0) as [H'|H'|H']; [lra | lra | reflexivity]. }
    rewrite E. lra.
  - assert (Hb : 0 <= rnd64 x <= c) by (apply rnd64_bounded; lra). lra.
Qed.

(** Rounding to 3 decimals keeps a coefficient between [-1] and [1]. *)
Lemma py_round3_range r : -1 <= r <= 1 -> -1 <= py_round r 3 <= 1.
Proof.
  intros [Hlo Hhi]. unfold py_round. change (inject_Z (10 ^ 3)) with 1000.
  set (k := round_half_even (r * 1000)).
  assert (Hk : (-1000 <= k <= 1000)%Z).
  { assert (H1 : inject_Z (-1000) <= r * 1000)
      by (change (inject_Z (-1000)) with (-1000 # 1); lra).
    assert (H2 : r * 1000 <= inject_Z 1000)
      by (change (inject_Z 1000) with (1000 # 1); lra).
    apply rhe_mono in H1, H2. rewrite rhe_Z in H1, H2. unfold k. lia. }
  clearbody k.
  assert (Hq : - (1) <= inject_Z k / 1000 <= 1).
  { split.
    - apply Qle_shift_div_l; [reflexivity|].
      change (- (1) * 1000) with (inject_Z (-1000)). rewrite <- Zle_Qle. lia.
    - apply Qle_shift_div_r; [reflexivity|].
      change (1 * 1000) with (inject_Z 1000). rewrite <- Zle_Qle. lia. }
  apply (rnd64_sym_bounded _ 1 Hq). reflexivity.
Qed.

Close Scope Q_scope.

Lemma sorted_pairs_in l p :
  In p (firstn 5 (sorted_desc pair_ltb l)) -> In p l.
Proof.
  intros H. apply In_firstn in H.
  eapply Permutation_in; [apply sorted_desc_perm | exact H].
Qed.

Lemma correlation_insights_form lib (df : DataFrame) :
  exists rs : list (string * Q),
    correlation_insights lib df = map insight rs /\
    (List.length rs <= 5)%nat /\
    ((List.length (numeric_columns df) < 2)%nat -> rs = []) /\
    Forall (fun pr =>
              exists a b : string * list cell,
                In a (numeric_columns df) /\ In b (numeric_columns df) /\
                fst pr = fst a ++ " vs " ++ fst b /\
                snd pr = py_round (fillna0 (corr lib (snd a) (snd b))) 3) rs.
Proof.
  unfold correlation_insights.
  destruct (2 <=? List.length (numeric_columns df))%nat eqn:E.
  - set (top := firstn 5 (sorted_desc pair_ltb
                            (correlation_pairs lib (numeric_columns df)))).
    exists (map (fun p : pair_entry =>
                   match p with
                   | (_, col_a, col_b, corr_val) =>
                       (col_a ++ " vs " ++ col_b, py_round corr_val 3)
                   end) top).
    split; [|split; [|split]].
    + rewrite map_map. apply map_ext. now intros [[[? ?] ?] ?].
    + unfold top. rewrite length_map, length_firstn. lia.
    + apply Nat.leb_le in E. lia.
    + apply Forall_forall. intros pr Hi.
      apply in_map_iff in Hi as (p & <- & Hp).
      apply sorted_pairs_in, correlation_pairs_in in Hp
        as (l1 & a & l2 & b & l3 & Hcols & ->).
      cbn [pair_of fst snd]. exists a, b. rewrite Hcols.
      rewrite !in_app_iff. cbn [In]. rewrite !in_app_iff. cbn [In].
      split; [tauto|]. split; [tauto|]. split; reflexivity.
  - exists []. split; [reflexivity|]. split; [simpl; lia|].
    split; [reflexivity | constructor].
Qed.

(** X9. The diagnostic stage reports at most five correlations, none for a
    table with fewer than two numeric columns; each one names two numeric
    columns as [a vs b] and holds the coefficient pandas computes for
    them, 0 when that is undefined, rounded to three decimals; the
    rounded value lies between [-1] and [1] whenever pandas' coefficient
    does. *)
Theorem correlation_insights_range lib (df : DataFrame) :
  exists rs : list (string * Q),
    correlation_insights lib df = map insight rs /\
    (List.length rs <= 5)%nat /\
    ((List.length (numeric_columns df) < 2)%nat -> rs = []) /\
    Forall (fun pr =>
              exists a b : string * list cell,
                In a (numeric_columns df) /\ In b (numeric_columns df) /\
                fst pr = fst a ++ " vs " ++ fst b /\
                let r := fillna0 (corr lib (snd a) (snd b)) in
                snd pr = py_round r 3 /\
                (corr lib (snd a) (snd b) = None -> snd pr = 0%Q) /\
                ((-1 <= r <= 1)%Q -> (-1 <= snd pr <= 1)%Q)) rs.
Proof.
  destruct (correlation_insights_form lib df) as (rs & H1 & H2 & H3 & H4).
  exists rs. repeat (split; [assumption|]).
  eapply Forall_impl; [|exact H4].
  intros pr (a & b & Ha & Hb & Hn & Hv). exists a, b.
  split; [exact Ha|]. split; [exact Hb|]. split; [exact Hn|].
  cbv zeta. split; [exact Hv|]. split.
  - intros E. rewrite Hv, E. reflexivity.
  - intros Hr. rewrite Hv. now apply py_round3_range.
Qed.
(* ================================================================= *)
(** * The report, section by section *)

(** The entries of a report, by the results of the four stages. *)
Lemma run_full_analysis_stages lib df model report :
  run_full_analysis lib df model = Ok report ->
  exists eda d g p,
    perform_eda lib df model = Ok eda /\
    descriptive_analytics lib df model = Ok d /\
    diagnostic_analytics lib df model = Ok g /\
    predictive_analytics lib df model = Ok p /\
    get report "biOverview" PNone = _create_bi_overview eda d /\
    entry report "descriptive" "kpis" = PList (_create_kpis lib eda d) /\
    entry report "descriptive" "chartData" = get eda "word_frequency" (PList []) /\
    entry report "diagnostic" "narrative" =
      PStr (_generate_narrative lib "diagnostic" g) /\
    entry report "diagnostic" "correlations" =
      PList (_format_correlations (as_list (get g "correlation_insights" (PList [])))) /\
    entry report "predictive" "narrative" =
      PStr (_generate_narrative lib "predictive" p) /\
    entry report "predictive" "forecast" =
      PList (_create_forecast lib p (as_int (get eda "total_records" (PInt 100)))) /\
    entry report "predictive" "confidence" =
      (if is_str (get p "status" PNone) "trained"
       then get p "accuracy" (PFloat (flit 75 100)) else PFloat (flit 65 100)) /\
    (is_str (get p "status" PNone) "trained" = false ->
     entry report "predictive" "modelExplanation" = PStr minimum_size) /\
    entry report "prescriptive" "narrative" =
      PStr (_generate_narrative lib "prescriptive" d) /\
    entry report "prescriptive" "recommendations" =
      PList (_create_recommendations d g).
Proof.
  unfold run_full_analysis.
  destruct (perform_eda lib df model) as [eda|]; [cbn [bind]|discriminate].
  destruct (descriptive_analytics lib df model) as [d|]; [cbn [bind]|discriminate].
  destruct (diagnostic_analytics lib df model) as [g|]; [cbn [bind]|discriminate].
  destruct (predictive_analytics lib df model) as [p|]; [cbn [bind]|discriminate].
  intros H. inversion H. exists eda, d, g, p.
  repeat (split; [reflexivity|]). split; [|split; reflexivity].
  unfold entry. cbn [get dict_get String.eqb Ascii.eqb Bool.eqb].
  now intros ->.
Qed.

Lemma perform_eda_inv lib df model eda :
  perform_eda lib df model = Ok eda ->
  exists avg sd wf,
    eda = PDict [("total_records", PInt (Z.of_nat (List.length (rows df))));
                 ("average_text_length", PInt avg);
                 ("sentiment_distribution", sd);
                 ("word_frequency", PList wf)].
Proof.
  unfold perform_eda.
  destruct (_find_text_column df) as [name|];
    [|intros H; inversion H; repeat eexists].
  destruct (column_found (Some name));
    [|intros H; inversion H; repeat eexists].
  destruct (text_values lib df name) as [|t texts].
  - cbn [bind]. intros H; inversion H; repeat eexists.
  - destruct (model _) as [scores|e]; cbn [bind]; [|discriminate].
    intros H; inversion H; repeat eexists.
Qed.

Lemma diagnostic_inv lib df model g :
  diagnostic_analytics lib df model = Ok g ->
  exists kw,
    g = PDict [("negative_keywords", PList kw);
               ("correlation_insights", PList (correlation_insights lib df))].
Proof.
  unfold diagnostic_analytics.
  destruct (_find_text_column df) as [name|];
    [|cbn [bind]; intros H; inversion H; eauto].
  destruct (column_found (Some name));
    [|cbn [bind]; intros H; inversion H; eauto].
  destruct (model _) as [scores|e]; cbn [bind]; [|discriminate].
  intros H; inversion H; eauto.
Qed.

(** The two forms of the result of the predictive stage. *)
Lemma predictive_cases lib df model :
  (exists reason, predictive_analytics lib df model = Ok (skipped reason)) \/
  (exists pairs,
     predictive_analytics lib df model =
     Ok (PDict [("status", PStr "trained");
                ("accuracy", PFloat (py_round (accuracy_score pairs) 3));
                ("precision", PFloat (py_round (precision_score pairs) 3));
                ("recall", PFloat (py_round (recall_score pairs) 3));
                ("f1_score", PFloat (py_round (f1_score pairs) 3))])).
Proof.
  unfold predictive_analytics.
  destruct (_find_text_column df) as [name|]; [|left; eauto].
  destruct (column_found (Some name)); [|left; eauto].
  destruct (_ <? 10)%nat; [left; eauto|].
  unfold train_and_evaluate.
  destruct (model _) as [scores|e]; cbn [bind try_except]; [|left; eauto].
  destruct (_ <? 2)%nat; cbn [try_except]; [left; eauto|].
  destruct (fit_predict lib _ _) as [pairs|e]; cbn [bind try_except]; [|left; eauto].
  right. eauto.
Qed.

(** X10. In every report the correlations of the diagnostic section are
    the insights of the diagnostic stage, in their order, followed by as
    many neutral placeholders as are missing to three.  An insight keeps
    its pair of columns as factor; its strength is the absolute value of
    the correlation, never negative; its relationship is positive when
    the correlation is above zero and negative otherwise, also for a
    correlation of zero. *)
Theorem report_correlations lib df model report :
  run_full_analysis lib df model = Ok report ->
  exists rs : list (string * Q),
    correlation_insights lib df = map insight rs /\
    as_list (entry report "diagnostic" "correlations") =
      (map formatted_insight rs ++ repeat no_correlation (3 - List.length rs))%list /\
    (List.length rs <= 5)%nat /\
    Forall (fun pr =>
              get (formatted_insight pr) "factor" PNone = PStr (fst pr) /\
              get (formatted_insight pr) "strength" PNone = PFloat (Qabs (snd pr)) /\
              (0 <= Qabs (snd pr))%Q /\
              (get (formatted_insight pr) "relationship" PNone = PStr "positive"
               <-> (0 < snd pr)%Q) /\
              (get (formatted_insight pr) "relationship" PNone = PStr "negative"
               <-> (snd pr <= 0)%Q)) rs.
Proof.
  intros H.
  destruct (run_full_analysis_stages _ _ _ _ H)
    as (eda & d & g & p & _ & _ & Hg & _ & _ & _ & _ & _ & Hc & _).
  destruct (diagnostic_inv _ _ _ _ Hg) as [kw ->].
  destruct (correlation_insights_form lib df) as (rs & Hrs & Hlen & _ & _).
  exists rs. split; [exact Hrs|]. split; [|split; [exact Hlen|]].
  - rewrite Hc. cbn [as_list get dict_get String.eqb Ascii.eqb Bool.eqb].
    rewrite Hrs. unfold _format_correlations.
    rewrite pad_to_3_spec, !length_map, map_map. reflexivity.
  - apply Forall_forall. intros pr _.
    split; [reflexivity|]. split; [reflexivity|]. split; [apply Qabs_nonneg|].
    unfold formatted_insight. cbn [get dict_get String.eqb Ascii.eqb Bool.eqb].
    destruct (Qltb 0 (snd pr)) eqn:E.
    + apply Qltb_true in E. split; [tauto|]. split; [discriminate|].
      intros Hle. exfalso. apply (Qlt_irrefl 0). eapply Qlt_le_trans; eauto.
    + apply Qltb_false in E. split; [split; [discriminate | tauto]|].
      split; [intros _; now apply Qnot_lt_le | reflexivity].
Qed.

Lemma report_correlations_witness :
  exists rs : list (string * Q),
    correlation_insights example_lib doubled = map insight rs /\
    (List.length rs <= 5)%nat.
Proof.
  destruct (report_correlations example_lib doubled failing_scorer _ eq_refl)
    as (rs & H1 & _ & H2 & _).
  exists rs. split; [exact H1 | exact H2].
Defined.

Lemma create_forecast_head lib p n :
  exists rest,
    _create_forecast lib p n =
    PDict [("period", PStr "Current"); ("predicted", PInt n)] :: rest.
Proof. unfold _create_forecast. destruct (negb _); eauto. Qed.

(** X11. The predictive section of a report.  The forecast starts at the
    number of rows of the table.  When the predictive stage is skipped,
    for whatever reason, the narrative is the sentence on insufficient
    training data, the confidence is 0.65, the explanation is the
    sentence on the minimum size, and the forecast has four points.  When
    a model is trained, the confidence is its accuracy, between 0 and 1,
    and the forecast has five points. *)
Theorem report_predictive lib df model report :
  run_full_analysis lib df model = Ok report ->
  (exists rest,
     as_list (entry report "predictive" "forecast") =
     PDict [("period", PStr "Current");
            ("predicted", PInt (Z.of_nat (List.length (rows df))))] :: rest) /\
  ((exists reason,
      predictive_analytics lib df model = Ok (skipped reason) /\
      entry report "predictive" "narrative" = PStr insufficient_data /\
      entry report "predictive" "confidence" = PFloat (flit 65 100) /\
      entry report "predictive" "modelExplanation" = PStr minimum_size /\
      List.length (as_list (entry report "predictive" "forecast")) = 4%nat) \/
   (exists d acc,
      predictive_analytics lib df model = Ok (PDict d) /\
      trained_result d /\
      dict_get d "accuracy" = Some (PFloat acc) /\
      unit_interval acc /\
      entry report "predictive" "confidence" = PFloat acc /\
      List.length (as_list (entry report "predictive" "forecast")) = 5%nat)).
Proof.
  intros H.
  destruct (run_full_analysis_stages _ _ _ _ H)
    as (eda & d & g & p & He & _ & _ & Hp & _ & _ & _ & _ & _ & Hn & Hf & Hc & Hx & _).
  destruct (perform_eda_inv _ _ _ _ He) as (avg & sd & wf & ->).
  cbn [get dict_get String.eqb Ascii.eqb Bool.eqb as_int] in Hf.
  split.
  - rewrite Hf. cbn [as_list]. apply create_forecast_head.
  - destruct (predictive_cases lib df model) as [[reason Hr]|[pairs Hr]];
      rewrite Hr in Hp; inversion Hp; subst p; clear Hp.
    + left. exists reason. split; [exact Hr|].
      split; [exact Hn|]. split; [exact Hc|]. split; [now apply Hx|].
      rewrite Hf. reflexivity.
    + right. eexists. exists (py_round (accuracy_score pairs) 3).
      split; [exact Hr|]. split; [split; [reflexivity | repeat eexists]|].
      split; [reflexivity|]. split; [exact (proj1 (metrics_unit pairs))|].
      split; [exact Hc|]. rewrite Hf. reflexivity.
Qed.

Lemma report_predictive_witness :
  exists rest,
    as_list (entry (match run_full_analysis example_lib (comments 3) (first_positive 2) with
                    | Ok report => report
                    | Raise _ => PNone
                    end) "predictive" "forecast") =
    PDict [("period", PStr "Current"); ("predicted", PInt 3)] :: rest.
Proof.
  destruct (report_predictive example_lib (comments 3) (first_positive 2) _ eq_refl)
    as [(rest & Hrest) _].
  exists rest. exact Hrest.
Defined.

(** X12. For a table without a string-typed column the scorer is not
    consulted: every scorer, also one that raises, gives the same result.
    When the table has a column, the result is a report with an empty
    word chart, skipped prediction and the advice for mixed sentiment;
    when it has none, [describe] raises. *)
Theorem report_without_text_column lib df :
  Forall (fun c => snd c <> DString) (columns df) ->
  (forall m1 m2 : scorer, run_full_analysis lib df m1 = run_full_analysis lib df m2) /\
  (columns df <> [] ->
   forall model : scorer,
   exists report,
     run_full_analysis lib df model = Ok report /\
     entry report "descriptive" "chartData" = PList [] /\
     predictive_analytics lib df model =
       Ok (skipped "No text column available for model training.") /\
     entry report "predictive" "confidence" = PFloat (flit 65 100) /\
     entry report "prescriptive" "narrative" = PStr balanced_narrative) /\
  (columns df = [] ->
   forall model : scorer, exists e, run_full_analysis lib df model = Raise e).
Proof.
  intros Hno. pose proof (no_string_column df Hno) as Hc.
  assert (He : forall m, perform_eda lib df m =
                         Ok (PDict [("total_records", PInt (Z.of_nat (List.length (rows df))));
                                    ("average_text_length", PInt 0);
                                    ("sentiment_distribution", PDict []);
                                    ("word_frequency", PList [])])).
  { intros m. unfold perform_eda. now rewrite Hc. }
  assert (Hd : forall m, descriptive_analytics lib df m =
                         (summary_stats <- describe_all lib df ;;
                          Ok (PDict [("summary_statistics", summary_stats);
                                     ("positive_percentage", PFloat (py_round (fmul 0 100) 2));
                                     ("negative_percentage", PFloat (py_round (fmul 0 100) 2))]))).
  { intros m. unfold descriptive_analytics. rewrite Hc.
    destruct (describe_all lib df); reflexivity. }
  assert (Hg : forall m, diagnostic_analytics lib df m =
                         Ok (PDict [("negative_keywords", PList []);
                                    ("correlation_insights", PList (correlation_insights lib df))])).
  { intros m. unfold diagnostic_analytics. now rewrite Hc. }
  assert (Hp : forall m, predictive_analytics lib df m =
                         Ok (skipped "No text column available for model training.")).
  { intros m. unfold predictive_analytics. now rewrite Hc. }
  split; [|split].
  - intros m1 m2. unfold run_full_analysis.
    now rewrite !He, !Hd, !Hg, !Hp.
  - intros Hcols model. unfold run_full_analysis.
    rewrite He, Hd, Hg, Hp. unfold describe_all.
    destruct (columns df); [now destruct Hcols|]. cbn [bind].
    eexists. split; [reflexivity|]. split; [reflexivity|].
    split; [reflexivity|]. split; [reflexivity|].
    unfold entry. cbn [get dict_get String.eqb Ascii.eqb Bool.eqb]. f_equal.
  - intros Hcols model. unfold run_full_analysis.
    rewrite He, Hd. unfold describe_all. rewrite Hcols. cbn [bind]. eauto.
Qed.

Lemma report_without_text_column_witness :
  run_full_analysis example_lib doubled failing_scorer =
  run_full_analysis example_lib doubled (first_positive 1).
Proof.
  apply (report_without_text_column example_lib doubled).
  repeat constructor; discriminate.
Defined.
(* ================================================================= *)
(** * What the stages read and return *)

Lemma column_found_name name : column_found (Some name) = true -> name <> "".
Proof. intros H ->. discriminate. Qed.

(** X13. The pipeline consults the scorer on two lists only, the first
    200 and the first 500 texts of the text column: two scorers that
    agree on these give the same results in every stage and the same
    report, whatever they do on other texts. *)
Theorem report_reads_prefixes lib df (m1 m2 : scorer) :
  (forall name, text_column df name ->
     m1 (firstn 200 (text_values lib df name)) =
     m2 (firstn 200 (text_values lib df name)) /\
     m1 (firstn 500 (text_values lib df name)) =
     m2 (firstn 500 (text_values lib df name))) ->
  perform_eda lib df m1 = perform_eda lib df m2 /\
  descriptive_analytics lib df m1 = descriptive_analytics lib df m2 /\
  diagnostic_analytics lib df m1 = diagnostic_analytics lib df m2 /\
  predictive_analytics lib df m1 = predictive_analytics lib df m2 /\
  run_full_analysis lib df m1 = run_full_analysis lib df m2.
Proof.
  intros H.
  assert (Hs : perform_eda lib df m1 = perform_eda lib df m2 /\
               descriptive_analytics lib df m1 = descriptive_analytics lib df m2 /\
               diagnostic_analytics lib df m1 = diagnostic_analytics lib df m2 /\
               predictive_analytics lib df m1 = predictive_analytics lib df m2).
  { unfold perform_eda, descriptive_analytics, diagnostic_analytics,
      predictive_analytics, train_and_evaluate.
    destruct (_find_text_column df) as [name|] eqn:Hc; [|repeat split].
    destruct (column_found (Some name)) eqn:Hf; [|repeat split].
    destruct (H name (conj Hc (column_found_name _ Hf))) as [E2 E5].
    rewrite E2, E5. repeat split. }
  destruct Hs as (He & Hd & Hg & Hp).
  repeat (split; [assumption|]).
  unfold run_full_analysis. now rewrite He, Hd, Hg, Hp.
Qed.

Lemma report_reads_prefixes_witness :
  run_full_analysis example_lib (comments 600) (at_most_500 (first_positive 2)) =
  run_full_analysis example_lib (comments 600) (first_positive 2).
Proof.
  destruct (report_reads_prefixes example_lib (comments 600)
              (at_most_500 (first_positive 2)) (first_positive 2))
    as (_ & _ & _ & _ & H); [|exact H].
  intros name [Hn _]. vm_compute in Hn. injection Hn as <-.
  split; vm_compute; reflexivity.
Defined.

(** ** The sentiment distribution *)

Lemma counter_incr_total k c :
  Zsum (map (fun lc : string * nat => Z.of_nat (snd lc)) (counter_incr k c)) =
  (Zsum (map (fun lc : string * nat => Z.of_nat (snd lc)) c) + 1)%Z.
Proof.
  induction c as [|[k' n] c IH]; cbn [counter_incr map Zsum fold_right snd].
  - reflexivity.
  - destruct (String.eqb k' k); cbn [map Zsum fold_right snd].
    + fold (Zsum (map (fun lc : string * nat => Z.of_nat (snd lc)) c)). lia.
    + fold (Zsum (map (fun lc : string * nat => Z.of_nat (snd lc)) (counter_incr k c))).
      fold (Zsum (map (fun lc : string * nat => Z.of_nat (snd lc)) c)).
      rewrite IH. lia.
Qed.

(** The counts of a [Counter] add up to the number of items counted. *)
Lemma Counter_total l :
  Zsum (map (fun lc : string * nat => Z.of_nat (snd lc)) (Counter l)) =
  Z.of_nat (List.length l).
Proof.
  induction l as [|k l IH] using rev_ind; [reflexivity|].
  rewrite Counter_snoc, counter_incr_total, IH, length_app. simpl. lia.
Qed.

Lemma counter_dict_present c w n default :
  NoDup (map fst c) -> In (w, n) c ->
  get (counter_dict c) w default = PInt (Z.of_nat n).
Proof.
  unfold counter_dict. cbn [get]. induction c as [|[k m] c IH]; [intros _ []|].
  cbn [map fst dict_get snd]. intros Hnd Hin. inversion Hnd as [|? ? Hk Hc]; subst.
  destruct Hin as [E|Hin].
  - inversion E; subst. now rewrite String.eqb_refl.
  - destruct (String.eqb k w) eqn:Ek.
    + apply String.eqb_eq in Ek. subst k. destruct Hk.
      apply in_map_iff. now exists (w, n).
    + now apply IH.
Qed.

Lemma counter_dict_absent c w default :
  ~ In w (map fst c) -> get (counter_dict c) w default = default.
Proof.
  unfold counter_dict. cbn [get]. induction c as [|[k m] c IH]; [reflexivity|].
  cbn [map fst dict_get snd In]. intros H.
  destruct (String.eqb k w) eqn:Ek.
  - apply String.eqb_eq in Ek. tauto.
  - apply IH. tauto.
Qed.

(** X14. With a text column, a table that has rows and a scorer that
    returns, the sentiment distribution of the eda stage counts the labels
    of the scores: one entry for each label that occurs, in the order of
    first occurrence, holding the number of its occurrences; looking up
    any label gives that number (none for a label that does not occur);
    and the counts add up to the number of scores. *)
Theorem sentiment_distribution_counts lib df model name scores :
  text_column df name -> rows df <> [] ->
  model (firstn 200 (text_values lib df name)) = Ok scores ->
  let labels := map _sentiment_label scores in
  exists eda c,
    perform_eda lib df model = Ok eda /\
    get eda "sentiment_distribution" PNone = counter_dict c /\
    counter_ok labels c /\
    (forall l, get (counter_dict c) l (PInt 0) = PInt (Z.of_nat (count_eq l labels))) /\
    Zsum (map (fun lc : string * nat => Z.of_nat (snd lc)) c) =
      Z.of_nat (List.length scores).
Proof.
  intros Hc Hrows Hm labels. pose proof (column_found_text df name Hc) as Hf.
  destruct Hc as [Hc _].
  pose proof (text_values_length lib df name Hc) as Hlen.
  unfold perform_eda. rewrite Hc, Hf.
  destruct (text_values lib df name) as [|t texts] eqn:Et.
  { destruct (rows df); [congruence | discriminate]. }
  rewrite Hm. cbn [bind]. fold labels.
  eexists. exists (Counter labels). split; [reflexivity|]. split; [reflexivity|].
  pose proof (Counter_ok labels) as Hok. split; [exact Hok|]. split.
  - intros l. destruct Hok as (Hnd & Hkeys & Hcount & _).
    destruct (in_dec string_dec l labels) as [Hin|Hout].
    + apply Hkeys, in_map_iff in Hin as ([l' n] & E & Hin). simpl in E. subst l'.
      rewrite Forall_forall in Hcount. pose proof (Hcount _ Hin) as En. simpl in En.
      rewrite <- En. now apply counter_dict_present.
    + rewrite counter_dict_absent by (now rewrite Hkeys).
      now rewrite (count_eq_absent l labels Hout).
  - rewrite Counter_total. unfold labels. now rewrite length_map.
Qed.

Lemma sentiment_distribution_counts_witness :
  exists eda c,
    perform_eda example_lib reviews (first_positive 2) = Ok eda /\
    get eda "sentiment_distribution" PNone = counter_dict c /\
    get (counter_dict c) "POSITIVE" (PInt 0) = PInt 2 /\
    get (counter_dict c) "NEUTRAL" (PInt 0) = PInt 0.
Proof.
  destruct (sentiment_distribution_counts example_lib reviews (first_positive 2) "review"
              [mkScore (Some "POSITIVE"); mkScore (Some "POSITIVE");
               mkScore (Some "NEGATIVE")])
    as (eda & c & H1 & H2 & _ & H3 & _).
  - split; [reflexivity | discriminate].
  - discriminate.
  - reflexivity.
  - exists eda, c. split; [exact H1|]. split; [exact H2|].
    split; [apply (H3 "POSITIVE") | apply (H3 "NEUTRAL")].
Defined.

(** ** The average text length *)

Lemma Zsum_bounds (l : list Z) m :
  Forall (fun x => (0 <= x <= m)%Z) l ->
  (0 <= Zsum l <= m * Z.of_nat (List.length l))%Z.
Proof.
  induction 1 as [|x l Hx _ IH]; [simpl; lia|].
  cbn [Zsum fold_right List.length]. fold (Zsum l). lia.
Qed.

(** X15. The average text length of the eda stage is not negative and
    does not exceed the length of the longest text of the text column; it
    is zero without a text column. *)
Theorem average_text_length_range lib df model eda :
  perform_eda lib df model = Ok eda ->
  exists avg,
    get eda "average_text_length" PNone = PInt avg /\
    (0 <= avg)%Z /\
    (forall name m,
       text_column df name -> (0 <= m)%Z ->
       Forall (fun text => (str_len text <= m)%Z) (text_values lib df name) ->
       (avg <= m)%Z) /\
    (Forall (fun c => snd c <> DString) (columns df) -> avg = 0%Z).
Proof.
  unfold perform_eda.
  destruct (_find_text_column df) as [name|] eqn:Hc.
  2:{ intros H; inversion H. exists 0%Z. split; [reflexivity|]. split; [lia|].
      split; [|reflexivity]. now intros name m [? _]. }
  destruct (column_found (Some name)) eqn:Hf.
  2:{ intros H; inversion H. exists 0%Z. split; [reflexivity|]. split; [lia|].
      split; [|reflexivity]. intros n m [Hn Hne] _ _. rewrite Hc in Hn. injection Hn as <-.
      apply negb_false_iff, String.eqb_eq in Hf. contradiction. }
  set (texts := text_values lib df name).
  set (lengths := map (fun text => str_len (clean_text text))
                      (filter (fun text => negb (String.eqb text "")) texts)).
  set (avg := match lengths with
              | [] => 0%Z
              | _ :: _ => (Zsum lengths / Z.of_nat (List.length lengths))%Z
              end).
  assert (Hb : forall m, (0 <= m)%Z ->
                 Forall (fun text => (str_len text <= m)%Z) texts ->
                 (0 <= avg <= m)%Z).
  { intros m Hm Hall.
    assert (Hl : Forall (fun x => (0 <= x <= m)%Z) lengths).
    { unfold lengths. apply Forall_forall. intros x Hx.
      apply in_map_iff in Hx as (t & <- & Ht). apply filter_In in Ht as [Ht _].
      rewrite Forall_forall in Hall. specialize (Hall t Ht).
      pose proof (clean_text_shorter t). unfold str_len in *. lia. }
    pose proof (Zsum_bounds lengths m Hl) as Hsum.
    unfold avg. destruct lengths as [|x l] eqn:El; [lia|].
    assert (Hn : (0 < Z.of_nat (List.length (x :: l)))%Z) by (simpl; lia).
    split; [apply Z.div_pos; lia|].
    apply Z.div_le_upper_bound; [exact Hn | lia]. }
  assert (H0 : (0 <= avg)%Z).
  { set (mx := Z.max 0 (fold_right Z.max 0%Z (map str_len texts))).
    apply (Hb mx); [unfold mx; lia|].
    unfold mx. clear. induction texts as [|t l IH]; constructor.
    - cbn [map fold_right]. lia.
    - eapply Forall_impl; [|exact IH]. cbn [map fold_right]. intros a Ha. lia. }
  intros H.
  assert (E : get eda "average_text_length" PNone = PInt avg).
  { destruct texts as [|t l] eqn:Et; cbn [bind] in H.
    - inversion H. reflexivity.
    - destruct (model _); cbn [bind] in H; [|discriminate]. inversion H. reflexivity. }
  exists avg. split; [exact E|]. split; [exact H0|]. split.
  - intros n m [Hn _] Hm Hall. rewrite Hc in Hn. injection Hn as <-.
    now apply Hb.
  - intros Hno. rewrite (no_string_column df Hno) in Hc. discriminate.
Qed.

Lemma average_text_length_range_witness :
  exists avg,
    get (match perform_eda example_lib reviews (first_positive 2) with
         | Ok eda => eda
         | Raise _ => PNone
         end) "average_text_length" PNone = PInt avg /\
    (0 <= avg <= 9)%Z.
Proof.
  destruct (average_text_length_range example_lib reviews (first_positive 2) _ eq_refl)
    as (avg & H1 & H2 & H3 & _).
  exists avg. split; [exact H1|]. split; [exact H2|].
  apply (H3 "review").
  - split; [reflexivity | discriminate].
  - lia.
  - repeat constructor; vm_compute; discriminate.
Defined.
(* ================================================================= *)
(** * Keywords, recommendations and dashboard data *)

Lemma negative_texts_in texts scores t :
  In t (negative_texts texts scores) <->
  exists s, In (t, s) (combine texts scores) /\ _sentiment_label s = "NEGATIVE".
Proof.
  unfold negative_texts. rewrite in_map_iff. split.
  - intros ([t' s] & E & H). simpl in E. subst t'.
    apply filter_In in H as [H1 H2]. exists s. split; [exact H1|].
    now apply String.eqb_eq.
  - intros (s & H1 & H2). exists (t, s). split; [reflexivity|].
    apply filter_In. split; [exact H1|]. simpl. rewrite H2. reflexivity.
Qed.

Lemma negative_texts_none texts scores :
  Forall (fun s => _sentiment_label s <> "NEGATIVE") scores ->
  negative_texts texts scores = [].
Proof.
  intros H. destruct (negative_texts texts scores) as [|t l] eqn:E; [reflexivity|].
  assert (Hin : In t (negative_texts texts scores)) by (rewrite E; now left).
  apply negative_texts_in in Hin as (s & Hs & Hl).
  apply in_combine_r in Hs. rewrite Forall_forall in H. now destruct (H s Hs).
Qed.

(** X16. With a text column and a scorer that returns, the negative
    keywords of the diagnostic stage are the most frequent tokens of the
    texts that stand, among the first 200, beside a score labelled
    NEGATIVE: all distinct tokens when there are at most 10, else 10 of
    them, each with the number of its occurrences, in descending order of
    count and, for equal counts, in the order of first encounter; every
    token left out ranks after every token listed.  There is none when no
    score is labelled NEGATIVE. *)
Theorem negative_keywords_spec lib df model name scores :
  text_column df name ->
  model (firstn 200 (text_values lib df name)) = Ok scores ->
  let texts := text_values lib df name in
  let negative := negative_texts texts scores in
  let tokens := flat_map _tokenize negative in
  exists g top,
    diagnostic_analytics lib df model = Ok g /\
    get g "negative_keywords" PNone = PList (map keyword_entry top) /\
    (forall t, In t negative <->
       exists s, In (t, s) (combine texts scores) /\ _sentiment_label s = "NEGATIVE") /\
    List.length top = Nat.min 10 (List.length (nodup string_dec tokens)) /\
    NoDup (map fst top) /\
    (forall w c, In (w, c) top -> In w tokens /\ c = count_eq w tokens) /\
    StronglySorted (ranks_before tokens) top /\
    (forall w, In w tokens -> ~ In w (map fst top) ->
       forall e, In e top -> ranks_before tokens e (w, count_eq w tokens)) /\
    (Forall (fun s => _sentiment_label s <> "NEGATIVE") scores -> top = []).
Proof.
  intros Hc Hm. cbv zeta. pose proof (column_found_text df name Hc) as Hf.
  destruct Hc as [Hc _]. unfold diagnostic_analytics. rewrite Hc, Hf, Hm. cbn [bind].
  remember (text_values lib df name) as texts eqn:Et.
  set (tokens := flat_map _tokenize (negative_texts texts scores)).
  eexists. exists (most_common 10 (Counter tokens)).
  split; [reflexivity|]. split; [reflexivity|].
  split; [intros t; apply negative_texts_in|].
  destruct (most_common_spec 10 tokens) as (H1 & H2 & H3 & H4 & H5).
  repeat (split; [assumption|]).
  intros Hno. unfold tokens. now rewrite (negative_texts_none texts scores Hno).
Qed.

Lemma negative_keywords_spec_witness :
  exists g top,
    diagnostic_analytics example_lib reviews (first_positive 2) = Ok g /\
    get g "negative_keywords" PNone = PList (map keyword_entry top) /\
    List.length top = 2%nat.
Proof.
  destruct (negative_keywords_spec example_lib reviews (first_positive 2) "review"
              [mkScore (Some "POSITIVE"); mkScore (Some "POSITIVE");
               mkScore (Some "NEGATIVE")])
    as (g & top & H1 & H2 & _ & H3 & _).
  - split; [reflexivity | discriminate].
  - reflexivity.
  - exists g, top. split; [exact H1|]. split; [exact H2 | exact H3].
Defined.

(** X17. The diagnostic narrative of a report is the fixed sentence on
    limited negative indicators when the diagnostic stage found no
    negative keyword, whatever correlations it found, and otherwise
    starts by naming the first three keywords; no keyword is found when
    no score is labelled NEGATIVE or the table has no string-typed
    column. *)
Theorem diagnostic_narrative_cases lib df model report :
  run_full_analysis lib df model = Ok report ->
  exists g kws,
    diagnostic_analytics lib df model = Ok g /\
    get g "negative_keywords" PNone = PList kws /\
    (kws = [] -> entry report "diagnostic" "narrative" = PStr limited_indicators) /\
    (kws <> [] ->
     exists rest,
       entry report "diagnostic" "narrative" =
       PStr ("Root cause analysis identifies key negative indicators: "
             ++ join ", " (map (fun k => as_str (get k "keyword" PNone)) (firstn 3 kws))
             ++ ". " ++ rest)) /\
    (forall name scores,
       text_column df name ->
       model (firstn 200 (text_values lib df name)) = Ok scores ->
       Forall (fun s => _sentiment_label s <> "NEGATIVE") scores -> kws = []) /\
    (Forall (fun c => snd c <> DString) (columns df) -> kws = []).
Proof.
  intros H.
  destruct (run_full_analysis_stages _ _ _ _ H)
    as (eda & d & g & p & _ & _ & Hg & _ & _ & _ & _ & Hn & _).
  destruct (diagnostic_inv _ _ _ _ Hg) as [kw ->].
  exists (PDict [("negative_keywords", PList kw);
                 ("correlation_insights", PList (correlation_insights lib df))]), kw.
  split; [exact Hg|]. split; [reflexivity|].
  split; [|split; [|split]].
  - intros ->. rewrite Hn. reflexivity.
  - intros Hne. rewrite Hn. destruct kw as [|k kw]; [now destruct Hne|].
    eexists. unfold _generate_narrative.
    cbn [String.eqb Ascii.eqb Bool.eqb get dict_get as_list]. reflexivity.
  - intros name scores Hc Hm Hno. pose proof (column_found_text df name Hc) as Hf.
    destruct Hc as [Hc _]. unfold diagnostic_analytics in Hg.
    rewrite Hc, Hf, Hm in Hg. cbn [bind] in Hg.
    rewrite (negative_texts_none _ scores Hno) in Hg. now inversion Hg.
  - intros Hno. unfold diagnostic_analytics in Hg.
    rewrite (no_string_column df Hno) in Hg. cbn [bind] in Hg. now inversion Hg.
Qed.

Lemma diagnostic_narrative_cases_witness :
  entry (match run_full_analysis example_lib doubled failing_scorer with
         | Ok report => report
         | Raise _ => PNone
         end) "diagnostic" "narrative" = PStr limited_indicators.
Proof.
  destruct (diagnostic_narrative_cases example_lib doubled failing_scorer _ eq_refl)
    as (g & kws & _ & _ & H1 & _ & _ & H2).
  apply H1, H2. repeat constructor; discriminate.
Defined.

Lemma correlation_insights_many lib df :
  (2 <? List.length (correlation_insights lib df))%nat =
  (3 <=? List.length (numeric_columns df))%nat.
Proof.
  unfold correlation_insights.
  pose proof (correlation_pairs_length lib (numeric_columns df)) as Hl.
  remember (List.length (numeric_columns df)) as n eqn:En.
  remember (List.length (correlation_pairs lib (numeric_columns df))) as k eqn:Ek.
  destruct n as [|[|[|n]]]; try reflexivity.
  - cbn [Nat.leb]. rewrite length_map, length_firstn, sorted_desc_length, <- Ek.
    simpl in Hl. apply Nat.ltb_ge. lia.
  - cbn [Nat.leb]. rewrite length_map, length_firstn, sorted_desc_length, <- Ek.
    apply Nat.ltb_lt. replace (S (S (S n)) - 1)%nat with (S (S n)) in Hl by lia. nia.
Qed.

(** X18. A report holds three recommendations.  The first is the feedback
    loop or the scaling of positive messaging; the second is to leverage
    feature relationships exactly when the table has at least three
    numeric columns, and to enhance data collection otherwise; the third
    is continuous monitoring, of low priority exactly when the positive
    percentage exceeds 60, and of high priority otherwise. *)
Theorem report_recommendations lib df model report :
  run_full_analysis lib df model = Ok report ->
  exists d first third,
    descriptive_analytics lib df model = Ok d /\
    as_list (entry report "prescriptive" "recommendations") =
      [first;
       if (3 <=? List.length (numeric_columns df))%nat
       then leverage_relationships else enhance_collection;
       third] /\
    (first = feedback_loop \/ first = scale_messaging) /\
    get third "action" PNone = PStr "Establish Continuous Monitoring" /\
    get third "priority" PNone =
      PStr (if Qltb 60 (as_num (get d "positive_percentage" (PInt 0)))
            then "Low" else "High").
Proof.
  intros H.
  destruct (run_full_analysis_stages _ _ _ _ H)
    as (eda & d & g & p & _ & Hd & Hg & _ & _ & _ & _ & _ & _ & _ & _ & _ & _ & _ & Hr).
  destruct (diagnostic_inv _ _ _ _ Hg) as [kw ->].
  exists d. rewrite Hr. unfold _create_recommendations.
  cbn [as_list get dict_get String.eqb Ascii.eqb Bool.eqb].
  rewrite correlation_insights_many.
  do 2 eexists. split; [exact Hd|]. split; [reflexivity|].
  split; [destruct (Qltb 40 _); [left | right]; reflexivity|].
  split; reflexivity.
Qed.

Lemma report_recommendations_witness :
  exists first third,
    as_list (entry (match run_full_analysis example_lib doubled failing_scorer with
                    | Ok report => report
                    | Raise _ => PNone
                    end) "prescriptive" "recommendations") =
    [first; enhance_collection; third].
Proof.
  destruct (report_recommendations example_lib doubled failing_scorer _ eq_refl)
    as (d & first & third & _ & H & _).
  exists first, third. exact H.
Defined.

(** ** Uniform sentiment *)

Open Scope Q_scope.

Lemma rnd64_eq x y : 0 <= x -> x == y -> rnd64 x == rnd64 y.
Proof. intros H E. apply Qle_antisym; apply rnd64_mono; lra. Qed.

Lemma rhe_eq x y : x == y -> round_half_even x = round_half_even y.
Proof. intros E. apply Z.le_antisymm; apply rhe_mono; lra. Qed.

Lemma percentage_all n : (0 < n)%Z -> py_round (fmul (int_div n n) 100) 2 == 100.
Proof.
  intros Hn.
  assert (Hq : 0 < inject_Z n) by (unfold Qlt; simpl; lia).
  assert (H1 : int_div n n == 1).
  { unfold int_div. rewrite <- rnd64_one.
    assert (E : inject_Z n / inject_Z n == 1) by (field; lra).
    apply rnd64_eq; rewrite E; [lra | reflexivity]. }
  assert (H2 : fmul (int_div n n) 100 == 100).
  { unfold fmul. transitivity (rnd64 100); [|reflexivity].
    pose proof (int_div_unit n n ltac:(lia)) as Hu.
    apply rnd64_eq; [|rewrite H1; reflexivity].
    apply Qmult_le_0_compat; lra. }
  unfold py_round.
  rewrite (rhe_eq _ (inject_Z 10000)) by (rewrite H2; reflexivity).
  rewrite rhe_Z. reflexivity.
Qed.

Lemma percentage_none t : py_round (fmul (int_div 0 t) 100) 2 == 0.
Proof. reflexivity. Qed.

Close Scope Q_scope.

Lemma count_eq_all x l : Forall (fun y => y = x) l -> count_eq x l = List.length l.
Proof.
  unfold count_eq. induction 1 as [|y l Hy _ IH]; [reflexivity|].
  subst y. simpl. rewrite String.eqb_refl. simpl. now rewrite IH.
Qed.

Lemma count_eq_none x l : Forall (fun y => y <> x) l -> count_eq x l = 0%nat.
Proof.
  intros H. apply count_eq_absent. intros Hin.
  rewrite Forall_forall in H. now apply (H x Hin).
Qed.

Lemma len_or_1_pos {A} (l : list A) : (0 < len_or_1 l)%Z.
Proof. destruct l; simpl; lia. Qed.

(** X19. With a text column and a scorer that returns: when every score
    is labelled POSITIVE the positive percentage is 100 and the negative
    one 0; when every score is labelled NEGATIVE it is the other way
    round; when no score has either label, in particular when the scorer
    returns no score, both are 0. *)
Theorem descriptive_uniform lib df model name scores :
  text_column df name ->
  model (firstn 200 (text_values lib df name)) = Ok scores ->
  exists d,
    descriptive_analytics lib df model = Ok d /\
    let pos := as_num (get d "positive_percentage" (PInt 0)) in
    let neg := as_num (get d "negative_percentage" (PInt 0)) in
    (scores <> [] -> Forall (fun s => _sentiment_label s = "POSITIVE") scores ->
     (pos == 100 /\ neg == 0)%Q) /\
    (scores <> [] -> Forall (fun s => _sentiment_label s = "NEGATIVE") scores ->
     (pos == 0 /\ neg == 100)%Q) /\
    (Forall (fun s => _sentiment_label s <> "POSITIVE" /\
                      _sentiment_label s <> "NEGATIVE") scores ->
     (pos == 0 /\ neg == 0)%Q).
Proof.
  intros Hc Hm. pose proof (column_found_text df name Hc) as Hf.
  destruct Hc as [Hc _]. unfold descriptive_analytics, describe_all.
  rewrite Hc, Hf, Hm.
  assert (Hcols : columns df <> []).
  { unfold _find_text_column in Hc. destruct (columns df); [discriminate | discriminate]. }
  destruct (columns df) as [|c0 cols]; [now destruct Hcols|]. cbn [bind fst snd].
  eexists. split; [reflexivity|].
  cbn [get dict_get String.eqb Ascii.eqb Bool.eqb as_num].
  set (labels := map _sentiment_label scores).
  assert (Hlen : forall x, scores <> [] -> Forall (fun y => y = x) labels ->
                           Z.of_nat (count_eq x labels) = len_or_1 labels /\
                           (0 < len_or_1 labels)%Z).
  { intros x Hne Hall. rewrite (count_eq_all x labels Hall).
    split; [|apply len_or_1_pos]. unfold labels.
    destruct scores; [now destruct Hne | reflexivity]. }
  assert (Hzero : forall x, Forall (fun y => y <> x) labels ->
                            Z.of_nat (count_eq x labels) = 0%Z).
  { intros x Hall. now rewrite (count_eq_none x labels Hall). }
  split; [|split].
  - intros Hne Hall.
    assert (Hl : Forall (fun y => y = "POSITIVE") labels).
    { unfold labels. apply Forall_forall. intros y Hy.
      apply in_map_iff in Hy as (s & <- & Hs). rewrite Forall_forall in Hall. auto. }
    destruct (Hlen "POSITIVE" Hne Hl) as [E Hp]. rewrite E.
    rewrite Hzero.
    + split; [now apply percentage_all | apply percentage_none].
    + eapply Forall_impl; [|exact Hl]. intros y ->. discriminate.
  - intros Hne Hall.
    assert (Hl : Forall (fun y => y = "NEGATIVE") labels).
    { unfold labels. apply Forall_forall. intros y Hy.
      apply in_map_iff in Hy as (s & <- & Hs). rewrite Forall_forall in Hall. auto. }
    destruct (Hlen "NEGATIVE" Hne Hl) as [E Hp]. rewrite E.
    rewrite Hzero.
    + split; [apply percentage_none | now apply percentage_all].
    + eapply Forall_impl; [|exact Hl]. intros y ->. discriminate.
  - intros Hall.
    rewrite !Hzero.
    + split; apply percentage_none.
    + unfold labels. apply Forall_forall. intros y Hy.
      apply in_map_iff in Hy as (s & <- & Hs). rewrite Forall_forall in Hall.
      apply (Hall s Hs).
    + unfold labels. apply Forall_forall. intros y Hy.
      apply in_map_iff in Hy as (s & <- & Hs). rewrite Forall_forall in Hall.
      apply (Hall s Hs).
Qed.

Lemma descriptive_uniform_witness :
  exists d,
    descriptive_analytics example_lib (comments 7) (constant_scorer (Some "positive")) = Ok d /\
    (as_num (get d "positive_percentage" (PInt 0)) == 100)%Q.
Proof.
  destruct (descriptive_uniform example_lib (comments 7)
              (constant_scorer (Some "positive")) "comment"
              (repeat (mkScore (Some "positive")) 7))
    as (d & H1 & H2 & _).
  - split; [reflexivity | discriminate].
  - reflexivity.
  - exists d. split; [exact H1|]. apply H2; [discriminate|].
    repeat constructor.
Defined.

(** ** The text column *)

Lemma find_string_spec (cols : list (string * dtype)) name :
  option_map fst (find (fun c => is_string_dtype (snd c)) cols) = Some name <->
  exists before after,
    cols = (before ++ (name, DString) :: after)%list /\
    Forall (fun c => snd c <> DString) before.
Proof.
  induction cols as [|[n t] cols IH]; cbn [find snd].
  - split; [discriminate|]. intros (b & a & E & _). now destruct b.
  - destruct t; cbn [is_string_dtype option_map fst].
    + split.
      * intros E. injection E as <-. exists [], cols. split; [reflexivity | constructor].
      * intros (b & a & E & F). destruct b as [|[n' t'] b].
        -- now inversion E.
        -- inversion E; subst. inversion F as [|? ? Hx _]; subst. now destruct Hx.
    + rewrite IH. split.
      * intros (b & a & -> & F). exists ((n, DNumber) :: b), a.
        split; [reflexivity|]. constructor; [discriminate | exact F].
      * intros (b & a & E & F). destruct b as [|[n' t'] b]; [discriminate|].
        inversion E; subst. inversion F; subst. eauto.
    + rewrite IH. split.
      * intros (b & a & -> & F). exists ((n, DOther) :: b), a.
        split; [reflexivity|]. constructor; [discriminate | exact F].
      * intros (b & a & E & F). destruct b as [|[n' t'] b]; [discriminate|].
        inversion E; subst. inversion F; subst. eauto.
Qed.

(** X20. The text column is the first string-typed column of the table,
    in the order of the columns: [_find_text_column] returns a name
    exactly when a column of that name is string-typed and no column
    before it is, and returns [None] exactly when no column is
    string-typed. *)
Theorem find_text_column_first (df : DataFrame) :
  (forall name,
     _find_text_column df = Some name <->
     exists before after,
       columns df = (before ++ (name, DString) :: after)%list /\
       Forall (fun c => snd c <> DString) before) /\
  (_find_text_column df = None <->
   Forall (fun c => snd c <> DString) (columns df)).
Proof.
  split; [intros name; apply find_string_spec|].
  split; [|apply no_string_column].
  intros H. apply Forall_forall. intros c Hc Hs.
  apply in_split in Hc as (l1 & l2 & E). unfold _find_text_column in H.
  rewrite E in H. clear E. induction l1 as [|[n t] l1 IH]; cbn [app find] in H.
  - rewrite Hs in H. discriminate.
  - cbn [snd] in H. destruct (is_string_dtype t); [discriminate | auto].
Qed.

(** ** The overview and the indicators *)

Lemma perform_eda_form lib df model eda :
  perform_eda lib df model = Ok eda ->
  exists avg (c top : list (string * nat)),
    eda = PDict [("total_records", PInt (Z.of_nat (List.length (rows df))));
                 ("average_text_length", PInt avg);
                 ("sentiment_distribution", counter_dict c);
                 ("word_frequency", PList (map word_entry top))] /\
    (List.length top <= 15)%nat.
Proof.
  unfold perform_eda.
  destruct (_find_text_column df) as [name|];
    [|intros H; inversion H; exists 0%Z, [], []; split; [reflexivity | simpl; lia]].
  destruct (column_found (Some name));
    [|intros H; inversion H; exists 0%Z, [], []; split; [reflexivity | simpl; lia]].
  assert (Hlen : forall l, (List.length (most_common 15 (Counter l)) <= 15)%nat).
  { intros l. unfold most_common. rewrite length_firstn. lia. }
  destruct (text_values lib df name) as [|t texts].
  - cbn [bind]. intros H; inversion H. exists 0%Z, [], []. split; [reflexivity | simpl; lia].
  - destruct (model _) as [scores|e]; cbn [bind]; [|discriminate].
    intros H; inversion H. do 3 eexists. split; [reflexivity | apply Hlen].
Qed.

(** X21. The overview never hands an empty series to the dashboard.  Of a
    result of the eda stage, its composition has one entry for each label
    of the sentiment distribution, with the count of the label, or the
    single entry Unknown when there is none; its distribution has one
    entry for each of the first eight words of the word frequency, with
    the count of the word, or the single entry No data when there is
    none; its trend has four points. *)
Theorem bi_overview_never_empty lib df model (eda descriptive : pyval) :
  perform_eda lib df model = Ok eda ->
  exists c top : list (string * nat),
    get eda "sentiment_distribution" PNone = counter_dict c /\
    get eda "word_frequency" PNone = PList (map word_entry top) /\
    let bi := _create_bi_overview eda descriptive in
    get bi "composition" PNone =
      PList (match c with
             | [] => [PDict [("label", PStr "Unknown"); ("value", PInt 100)]]
             | _ => map (fun lc => PDict [("label", PStr (fst lc));
                                          ("value", PInt (Z.of_nat (snd lc)))]) c
             end) /\
    get bi "distribution" PNone =
      PList (match top with
             | [] => [PDict [("category", PStr "No data"); ("value", PInt 0)]]
             | _ => map (fun wc => PDict [("category", PStr (fst wc));
                                          ("value", PInt (Z.of_nat (snd wc)))])
                        (firstn 8 top)
             end) /\
    (1 <= List.length (as_list (get bi "composition" PNone)))%nat /\
    (1 <= List.length (as_list (get bi "distribution" PNone)) <= 8)%nat /\
    List.length (as_list (get bi "trend" PNone)) = 4%nat.
Proof.
  intros He. destruct (perform_eda_form _ _ _ _ He) as (avg & c & top & -> & _).
  exists c, top. split; [reflexivity|]. split; [reflexivity|].
  cbv zeta. unfold _create_bi_overview.
  cbn [get dict_get String.eqb Ascii.eqb Bool.eqb as_list counter_dict dict_items].
  assert (Hc : match
                 map (fun lc : string * pyval =>
                        PDict [("label", PStr (fst lc)); ("value", snd lc)])
                     (map (fun kn : string * nat => (fst kn, PInt (Z.of_nat (snd kn)))) c)
               with
               | [] => [PDict [("label", PStr "Unknown"); ("value", PInt 100)]]
               | _ :: _ =>
                   map (fun lc : string * pyval =>
                          PDict [("label", PStr (fst lc)); ("value", snd lc)])
                       (map (fun kn : string * nat => (fst kn, PInt (Z.of_nat (snd kn)))) c)
               end =
               match c with
               | [] => [PDict [("label", PStr "Unknown"); ("value", PInt 100)]]
               | _ => map (fun lc => PDict [("label", PStr (fst lc));
                                            ("value", PInt (Z.of_nat (snd lc)))]) c
               end).
  { destruct c as [|x c]; [reflexivity|]. now rewrite map_map. }
  assert (Hd : match
                 map (fun item => PDict [("category", get item "word" PNone);
                                         ("value", get item "count" PNone)])
                     (firstn 8 (map word_entry top))
               with
               | [] => [PDict [("category", PStr "No data"); ("value", PInt 0)]]
               | _ :: _ =>
                   map (fun item => PDict [("category", get item "word" PNone);
                                           ("value", get item "count" PNone)])
                       (firstn 8 (map word_entry top))
               end =
               match top with
               | [] => [PDict [("category", PStr "No data"); ("value", PInt 0)]]
               | _ => map (fun wc => PDict [("category", PStr (fst wc));
                                            ("value", PInt (Z.of_nat (snd wc)))])
                          (firstn 8 top)
               end).
  { destruct top as [|x top]; [reflexivity|].
    rewrite firstn_map, map_map. reflexivity. }
  rewrite Hc, Hd. split; [reflexivity|]. split; [reflexivity|].
  split; [|split; [|reflexivity]].
  - destruct c; cbn [List.length map]; lia.
  - destruct top as [|x top]; [simpl; lia|].
    cbn [as_list]. rewrite length_map, length_firstn. cbn [List.length]. lia.
Qed.

Lemma bi_overview_never_empty_witness :
  exists c top : list (string * nat),
    get (match perform_eda example_lib reviews (first_positive 2) with
         | Ok eda => eda
         | Raise _ => PNone
         end) "sentiment_distribution" PNone = counter_dict c /\
    get (match perform_eda example_lib reviews (first_positive 2) with
         | Ok eda => eda
         | Raise _ => PNone
         end) "word_frequency" PNone = PList (map word_entry top).
Proof.
  destruct (bi_overview_never_empty example_lib reviews (first_positive 2) _ (PDict [])
              eq_refl) as (c & top & H1 & H2 & _).
  exists c, top. split; [exact H1 | exact H2].
Defined.

(** X22. The four indicator cards of a report, in their order: the total
    of records shows the number of rows of the table; the positive rate
    has the trend up exactly when the positive percentage exceeds 50, and
    the negative rate has the trend down exactly when the negative
    percentage is below 30; the other trends are up. *)
Theorem report_kpis lib df model report :
  run_full_analysis lib df model = Ok report ->
  exists d total average positive negative,
    descriptive_analytics lib df model = Ok d /\
    entry report "descriptive" "kpis" = PList [total; average; positive; negative] /\
    get total "label" PNone = PStr "Total Records" /\
    get total "value" PNone =
      PStr (format_int lib "," (Z.of_nat (List.length (rows df)))) /\
    get average "label" PNone = PStr "Avg Text Length" /\
    get positive "label" PNone = PStr "Positive Rate" /\
    get negative "label" PNone = PStr "Negative Rate" /\
    get total "trend" PNone = PStr "up" /\
    get average "trend" PNone = PStr "up" /\
    (get positive "trend" PNone = PStr "up" <->
     (50 < as_num (get d "positive_percentage" (PInt 0)))%Q) /\
    (get negative "trend" PNone = PStr "down" <->
     (as_num (get d "negative_percentage" (PInt 0)) < 30)%Q).
Proof.
  intros H.
  destruct (run_full_analysis_stages _ _ _ _ H)
    as (eda & d & g & p & He & Hd & _ & _ & _ & Hk & _).
  destruct (perform_eda_inv _ _ _ _ He) as (avg & sd & wf & ->).
  exists d. rewrite Hk. unfold _create_kpis.
  do 4 eexists. split; [exact Hd|]. split; [reflexivity|].
  cbn [get dict_get String.eqb Ascii.eqb Bool.eqb as_int].
  repeat (split; [reflexivity|]). split.
  - destruct (Qltb 50 _) eqn:E.
    + apply Qltb_true in E. tauto.
    + apply Qltb_false in E. split; [discriminate | tauto].
  - destruct (Qltb _ 30) eqn:E.
    + apply Qltb_true in E. tauto.
    + apply Qltb_false in E. split; [discriminate | tauto].
Qed.

Lemma report_kpis_witness :
  exists total average positive negative,
    entry (match run_full_analysis example_lib (comments 3) (first_positive 2) with
           | Ok report => report
           | Raise _ => PNone
           end) "descriptive" "kpis" = PList [total; average; positive; negative] /\
    get total "value" PNone = PStr "3".
Proof.
  destruct (report_kpis example_lib (comments 3) (first_positive 2) _ eq_refl)
    as (d & total & average & positive & negative & _ & H1 & _ & H2 & _).
  exists total, average, positive, negative. split; [exact H1 | exact H2].
Defined.
(* ================================================================= *)
(** * The empty table, and the descriptive narrative *)

Lemma text_values_empty lib df name : rows df = [] -> text_values lib df name = [].
Proof.
  intros H. unfold text_values, series, column_at. rewrite H.
  now destruct (index_of name (columns df)).
Qed.

Lemma text_column_columns df name : text_column df name -> columns df <> [].
Proof.
  intros [H _] E. unfold _find_text_column in H. rewrite E in H. discriminate.
Qed.

(** X23. A table that has a text column but no row.  The eda stage
    returns zeros and empty results, and the predictive stage is skipped
    for lack of records, both without consulting the scorer; the
    descriptive and diagnostic stages pass the empty list of texts to the
    scorer, so that the pipeline raises when the scorer raises on it, and
    otherwise returns a report with an empty word chart and confidence
    0.65. *)
Theorem report_of_empty_table lib df name :
  text_column df name -> rows df = [] ->
  (forall model : scorer,
     perform_eda lib df model =
     Ok (PDict [("total_records", PInt 0);
                ("average_text_length", PInt 0);
                ("sentiment_distribution", PDict []);
                ("word_frequency", PList [])])) /\
  (forall model : scorer,
     predictive_analytics lib df model =
     Ok (skipped "Not enough text records for training.")) /\
  (forall (model : scorer) e,
     model [] = Raise e -> run_full_analysis lib df model = Raise e) /\
  (forall (model : scorer) scores,
     model [] = Ok scores ->
     exists report,
       run_full_analysis lib df model = Ok report /\
       entry report "descriptive" "chartData" = PList [] /\
       entry report "predictive" "confidence" = PFloat (flit 65 100) /\
       List.length (as_list (entry report "predictive" "forecast")) = 4%nat).
Proof.
  intros Hc Hrows. pose proof (column_found_text df name Hc) as Hf.
  pose proof (text_column_columns df name Hc) as Hcols.
  destruct Hc as [Hc _]. pose proof (text_values_empty lib df name Hrows) as Ht.
  assert (He : forall model : scorer,
             perform_eda lib df model =
             Ok (PDict [("total_records", PInt 0);
                        ("average_text_length", PInt 0);
                        ("sentiment_distribution", PDict []);
                        ("word_frequency", PList [])])).
  { intros model. unfold perform_eda. rewrite Hc, Hf, Ht, Hrows. reflexivity. }
  assert (Hp : forall model : scorer,
             predictive_analytics lib df model =
             Ok (skipped "Not enough text records for training.")).
  { intros model. unfold predictive_analytics. rewrite Hc, Hf, Ht. reflexivity. }
  split; [exact He|]. split; [exact Hp|]. split.
  - intros model e Hm. unfold run_full_analysis. rewrite He. cbn [bind].
    unfold descriptive_analytics, describe_all. rewrite Hc, Hf, Ht.
    destruct (columns df); [now destruct Hcols|]. cbn [bind firstn].
    now rewrite Hm.
  - intros model scores Hm. unfold run_full_analysis. rewrite He, Hp. cbn [bind].
    unfold descriptive_analytics, diagnostic_analytics, describe_all.
    rewrite Hc, Hf, Ht. destruct (columns df); [now destruct Hcols|].
    cbn [bind firstn]. rewrite Hm. cbn [bind].
    eexists. split; [reflexivity|]. repeat split; reflexivity.
Qed.

Lemma report_of_empty_table_witness :
  run_full_analysis example_lib (comments 0) failing_scorer = Raise "inference failed" /\
  perform_eda example_lib (comments 0) failing_scorer =
  Ok (PDict [("total_records", PInt 0);
             ("average_text_length", PInt 0);
             ("sentiment_distribution", PDict []);
             ("word_frequency", PList [])]).
Proof.
  destruct (report_of_empty_table example_lib (comments 0) "comment")
    as (H1 & _ & H2 & _).
  - split; [reflexivity | discriminate].
  - reflexivity.
  - split; [apply H2; reflexivity | apply H1].
Defined.

Lemma descriptive_inv lib df model d :
  descriptive_analytics lib df model = Ok d ->
  exists st pos neg,
    d = PDict [("summary_statistics", st);
               ("positive_percentage", PFloat pos);
               ("negative_percentage", PFloat neg)].
Proof.
  unfold descriptive_analytics.
  destruct (describe_all lib df) as [st|]; cbn [bind]; [|discriminate].
  destruct (_find_text_column df) as [name|];
    [|cbn [bind]; intros H; inversion H; eauto].
  destruct (column_found (Some name));
    [|cbn [bind]; intros H; inversion H; eauto].
  destruct (model _) as [scores|e]; cbn [bind]; [|discriminate].
  intros H; inversion H; eauto.
Qed.

Lemma run_full_analysis_descriptive lib df model report :
  run_full_analysis lib df model = Ok report ->
  exists eda d,
    perform_eda lib df model = Ok eda /\
    descriptive_analytics lib df model = Ok d /\
    entry report "descriptive" "narrative" =
      PStr (_generate_narrative lib "descriptive" (dict_merge eda d)).
Proof.
  unfold run_full_analysis.
  destruct (perform_eda lib df model) as [eda|]; [cbn [bind]|discriminate].
  destruct (descriptive_analytics lib df model) as [d|]; [cbn [bind]|discriminate].
  destruct (diagnostic_analytics lib df model) as [g|]; [cbn [bind]|discriminate].
  destruct (predictive_analytics lib df model) as [p|]; [cbn [bind]|discriminate].
  intros H. inversion H. exists eda, d. repeat split; reflexivity.
Qed.

(** X24. The descriptive narrative of a report states the number of rows
    of the table and the two percentages of the descriptive stage; it
    calls the patterns favorable exactly when the positive percentage
    exceeds the negative one, and concerning otherwise; they warrant
    celebration exactly when the positive percentage exceeds 70,
    attention exactly when the negative percentage exceeds 40, which
    excludes the former, and monitoring otherwise. *)
Theorem report_descriptive_narrative lib df model report :
  run_full_analysis lib df model = Ok report ->
  exists d,
    descriptive_analytics lib df model = Ok d /\
    let pos := as_num (get d "positive_percentage" (PInt 0)) in
    let neg := as_num (get d "negative_percentage" (PInt 0)) in
    entry report "descriptive" "narrative" =
      PStr ("Analysis of " ++ format_int lib "," (Z.of_nat (List.length (rows df)))
            ++ " records reveals a sentiment distribution with "
            ++ format_float lib ".1f" pos ++ "% positive and "
            ++ format_float lib ".1f" neg ++ "% negative responses. "
            ++ "The dataset demonstrates "
            ++ (if Qltb neg pos then "favorable" else "concerning")
            ++ " patterns that warrant "
            ++ (if Qltb 70 pos then "celebration"
                else if Qltb 40 neg then "attention" else "monitoring")
            ++ ".") /\
    (Qltb 40 neg = true -> Qltb 70 pos = false).
Proof.
  intros H.
  destruct (run_full_analysis_descriptive _ _ _ _ H) as (eda & d & He & Hd & Hn).
  exists d. split; [exact Hd|]. cbv zeta.
  destruct (descriptive_counts _ _ _ _ Hd) as (p & n & t & Hp & Hn0 & Hle & Ht & Epos & Eneg).
  destruct (perform_eda_inv _ _ _ _ He) as (avg & sd & wf & ->).
  destruct (descriptive_inv _ _ _ _ Hd) as (st & pos & neg & ->).
  split.
  - rewrite Hn. reflexivity.
  - rewrite Epos, Eneg. cbn [as_num]. intros H40.
    apply Qltb_true in H40. apply Qltb_false. intros H70.
    now apply (percentages_exclusive p n t Hp Hn0 Hle Ht H70).
Qed.

Lemma report_descriptive_narrative_witness :
  exists d,
    descriptive_analytics example_lib (comments 4) (first_positive 1) = Ok d /\
    Qltb 70 (as_num (get d "positive_percentage" (PInt 0))) = false.
Proof.
  destruct (report_descriptive_narrative example_lib (comments 4) (first_positive 1)
              _ eq_refl) as (d & Hd & _ & H).
  exists d. split; [exact Hd|]. apply H.
  inversion Hd; subst d. vm_compute. reflexivity.
Defined.
